(** * The authorization and resilience layer of okta/client.go

    A shallow embedding of the request-authorization, token-exchange,
    DPoP, rate-limit and response-cache code of [okta/client.go], with
    the properties of its specification stated and settled against it.

    Conventions.
    - Go [string] is a byte string: Rocq [string] (a list of 8-bit [ascii]).
    - Go [int], [int64] and [time.Duration] are [Z] with the 64-bit
      two's-complement wrap-around written out ([int64]).
    - [time.Time] is the number of nanoseconds since the Unix epoch.
    - Maps ([http.Header], the go-cache item table) are stdpp [gmap]s.
    - A Go function that returns [(v, err)] returns a pair whose second
      component is an [option error] ([None] is Go's [nil]). *)

From Stdlib Require Import ZArith List String Ascii Bool Lia.
From stdpp Require Import base option gmap strings list fin_maps pretty.
Import ListNotations.

Local Open Scope string_scope.
Local Open Scope list_scope.
Local Open Scope Z_scope.

(** ** Machine integers *)

Definition int64 (x : Z) : Z := (x + 2 ^ 63) mod 2 ^ 64 - 2 ^ 63.

Definition in_int64 (x : Z) : Prop := - 2 ^ 63 <= x < 2 ^ 63.

Definition uint32 (x : Z) : Z := x mod 2 ^ 32.

(** ** Byte strings *)

Definition byte_of_ascii (c : ascii) : Z := Z.of_N (N_of_ascii c).

Definition ascii_of_byte (b : Z) : ascii := ascii_of_N (Z.to_N (b mod 256)).

Fixpoint bytes_of_string (s : string) : list Z :=
  match s with
  | EmptyString => []
  | String c r => byte_of_ascii c :: bytes_of_string r
  end.

Fixpoint string_of_bytes (l : list Z) : string :=
  match l with
  | [] => EmptyString
  | b :: r => String (ascii_of_byte b) (string_of_bytes r)
  end.

(** *** unicode/utf8: decoding one rune, as [utf8.DecodeRuneInString]
    and the [for _, r := range s] loop do.  An invalid or truncated
    encoding yields [RuneError] and consumes one byte. *)

Definition RuneError : Z := 65533.

Definition in_range (lo hi b : Z) : bool := (lo <=? b) && (b <=? hi).

(** Size of the encoding that starts with byte [b0] and the accepted range
    of its second byte (the [first] and [acceptRanges] tables); [None] for
    a byte that starts no encoding. *)
Definition utf8_first (b0 : Z) : option (nat * Z * Z) :=
  if in_range 194 223 b0 then Some (2%nat, 128, 191)
  else if b0 =? 224 then Some (3%nat, 160, 191)
  else if in_range 225 236 b0 then Some (3%nat, 128, 191)
  else if b0 =? 237 then Some (3%nat, 128, 159)
  else if in_range 238 239 b0 then Some (3%nat, 128, 191)
  else if b0 =? 240 then Some (4%nat, 144, 191)
  else if in_range 241 243 b0 then Some (4%nat, 128, 191)
  else if b0 =? 244 then Some (4%nat, 128, 143)
  else None.

Definition DecodeRune (s : list Z) : Z * nat :=
  match s with
  | [] => (RuneError, 0%nat)
  | s0 :: rest =>
      if s0 <? 128 then (s0, 1%nat)
      else
        match utf8_first s0 with
        | None => (RuneError, 1%nat)
        | Some (sz, lo, hi) =>
            match rest with
            | [] => (RuneError, 1%nat)
            | s1 :: rest1 =>
                if negb (in_range lo hi s1) then (RuneError, 1%nat)
                else if (sz <=? 2)%nat then
                  (Z.lor (Z.shiftl (Z.land s0 31) 6) (Z.land s1 63), 2%nat)
                else
                  match rest1 with
                  | [] => (RuneError, 1%nat)
                  | s2 :: rest2 =>
                      if negb (in_range 128 191 s2) then (RuneError, 1%nat)
                      else if (sz <=? 3)%nat then
                        (Z.lor (Z.lor (Z.shiftl (Z.land s0 15) 12)
                                      (Z.shiftl (Z.land s1 63) 6))
                               (Z.land s2 63), 3%nat)
                      else
                        match rest2 with
                        | [] => (RuneError, 1%nat)
                        | s3 :: _ =>
                            if negb (in_range 128 191 s3) then (RuneError, 1%nat)
                            else
                              (Z.lor (Z.lor (Z.lor (Z.shiftl (Z.land s0 7) 18)
                                                   (Z.shiftl (Z.land s1 63) 12))
                                            (Z.shiftl (Z.land s2 63) 6))
                                     (Z.land s3 63), 4%nat)
                        end
                  end
            end
        end
  end.

(** The runes of a string in order.  Each step consumes at least one
    byte, so [length s] steps are always enough. *)
Fixpoint runes_fuel (fuel : nat) (s : list Z) : list Z :=
  match fuel with
  | O => []
  | S fuel' =>
      match s with
      | [] => []
      | _ :: _ =>
          let '(r, size) := DecodeRune s in
          r :: runes_fuel fuel' (skipn size s)
      end
  end.

Definition runes (s : string) : list Z :=
  runes_fuel (length (bytes_of_string s)) (bytes_of_string s).

(** [StringToAsciiBytes]: one byte per rune, the rune converted with
    [byte(r)], which keeps its low eight bits. *)
Definition StringToAsciiBytes (s : string) : list Z :=
  map (fun r => r mod 256) (runes s).

(** ** crypto/sha256 (FIPS 180-4) *)

Module SHA256.

(** The round constants and the initial state are the first 32 bits of the
    fractional parts of the cube roots of the first 64 primes and of the
    square roots of the first 8. *)
Definition primes : list Z :=
  [ 2; 3; 5; 7; 11; 13; 17; 19; 23; 29; 31; 37; 41; 43; 47; 53; 59; 61; 67; 71;
    73; 79; 83; 89; 97; 101; 103; 107; 109; 113; 127; 131; 137; 139; 149; 151;
    157; 163; 167; 173; 179; 181; 191; 193; 197; 199; 211; 223; 227; 229; 233;
    239; 241; 251; 257; 263; 269; 271; 277; 281; 283; 293; 307; 311 ].

(** The integer cube root of [n], found bit by bit below [2 ^ bits]. *)
Fixpoint cube_root (bits : nat) (acc n : Z) : Z :=
  match bits with
  | O => acc
  | S bits' =>
      let candidate := acc + 2 ^ Z.of_nat bits' in
      if candidate * candidate * candidate <=? n
      then cube_root bits' candidate n
      else cube_root bits' acc n
  end.

Definition K : list Z :=
  map (fun p => uint32 (cube_root 40 0 (p * 2 ^ 96))) primes.

Definition init : list Z :=
  map (fun p => uint32 (Z.sqrt (p * 2 ^ 64))) (firstn 8 primes).

Definition add (x y : Z) : Z := uint32 (x + y).

Definition rotr (n x : Z) : Z :=
    uint32 (Z.lor (Z.shiftr x n) (Z.shiftl x (32 - n))).

Definition not32 (x : Z) : Z := Z.lxor x 0xffffffff.

Definition Ch (x y z : Z) : Z := Z.lxor (Z.land x y) (Z.land (not32 x) z).
Definition Maj (x y z : Z) : Z :=
    Z.lxor (Z.lxor (Z.land x y) (Z.land x z)) (Z.land y z).
Definition Sigma0 (x : Z) : Z := Z.lxor (Z.lxor (rotr 2 x) (rotr 13 x)) (rotr 22 x).
Definition Sigma1 (x : Z) : Z := Z.lxor (Z.lxor (rotr 6 x) (rotr 11 x)) (rotr 25 x).
Definition sigma0 (x : Z) : Z := Z.lxor (Z.lxor (rotr 7 x) (rotr 18 x)) (Z.shiftr x 3).
Definition sigma1 (x : Z) : Z := Z.lxor (Z.lxor (rotr 17 x) (rotr 19 x)) (Z.shiftr x 10).

  (** Message padding: a one bit, zero bits up to 56 modulo 64 bytes, and
      the bit length as a 64-bit big-endian integer. *)
Fixpoint be_bytes (n : nat) (x : Z) : list Z :=
    match n with
    | O => []
    | S n' => be_bytes n' (x / 256) ++ [x mod 256]
    end.

Definition pad (msg : list Z) : list Z :=
    let len := Z.of_nat (length msg) in
    let zeros := Z.to_nat ((55 - len) mod 64) in
    msg ++ [128] ++ repeat 0 zeros ++ be_bytes 8 (8 * len).

Fixpoint words (fuel : nat) (bs : list Z) : list Z :=
    match fuel with
    | O => []
    | S fuel' =>
        match bs with
        | b0 :: b1 :: b2 :: b3 :: r =>
            (b0 * 16777216 + b1 * 65536 + b2 * 256 + b3) :: words fuel' r
        | _ => []
        end
    end.

  (** The message schedule: sixteen words of the block, extended to 64. *)
Fixpoint schedule (n : nat) (w : list Z) : list Z :=
    match n with
    | O => w
    | S n' =>
        let t := length w in
        let at_ i := nth (t - i) w 0 in
        schedule n'
          (w ++ [add (add (sigma1 (at_ 2%nat)) (at_ 7%nat))
                     (add (sigma0 (at_ 15%nat)) (at_ 16%nat))])
    end.

Definition round (st : list Z) (kw : Z * Z) : list Z :=
    match st with
    | [a; b; c; d; e; f; g; h] =>
        let t1 := add (add (add h (Sigma1 e)) (add (Ch e f g) (fst kw))) (snd kw) in
        let t2 := add (Sigma0 a) (Maj a b c) in
        [add t1 t2; a; b; c; add d t1; e; f; g]
    | _ => st
    end.

Definition compress (st : list Z) (block : list Z) : list Z :=
    let w := schedule 48 (words 16 block) in
    let st' := fold_left round (combine K w) st in
    map (fun p => add (fst p) (snd p)) (combine st st').

Fixpoint blocks (fuel : nat) (st : list Z) (bs : list Z) : list Z :=
    match fuel with
    | O => st
    | S fuel' =>
        match bs with
        | [] => st
        | _ => blocks fuel' (compress st (firstn 64 bs)) (skipn 64 bs)
        end
    end.

  (** [sha256.Sum256]: the 32 bytes of the digest. *)
Definition Sum256 (msg : list Z) : list Z :=
    let p := pad msg in
    flat_map (be_bytes 4) (blocks (length p) init p).

End SHA256.

(** ** encoding/base64: [RawURLEncoding.EncodeToString] (RFC 4648 section 5,
    no padding) *)

Module Base64.

Definition encodeURL : string :=
    "ABCDEFGHIJKLMNOPQRSTUVWXYZabcdefghijklmnopqrstuvwxyz0123456789-_".

Definition digit (v : Z) : ascii :=
    match String.get (Z.to_nat v) encodeURL with
    | Some c => c
    | None => "A"%char
    end.

Fixpoint encode (fuel : nat) (bs : list Z) : string :=
    match fuel with
    | O => EmptyString
    | S fuel' =>
        match bs with
        | [] => EmptyString
        | [b0] =>
            String (digit (b0 / 4)) (String (digit (b0 mod 4 * 16)) EmptyString)
        | [b0; b1] =>
            String (digit (b0 / 4))
              (String (digit (b0 mod 4 * 16 + b1 / 16))
                 (String (digit (b1 mod 16 * 4)) EmptyString))
        | b0 :: b1 :: b2 :: r =>
            String (digit (b0 / 4))
              (String (digit (b0 mod 4 * 16 + b1 / 16))
                 (String (digit (b1 mod 16 * 4 + b2 / 64))
                    (String (digit (b2 mod 64)) (encode fuel' r))))
        end
    end.

Definition RawURLEncoding_EncodeToString (bs : list Z) : string :=
    encode (length bs) bs.

End Base64.

(** ** The [strings] and [fmt] functions the code uses *)

Fixpoint HasPrefix (s prefix : string) : bool :=
  match prefix, s with
  | EmptyString, _ => true
  | String p pr, String c r => Ascii.eqb p c && HasPrefix r pr
  | String _ _, EmptyString => false
  end.

(** [strings.Contains s substr] *)
Fixpoint Contains (s substr : string) : bool :=
  HasPrefix s substr ||
  match s with
  | EmptyString => false
  | String _ r => Contains r substr
  end.

(** [strings.Split s sep] for a separator of one byte, the only use in
    the code ([strings.Split(token, " ")]). *)
Fixpoint Split (s : string) (sep : ascii) : list string :=
  match s with
  | EmptyString => [EmptyString]
  | String c r =>
      if Ascii.eqb c sep then EmptyString :: Split r sep
      else
        match Split r sep with
        | [] => [String c EmptyString]
        | p :: ps => String c p :: ps
        end
  end.

(** [strings.Join elems sep] *)
Fixpoint Join (elems : list string) (sep : string) : string :=
  match elems with
  | [] => EmptyString
  | [e] => e
  | e :: r => e +:+ sep +:+ Join r sep
  end.

(** [fmt.Sprintf("%v %v", a, b)] on two strings *)
Definition Sprintf_v_v (a b : string) : string := a +:+ " " +:+ b.

(** ** net/http: headers *)

Definition is_lower (c : ascii) : bool := in_range 97 122 (byte_of_ascii c).
Definition is_upper (c : ascii) : bool := in_range 65 90 (byte_of_ascii c).
Definition is_digit (c : ascii) : bool := in_range 48 57 (byte_of_ascii c).

(** [validHeaderFieldByte]: the token characters of RFC 7230. *)
Definition validHeaderFieldByte (c : ascii) : bool :=
  is_lower c || is_upper c || is_digit c ||
  existsb (Ascii.eqb c) (list_ascii_of_string "!#$%&'*+-.^_`|~").

Fixpoint string_forallb (p : ascii -> bool) (s : string) : bool :=
  match s with
  | EmptyString => true
  | String c r => p c && string_forallb p r
  end.

Fixpoint canonical (upper : bool) (s : string) : string :=
  match s with
  | EmptyString => EmptyString
  | String c r =>
      let c' :=
        if upper && is_lower c then ascii_of_byte (byte_of_ascii c - 32)
        else if negb upper && is_upper c then ascii_of_byte (byte_of_ascii c + 32)
        else c in
      String c' (canonical (Ascii.eqb c' "-") r)
  end.

(** [textproto.CanonicalMIMEHeaderKey] *)
Definition CanonicalMIMEHeaderKey (s : string) : string :=
  if string_forallb validHeaderFieldByte s then canonical true s else s.

Section Header.
Context {V : Type}.

  (** [http.Header] is [map[string][]string]; [V] is the type of a value. *)
Definition Header_Add (h : gmap string (list V)) (key : string) (value : V)
    : gmap string (list V) :=
    let k := CanonicalMIMEHeaderKey key in
    <[k := default [] (h !! k) ++ [value]]> h.

Definition Header_Set (h : gmap string (list V)) (key : string) (value : V)
    : gmap string (list V) :=
    <[CanonicalMIMEHeaderKey key := [value]]> h.

Definition Header_Values (h : gmap string (list V)) (key : string) : list V :=
    default [] (h !! CanonicalMIMEHeaderKey key).

  (** [Header.Get]: the first value, if any. *)
Definition Header_first (h : gmap string (list V)) (key : string) : option V :=
    head (Header_Values h key).
End Header.

(** [Header.Get] on a header of strings: the empty string when absent. *)
Definition Header_Get (h : gmap string (list string)) (key : string) : string :=
  default EmptyString (Header_first h key).

(** ** Errors *)

Inductive error : Type :=
| errors_New (msg : string)
| fmt_Errorf_w (msg : string) (wrapped : error)
| PermanentError (Err : error)
| url_Error (Err : error)
| io_EOF
| context_Canceled
| context_DeadlineExceeded
| library_error (origin : string) (detail : string).

(** [errors.As(err, &permanent)] with [permanent *backoff.PermanentError]:
    the first permanent error on the [Unwrap] chain. *)
Fixpoint as_Permanent (e : error) : option error :=
  match e with
  | PermanentError e' => Some e'
  | fmt_Errorf_w _ w => as_Permanent w
  | url_Error w => as_Permanent w
  | _ => None
  end.

(** [errors.Is(err, io.EOF)] *)
Fixpoint is_EOF (e : error) : bool :=
  match e with
  | io_EOF => true
  | fmt_Errorf_w _ w => is_EOF w
  | url_Error w => is_EOF w
  | PermanentError w => is_EOF w
  | _ => false
  end.

(** [backoff.Permanent] *)
Definition backoff_Permanent (e : error) : error := PermanentError e.

(** ** strconv.Atoi *)

Fixpoint digits_value (acc : Z) (s : string) : option Z :=
  match s with
  | EmptyString => Some acc
  | String c r =>
      if is_digit c then digits_value (10 * acc + (byte_of_ascii c - 48)) r
      else None
  end.

Definition Atoi (s : string) : Z * option error :=
  let syntax := (0, Some (library_error "strconv.Atoi" "invalid syntax")) in
  let range v := (v, Some (library_error "strconv.Atoi" "value out of range")) in
  let '(neg, body) :=
    match s with
    | String "-" r => (true, r)
    | String "+" r => (false, r)
    | _ => (false, s)
    end in
  match body with
  | EmptyString => syntax
  | _ =>
      match digits_value 0 body with
      | None => syntax
      | Some v =>
          if neg then
            if v <=? 2 ^ 63 then (- v, None) else range (- 2 ^ 63)
          else
            if v <? 2 ^ 63 then (v, None) else range (2 ^ 63 - 1)
      end
  end.

(** ** Time *)

Definition time_Second : Z := 1000000000.
Definition time_Minute : Z := 60 * time_Second.
Definition time_Hour : Z := 60 * time_Minute.

(** [time.Second * time.Duration(n)]: a product of two [int64]. *)
Definition Seconds (n : Z) : Z := int64 (time_Second * n).

(** [t.Unix()] of an instant given in nanoseconds. *)
Definition Unix (t : Z) : Z := t / time_Second.

(** A [context.Context]: the instant at which its [Done] channel is
    closed, if ever, and the error [Err] reports from then on. *)
Record Context : Type := {
  Done_at : option Z;
  Err_when_done : error;
}.

Definition context_TODO : Context :=
  {| Done_at := None; Err_when_done := context_Canceled |}.

(** ** Data of the token exchange *)

(** An RSA key, identified by the order in which it was generated. *)
Record rsa_PrivateKey : Type := { rsa_serial : nat }.

(** A [jose.Signer], identified by the key material it was built from. *)
Record jose_Signer : Type := { signer_key : string; signer_kid : string }.

(** [DpopClaims], the fields named by their JSON keys; every field is
    [omitempty], so an empty string means the claim is absent. *)
Record DpopClaims : Type := {
  htm : string;
  htu : string;
  iat : Z;
  nonce : string;
  jti : string;
  ath : string;
}.

Definition claim (value : string) : option string :=
  if String.eqb value EmptyString then None else Some value.

(** A signed DPoP proof, kept symbolic: its [typ] header, the key whose
    public half is embedded as [jwk] and that signs it, and its claims. *)
Record DpopJWT : Type := {
  jwt_typ : string;
  jwt_key : rsa_PrivateKey;
  jwt_claims : DpopClaims;
}.

Record ClientAssertionClaims : Type := {
  Issuer : string;
  Subject : string;
  Audience : string;
  Expiry : Z;
  IssuedAt : Z;
  ID : string;
}.

Record RequestAccessToken : Type := {
  TokenType : string;
  ExpiresIn : Z;
  AccessToken : string;
  Scope : string;
}.

(** A header value of an outgoing request: a plain string or a DPoP proof
    in its compact serialization. *)
Inductive hval : Type :=
| HStr (s : string)
| HJwt (j : DpopJWT).

Record Request : Type := {
  Method : string;
  URL : string;
  Header : gmap string (list hval);
  Body : list (string * string);
}.

(** A response as received: [Body_err] is the error, if any, that reading
    the body to its end runs into. *)
Record Response : Type := {
  StatusCode : Z;
  resp_Header : gmap string (list string);
  resp_Body : string;
  Body_err : option error;
}.

Definition set_Header (r : Request) (h : gmap string (list hval)) : Request :=
  {| Method := Method r; URL := URL r; Header := h; Body := Body r |}.

Definition set_Body (r : Request) (b : list (string * string)) : Request :=
  {| Method := Method r; URL := URL r; Header := Header r; Body := b |}.

(** ** github.com/patrickmn/go-cache: [Set] and [Get] *)

Inductive any : Type :=
| AnyNil
| AnyString (s : string)
| AnyRsaKey (k : option rsa_PrivateKey).

Record Item : Type := { Object : any; Expiration : Z }.

Record goCache : Type := {
  defaultExpiration : Z;
  items : gmap string Item;
}.

Definition DefaultExpiration : Z := 0.
Definition NoExpiration : Z := -1.

(** [goCache.New(defaultExpiration, cleanupInterval)] *)
Definition goCache_New (defaultExp : Z) : goCache :=
  {| defaultExpiration := defaultExp; items := ∅ |}.

(** [c.Set(k, x, d)] at the instant [t]: a zero [d] stands for the default
    expiration, and an item whose duration is not positive never expires
    ([Expiration] 0). *)
Definition goCache_Set (c : goCache) (k : string) (x : any) (d : Z) (t : Z) : goCache :=
  let d := if d =? DefaultExpiration then defaultExpiration c else d in
  let e := if 0 <? d then int64 (t + d) else 0 in
  {| defaultExpiration := defaultExpiration c;
     items := <[k := {| Object := x; Expiration := e |}]> (items c) |}.

(** [c.Get(k)] at the instant [t]: an item is gone once the clock is
    strictly past its expiration. *)
Definition goCache_Get (c : goCache) (k : string) (t : Z) : any * bool :=
  match items c !! k with
  | None => (AnyNil, false)
  | Some item =>
      if (0 <? Expiration item) && (Expiration item <? t) then (AnyNil, false)
      else (Object item, true)
  end.

Definition AccessTokenCacheKey : string := "OKTA_ACCESS_TOKEN".
Definition DpopAccessTokenNonce : string := "DPOP_OKTA_ACCESS_TOKEN_NONCE".
Definition DpopAccessTokenPrivateKey : string := "DPOP_OKTA_ACCESS_TOKEN_PRIVATE_KEY".

(** ** The world outside the client *)

(** What a call of an external signing routine does. *)
Inductive signed : Type :=
| Signed (compact : string)
| SignError (e : error)
| SignPanic.

(** The collaborators the code calls and this file does not define: the
    HTTP transport, the random sources, the JOSE, JWK, PEM and X.509
    libraries and the response decoder of the package. *)
Record Env : Type := {
  (** [httpClient.Do]: the answer to the [n]-th request sent. *)
  http_Do : nat -> Request -> Response + error;
  (** [http.NewRequest(method, url, body)] fails on a malformed URL. *)
  http_NewRequest_err : string -> string -> option error;
  (** [rsa.GenerateKey(rand.Reader, bits)]: the [n]-th key generated. *)
  rsa_GenerateKey : nat -> Z -> rsa_PrivateKey + error;
  (** [privateKey.Validate()] *)
  rsa_Validate : rsa_PrivateKey -> option error;
  (** [uuid.New().String()]: the [n]-th identifier drawn. *)
  uuid_String : nat -> string;
  (** [jwt.Signed(signer).Claims(claims).CompactSerialize()] *)
  jwt_assertion : option jose_Signer -> ClientAssertionClaims -> signed;
  (** [jwk.Import], [jwk.AssignKeyID] and [jose.NewSigner] on a DPoP key. *)
  dpop_NewSigner_err : rsa_PrivateKey -> option error;
  (** [CompactSerialize] of the DPoP proof. *)
  dpop_Serialize_err : rsa_PrivateKey -> DpopClaims -> option error;
  (** [buildResponse(resp, nil, &accessToken)]: the value left in
      [accessToken] and the error. *)
  buildResponse : Response -> option RequestAccessToken * option error;
  (** [createKeySigner(privateKey, privateKeyID)] *)
  createKeySigner : string -> string -> option jose_Signer * option error;
  (** [convertJWKToPrivateKey(jwks, encryptionType)] *)
  convertJWKToPrivateKey : string -> string -> string * option error;
  (** The case a [select] takes when both of its channels are ready at
      the instant given. *)
  select_timer_first : Z -> bool;
  (** [time.Parse(layout, value)], as Unix seconds. *)
  time_Parse : string -> string -> Z + error;
  (** [CreateCacheKey(req)] *)
  CreateCacheKey : Request -> string;
  (** [httputil.DumpRequestOut] and [httputil.DumpResponse] (debug mode). *)
  DumpRequestOut_err : Request -> option error;
  DumpResponse_err : Response -> option error;
}.

(** What the client does to the outside, in order: requests handed to the
    HTTP client (with the instant), operations on the response cache, reads
    of the tracked rate limit and timers started. *)
Inductive Event : Type :=
| EvSend (t : Z) (request : Request)
| EvCacheDelete (key : string)
| EvCacheHas (key : string)
| EvCacheGet (key : string)
| EvCacheSet (key : string)
| EvRateLimit
| EvTimer (t : Z) (d : Z).

Record World : Type := {
  now : Z;
  uuids : nat;
  keys : nat;
  trace : list Event;
}.

(** The requests sent so far, oldest first. *)
Fixpoint sent_of (tr : list Event) : list Request :=
  match tr with
  | [] => []
  | EvSend _ r :: tr' => r :: sent_of tr'
  | _ :: tr' => sent_of tr'
  end.

Definition sent (w : World) : list Request := sent_of (trace w).

(** ** Computations: a state monad over [World] whose runs return, panic
    or exhaust the fuel of an unbounded loop *)

Inductive Res (A : Type) : Type :=
| Returns (a : A)
| Panics (msg : string)
| OutOfFuel.
Arguments Returns {A} a.
Arguments Panics {A} msg.
Arguments OutOfFuel {A}.

Definition M (A : Type) : Type := World -> Res A * World.

Definition ret {A : Type} (a : A) : M A := fun w => (Returns a, w).

Definition bind {A B : Type} (m : M A) (k : A -> M B) : M B :=
  fun w =>
    match m w with
    | (Returns a, w') => k a w'
    | (Panics msg, w') => (Panics msg, w')
    | (OutOfFuel, w') => (OutOfFuel, w')
    end.

Definition panic {A : Type} (msg : string) : M A := fun w => (Panics msg, w).

Definition out_of_fuel {A : Type} : M A := fun w => (OutOfFuel, w).

Declare Scope go_scope.
Delimit Scope go_scope with go.
Notation "'let*' x ':=' c1 'in' c2" := (bind c1 (fun x => c2))
  (at level 10, x pattern, c1 at level 100, c2 at level 200) : go_scope.
Local Open Scope go_scope.

Definition time_Now : M Z := fun w => (Returns (now w), w).

Definition set_now (w : World) (t : Z) : World :=
  {| now := t; uuids := uuids w; keys := keys w; trace := trace w |}.

Definition log (e : Event) (w : World) : World :=
  {| now := now w; uuids := uuids w; keys := keys w; trace := trace w ++ [e] |}.

Definition next_uuid (w : World) : World :=
  {| now := now w; uuids := S (uuids w); keys := keys w; trace := trace w |}.

Definition next_key (w : World) : World :=
  {| now := now w; uuids := uuids w; keys := S (keys w); trace := trace w |}.

Definition emit (e : Event) : M unit := fun w => (Returns tt, log e w).

(** [ctx.Err()] *)
Definition ctx_Err (ctx : Context) : M (option error) :=
  fun w =>
    match Done_at ctx with
    | Some c => if c <=? now w then (Returns (Some (Err_when_done ctx)), w)
                else (Returns None, w)
    | None => (Returns None, w)
    end.

(** Waiting on [select { case <-ctx.Done(): ...; case <-timer.C: ... }]
    with a timer of duration [d] started now: [true] when the timer case
    runs, [false] when the [Done] case does.  A timer whose duration is not
    positive fires at once.  When both cases are ready at the same instant
    (the context is done at the very instant the timer fires, or it was
    done already when a timer that is due at once is started), [select]
    takes one of them at random: the choice is the oracle's. *)
Definition select_timer (E : Env) (ctx : Context) (d : Z) : M bool :=
  fun w =>
    let fire := now w + Z.max 0 d in
    match Done_at ctx with
    | None => (Returns true, set_now w fire)
    | Some c =>
        if fire <? c then (Returns true, set_now w fire)
        else if (c =? fire) || (fire =? now w) then
          (Returns (select_timer_first E fire), set_now w fire)
        else (Returns false, set_now w (Z.max (now w) c))
    end.

(** ** The backoff policy *)

Definition int32 (x : Z) : Z := (x + 2 ^ 31) mod 2 ^ 32 - 2 ^ 31.

Record oktaBackoff : Type := {
  retryCount : Z;
  maxRetries : Z;
  backoffDuration : Z;
  ctx : Context;
}.

(** [backoff.Stop] *)
Definition backoff_Stop : Z := -1.

Definition NextBackOff (o : oktaBackoff) : Z :=
  if maxRetries o <? retryCount o then backoff_Stop else backoffDuration o.

Definition incr_retryCount (o : oktaBackoff) : oktaBackoff :=
  {| retryCount := int32 (retryCount o + 1); maxRetries := maxRetries o;
     backoffDuration := backoffDuration o; ctx := ctx o |}.

Definition set_backoffDuration (o : oktaBackoff) (d : Z) : oktaBackoff :=
  {| retryCount := retryCount o; maxRetries := maxRetries o;
     backoffDuration := d; ctx := ctx o |}.

Section Retry.
Context (E : Env) {St : Type}.

  (** [backoff.Retry(operation, bOff)].  [St] holds the variables the
      closure [operation] captures, the backoff among them ([bOff]).  The
      loop has no bound of its own: [fuel] counts its iterations. *)
Fixpoint Retry (fuel : nat) (operation : St -> M (St * option error))
      (bOff : St -> oktaBackoff) (s : St) : M (St * option error) :=
    match fuel with
    | O => out_of_fuel
    | S fuel' =>
        let* (s1, err) := operation s in
        match err with
        | None => ret (s1, None)
        | Some e =>
            match as_Permanent e with
            | Some inner => ret (s1, Some inner)
            | None =>
                let next := NextBackOff (bOff s1) in
                if next =? backoff_Stop then
                  let* cerr := ctx_Err (ctx (bOff s1)) in
                  match cerr with
                  | Some ce => ret (s1, Some ce)
                  | None => ret (s1, Some e)
                  end
                else
                  let* fired := select_timer E (ctx (bOff s1)) next in
                  if fired : bool then Retry fuel' operation bOff s1
                  else ret (s1, Some (Err_when_done (ctx (bOff s1))))
            end
        end
    end.
End Retry.

(** ** Keys, proofs and assertions *)

Section Exchange.
Context (E : Env).

Definition uuid_New : M string :=
    fun w => (Returns (uuid_String E (uuids w)), next_uuid w).

  (** [httpClient.Do(request)]: the request is recorded as sent. *)
Definition client_Do (request : Request) : M (option Response * option error) :=
    fun w =>
      let w' := log (EvSend (now w) request) w in
      match http_Do E (length (sent w)) request with
      | inl resp => (Returns (Some resp, None), w')
      | inr e => (Returns (None, Some e), w')
      end.

Definition generatePrivateKey (bitSize : Z) : M (option rsa_PrivateKey * option error) :=
    fun w =>
      let w' := next_key w in
      match rsa_GenerateKey E (keys w) bitSize with
      | inr e => (Returns (None, Some e), w')
      | inl privateKey =>
          match rsa_Validate E privateKey with
          | Some e => (Returns (None, Some e), w')
          | None => (Returns (Some privateKey, None), w')
          end
      end.

  (** The [ath] claim of an access token. *)
Definition ath_of (accessToken : string) : string :=
    Base64.RawURLEncoding_EncodeToString
      (SHA256.Sum256 (StringToAsciiBytes accessToken)).

  (** [generateDpopJWT]; reading [privateKey.PublicKey] through a nil
      pointer panics. *)
Definition generateDpopJWT (privateKey : option rsa_PrivateKey)
      (httpMethod URL nonce accessToken : string) : M (option DpopJWT * option error) :=
    match privateKey with
    | None => panic "invalid memory address or nil pointer dereference"
    | Some key =>
        match dpop_NewSigner_err E key with
        | Some e => ret (None, Some e)
        | None =>
            let* id := uuid_New in
            let* t := time_Now in
            let dpopClaims :=
              {| jti := id; htm := httpMethod; htu := URL; iat := Unix t;
                 nonce := nonce; ath := EmptyString |} in
            let dpopClaims :=
              if negb (String.eqb accessToken EmptyString) then
                {| jti := jti dpopClaims; htm := htm dpopClaims;
                   htu := htu dpopClaims; iat := iat dpopClaims;
                   nonce := nonce; ath := ath_of accessToken |}
              else dpopClaims in
            match dpop_Serialize_err E key dpopClaims with
            | Some e => ret (None, Some e)
            | None =>
                ret (Some {| jwt_typ := "dpop+jwt"; jwt_key := key;
                             jwt_claims := dpopClaims |}, None)
            end
        end
    end.

  (** [createClientAssertion] *)
Definition createClientAssertion (orgURL clientID : string)
      (privateKeySinger : option jose_Signer) : M (string * option error) :=
    let* t1 := time_Now in
    let* t2 := time_Now in
    let* id := uuid_New in
    let claims :=
      {| Subject := clientID; IssuedAt := Unix t1;
         Expiry := Unix (t2 + time_Hour * 1); Issuer := clientID;
         Audience := orgURL +:+ "/oauth2/v1/token"; ID := id |} in
    match jwt_assertion E privateKeySinger claims with
    | Signed compact => ret (compact, None)
    | SignError e => ret (EmptyString, Some e)
    | SignPanic => panic "invalid memory address or nil pointer dereference"
    end.
End Exchange.

(** ** The credential acquirer *)

Definition Tuple4 : Type :=
  option RequestAccessToken * string * option rsa_PrivateKey * option error.

Definition hval_of_jwt (j : option DpopJWT) : hval :=
  match j with
  | Some j => HJwt j
  | None => HStr EmptyString
  end.

Section Acquirer.
Context (E : Env).

  (** The form [query.Encode()] carries, by field. *)
Definition token_form (scope clientAssertion : string) : list (string * string) :=
    [ ("grant_type", "client_credentials");
      ("scope", scope);
      ("client_assertion_type",
       "urn:ietf:params:oauth:client-assertion-type:jwt-bearer");
      ("client_assertion", clientAssertion) ].

  (** The closure [operation] of both exchange functions; it captures
      [bOff] and [tokenResponse]. *)
Definition operation (tokenRequest : Request) (s : oktaBackoff * option Response)
    : M ((oktaBackoff * option Response) * option error) :=
    let* (tokenResponse, err) := client_Do E tokenRequest in
    ret ((incr_retryCount (fst s), tokenResponse), err).

Definition new_bOff (maxRetries maxBackoff : Z) : oktaBackoff :=
    {| retryCount := 0; maxRetries := maxRetries; backoffDuration := maxBackoff;
       ctx := context_TODO |}.

  (** [getAccessTokenForDpopPrivateKey].  The function calls itself for as
      long as the endpoint answers [use_dpop_nonce]; [fuel] bounds the depth
      of these calls and the iterations of each [backoff.Retry]. *)
Fixpoint getAccessTokenForDpopPrivateKey (fuel : nat) (tokenRequest : Request)
      (orgURL nonce : string) (maxRetries maxBackoff : Z)
      (clientAssertion scopes clientID : string) (signer : option jose_Signer)
      {struct fuel} : M Tuple4 :=
    match fuel with
    | O => out_of_fuel
    | S fuel' =>
        let* (privateKey, err) := generatePrivateKey E 2048 in
        match err with
        | Some e => ret (None, EmptyString, None, Some e)
        | None =>
        let* (dpopJWT, err) :=
          generateDpopJWT E privateKey "POST" (orgURL +:+ "/oauth2/v1/token")
            nonce EmptyString in
        match err with
        | Some e => ret (None, EmptyString, None, Some e)
        | None =>
        let* (newClientAssertion, err) := createClientAssertion E orgURL clientID signer in
        match err with
        | Some e => ret (None, EmptyString, None, Some e)
        | None =>
        let tokenRequest := set_Body tokenRequest (token_form scopes newClientAssertion) in
        let tokenRequest :=
          set_Header tokenRequest
            (Header_Set (Header tokenRequest) "DPoP" (hval_of_jwt dpopJWT)) in
        let bOff := new_bOff maxRetries maxBackoff in
        let* (captured, err) := Retry E fuel (operation tokenRequest) fst (bOff, None) in
        let tokenResponse := snd captured in
        match err with
        | Some e => ret (None, EmptyString, None, Some e)
        | None =>
        match tokenResponse with
        | None => panic "invalid memory address or nil pointer dereference"
        | Some tokenResponse =>
        let respBody := resp_Body tokenResponse in
        let err := Body_err tokenResponse in
        match err with
        | Some e => ret (None, EmptyString, None, Some e)
        | None =>
        if 300 <=? StatusCode tokenResponse then
          if Contains respBody "use_dpop_nonce" then
            let newNonce := Header_Get (resp_Header tokenResponse) "Dpop-Nonce" in
            getAccessTokenForDpopPrivateKey fuel' tokenRequest orgURL newNonce
              maxRetries maxBackoff clientAssertion scopes clientID signer
          else ret (None, EmptyString, None, err)
        else
          let '(accessToken, err) := buildResponse E tokenResponse in
          ret (accessToken, nonce, privateKey, None)
        end end end end end end
    end.

  (** [getAccessTokenForPrivateKey] *)
Definition getAccessTokenForPrivateKey (fuel : nat)
      (orgURL clientAssertion userAgent : string) (scopes : list string)
      (maxRetries maxBackoff : Z) (clientID : string) (signer : option jose_Signer)
    : M Tuple4 :=
    let tokenRequestURL := orgURL +:+ "/oauth2/v1/token" in
    let query := token_form (Join scopes " ") clientAssertion in
    match http_NewRequest_err E "POST" tokenRequestURL with
    | Some e => ret (None, EmptyString, None, Some e)
    | None =>
    let tokenRequest :=
      {| Method := "POST"; URL := tokenRequestURL; Header := ∅; Body := query |} in
    let tokenRequest :=
      set_Header tokenRequest
        (Header_Add (Header tokenRequest) "Accept" (HStr "application/json")) in
    let tokenRequest :=
      set_Header tokenRequest
        (Header_Add (Header tokenRequest) "Content-Type"
           (HStr "application/x-www-form-urlencoded")) in
    let tokenRequest :=
      set_Header tokenRequest
        (Header_Add (Header tokenRequest) "User-Agent" (HStr userAgent)) in
    let bOff := new_bOff maxRetries maxBackoff in
    let* (captured, err) := Retry E fuel (operation tokenRequest) fst (bOff, None) in
    let tokenResponse := snd captured in
    match err with
    | Some e => ret (None, EmptyString, None, Some e)
    | None =>
    match tokenResponse with
    | None => panic "invalid memory address or nil pointer dereference"
    | Some tokenResponse =>
    let respBody := resp_Body tokenResponse in
    let* (newClientAssertion, err) := createClientAssertion E orgURL clientID signer in
    match err with
    | Some e => ret (None, EmptyString, None, Some e)
    | None =>
    if 300 <=? StatusCode tokenResponse then
      if Contains respBody "invalid_dpop_proof" then
        getAccessTokenForDpopPrivateKey fuel tokenRequest orgURL EmptyString
          maxRetries maxBackoff newClientAssertion (Join scopes " ") clientID signer
      else ret (None, EmptyString, None, err)
    else
      let '(accessToken, err) := buildResponse E tokenResponse in
      match err with
      | Some e => ret (None, EmptyString, None, Some e)
      | None => ret (accessToken, EmptyString, None, None)
      end
    end end end end.
End Acquirer.

(** ** Authorization strategies *)

(** Whether an interface value [x] differs from the empty string. *)
Definition any_ne_empty_string (x : any) : bool :=
  match x with
  | AnyString s => negb (String.eqb s EmptyString)
  | _ => true
  end.

(** [x != nil] for an interface value [x]: an interface that holds a nil
    pointer is not nil. *)
Definition any_ne_nil (x : any) : bool :=
  match x with
  | AnyNil => false
  | _ => true
  end.

(** The type assertions of [x] to [string] and to a pointer to
    [rsa.PrivateKey]. *)
Definition assert_string (x : any) : M string :=
  match x with
  | AnyString s => ret s
  | _ => panic "interface conversion: interface {} is not string"
  end.

Definition assert_rsa (x : any) : M (option rsa_PrivateKey) :=
  match x with
  | AnyRsaKey k => ret k
  | _ => panic "interface conversion: interface {} is not *rsa.PrivateKey"
  end.

Definition tokenCache_Get (c : goCache) (k : string) : M (any * bool) :=
  let* t := time_Now in ret (goCache_Get c k t).

Definition tokenCache_Set (c : goCache) (k : string) (x : any) (d : Z) : M goCache :=
  let* t := time_Now in ret (goCache_Set c k x d t).

Section Authorize.
Context (E : Env).

  (** The first branch of the three token-based [Authorize] methods, whose
      text is the same in all of them: a cached access token is attached,
      with a DPoP proof when a nonce is cached too. *)
Definition authorizeFromCache (tokenCache : goCache) (req : Request)
      (method URL : string) (accessToken : any) : M (Request * option error) :=
    let* accessTokenWithTokenType := assert_string accessToken in
    let req :=
      set_Header req
        (Header_Add (Header req) "Authorization" (HStr accessTokenWithTokenType)) in
    let* (nonce, hasNonce) := tokenCache_Get tokenCache DpopAccessTokenNonce in
    if hasNonce && any_ne_empty_string nonce then
      let* (privateKey, ok) := tokenCache_Get tokenCache DpopAccessTokenPrivateKey in
      if ok && any_ne_nil privateKey then
        let res := Split accessTokenWithTokenType " " in
        if negb (length res =? 2)%nat then
          ret (req, Some (errors_New "Unidentified access token"))
        else
          let* key := assert_rsa privateKey in
          let* nonce := assert_string nonce in
          let* (dpopJWT, err) :=
            generateDpopJWT E key method URL nonce (nth 1 res EmptyString) in
          match err with
          | Some e => ret (req, Some e)
          | None =>
              let req :=
                set_Header req (Header_Set (Header req) "Dpop" (hval_of_jwt dpopJWT)) in
              let req :=
                set_Header req
                  (Header_Set (Header req) "x-okta-user-agent-extended"
                     (HStr "isDPoP:true")) in
              ret (req, None)
          end
      else ret (req, Some (errors_New "Using Dpop but signing key not found"))
    else ret (req, None).

  (** The end of the second branch, again the same text in the three
      methods: what is done with the result of
      [getAccessTokenForPrivateKey]. *)
Definition authorizeFromExchange (tokenCache : goCache) (req : Request)
      (method URL : string) (result : Tuple4)
    : M (goCache * Request * option error) :=
    let '(accessToken, nonce, privateKey, err) := result in
    match err with
    | Some e => ret (tokenCache, req, Some e)
    | None =>
    match accessToken with
    | None => ret (tokenCache, req, Some (errors_New "Empty access token"))
    | Some accessToken =>
    let authorization :=
      Sprintf_v_v (TokenType accessToken) (AccessToken accessToken) in
    let req :=
      set_Header req (Header_Set (Header req) "Authorization" (HStr authorization)) in
    let* (req, err) :=
      if String.eqb (TokenType accessToken) "DPoP" then
        let* (dpopJWT, err) :=
          generateDpopJWT E privateKey method URL nonce (AccessToken accessToken) in
        match err with
        | Some e => ret (req, Some e)
        | None =>
            let req :=
              set_Header req (Header_Set (Header req) "Dpop" (hval_of_jwt dpopJWT)) in
            let req :=
              set_Header req
                (Header_Set (Header req) "x-okta-user-agent-extended"
                   (HStr "isDPoP:true")) in
            ret (req, None)
        end
      else ret (req, None) in
    match err with
    | Some e => ret (tokenCache, req, Some e)
    | None =>
    let expiration := int64 (ExpiresIn accessToken - 2) in
    let* tokenCache :=
      tokenCache_Set tokenCache AccessTokenCacheKey (AnyString authorization)
        (Seconds expiration) in
    let* tokenCache :=
      tokenCache_Set tokenCache DpopAccessTokenNonce (AnyString nonce)
        (Seconds expiration) in
    let* tokenCache :=
      tokenCache_Set tokenCache DpopAccessTokenPrivateKey (AnyRsaKey privateKey)
        (Seconds expiration) in
    ret (tokenCache, req, None)
    end end end.
End Authorize.

Module SSWSAuth.
Record t : Type := { token : string; req : Request }.

Definition Authorize (a : t) (method URL : string) : t * option error :=
    ({| token := token a;
        req := set_Header (req a)
                 (Header_Add (Header (req a)) "Authorization"
                    (HStr ("SSWS " +:+ token a))) |},
     None).
End SSWSAuth.

Module BearerAuth.
Record t : Type := { token : string; req : Request }.

Definition Authorize (a : t) (method URL : string) : t * option error :=
    ({| token := token a;
        req := set_Header (req a)
                 (Header_Add (Header (req a)) "Authorization"
                    (HStr ("Bearer " +:+ token a))) |},
     None).
End BearerAuth.

Module PrivateKeyAuth.
Record t : Type := {
    tokenCache : goCache;
    privateKeySigner : option jose_Signer;
    privateKey : string;
    privateKeyId : string;
    clientId : string;
    orgURL : string;
    userAgent : string;
    scopes : list string;
    maxRetries : Z;
    maxBackoff : Z;
    req : Request;
  }.

Definition update (a : t) (c : goCache) (s : option jose_Signer) (r : Request) : t :=
    {| tokenCache := c; privateKeySigner := s; privateKey := privateKey a;
       privateKeyId := privateKeyId a; clientId := clientId a; orgURL := orgURL a;
       userAgent := userAgent a; scopes := scopes a; maxRetries := maxRetries a;
       maxBackoff := maxBackoff a; req := r |}.

Definition Authorize (E : Env) (fuel : nat) (a : t) (method URL : string)
    : M (t * option error) :=
    let* (accessToken, hasToken) := tokenCache_Get (tokenCache a) AccessTokenCacheKey in
    if hasToken && any_ne_empty_string accessToken then
      let* (req', err) := authorizeFromCache E (tokenCache a) (req a) method URL accessToken in
      ret (update a (tokenCache a) (privateKeySigner a) req', err)
    else
      let '(signer, err) :=
        match privateKeySigner a with
        | None => createKeySigner E (privateKey a) (privateKeyId a)
        | Some s => (Some s, None)
        end in
      match err with
      | Some e => ret (update a (tokenCache a) signer (req a), Some e)
      | None =>
      let a := update a (tokenCache a) signer (req a) in
      let* (clientAssertion, err) :=
        createClientAssertion E (orgURL a) (clientId a) (privateKeySigner a) in
      match err with
      | Some e => ret (a, Some e)
      | None =>
      let* result :=
        getAccessTokenForPrivateKey E fuel (orgURL a) clientAssertion (userAgent a)
          (scopes a) (maxRetries a) (maxBackoff a) (clientId a) (privateKeySigner a) in
      let* (c, r, err) := authorizeFromExchange E (tokenCache a) (req a) method URL result in
      ret (update a c (privateKeySigner a) r, err)
      end end.
End PrivateKeyAuth.

Module JWTAuth.
Record t : Type := {
    tokenCache : goCache;
    orgURL : string;
    userAgent : string;
    scopes : list string;
    clientAssertion : string;
    maxRetries : Z;
    maxBackoff : Z;
    req : Request;
  }.

Definition update (a : t) (c : goCache) (r : Request) : t :=
    {| tokenCache := c; orgURL := orgURL a; userAgent := userAgent a;
       scopes := scopes a; clientAssertion := clientAssertion a;
       maxRetries := maxRetries a; maxBackoff := maxBackoff a; req := r |}.

Definition Authorize (E : Env) (fuel : nat) (a : t) (method URL : string)
    : M (t * option error) :=
    let* (accessToken, hasToken) := tokenCache_Get (tokenCache a) AccessTokenCacheKey in
    if hasToken && any_ne_empty_string accessToken then
      let* (req', err) := authorizeFromCache E (tokenCache a) (req a) method URL accessToken in
      ret (update a (tokenCache a) req', err)
    else
      let* result :=
        getAccessTokenForPrivateKey E fuel (orgURL a) (clientAssertion a) (userAgent a)
          (scopes a) (maxRetries a) (maxBackoff a) EmptyString None in
      let* (c, r, err) := authorizeFromExchange E (tokenCache a) (req a) method URL result in
      ret (update a c r, err).
End JWTAuth.

Module JWKAuth.
Record t : Type := {
    tokenCache : goCache;
    jwk : string;
    encryptionType : string;
    privateKeySigner : option jose_Signer;
    privateKeyId : string;
    clientId : string;
    orgURL : string;
    userAgent : string;
    scopes : list string;
    maxRetries : Z;
    maxBackoff : Z;
    req : Request;
  }.

Definition update (a : t) (c : goCache) (s : option jose_Signer) (r : Request) : t :=
    {| tokenCache := c; jwk := jwk a; encryptionType := encryptionType a;
       privateKeySigner := s; privateKeyId := privateKeyId a; clientId := clientId a;
       orgURL := orgURL a; userAgent := userAgent a; scopes := scopes a;
       maxRetries := maxRetries a; maxBackoff := maxBackoff a; req := r |}.

Definition Authorize (E : Env) (fuel : nat) (a : t) (method URL : string)
    : M (t * option error) :=
    let* (accessToken, hasToken) := tokenCache_Get (tokenCache a) AccessTokenCacheKey in
    if hasToken && any_ne_empty_string accessToken then
      let* (req', err) := authorizeFromCache E (tokenCache a) (req a) method URL accessToken in
      ret (update a (tokenCache a) (privateKeySigner a) req', err)
    else
      let '(privateKey, err) := convertJWKToPrivateKey E (jwk a) (encryptionType a) in
      match err with
      | Some e => ret (a, Some e)
      | None =>
      let '(signer, err) :=
        match privateKeySigner a with
        | None => createKeySigner E privateKey (privateKeyId a)
        | Some s => (Some s, None)
        end in
      match err with
      | Some e => ret (update a (tokenCache a) signer (req a), Some e)
      | None =>
      let a := update a (tokenCache a) signer (req a) in
      let* (clientAssertion, err) :=
        createClientAssertion E (orgURL a) (clientId a) (privateKeySigner a) in
      match err with
      | Some e => ret (a, Some e)
      | None =>
      let* result :=
        getAccessTokenForPrivateKey E fuel (orgURL a) clientAssertion (userAgent a)
          (scopes a) (maxRetries a) (maxBackoff a) EmptyString None in
      let* (c, r, err) := authorizeFromExchange E (tokenCache a) (req a) method URL result in
      ret (update a c (privateKeySigner a) r, err)
      end end end.
End JWKAuth.

(** ** Rate-limit headers *)

Record RateLimit : Type := {
  Limit : Z;
  Remaining : Z;
  Reset : Z;
}.

Definition StatusTooManyRequests : Z := 429.

Definition tooManyRequests (resp : option Response) : bool :=
  match resp with
  | None => false
  | Some resp => StatusCode resp =? StatusTooManyRequests
  end.

(** [tryDrainBody]: at most 4096 bytes are read, so an error that lies
    beyond them is not met. *)
Definition tryDrainBody (resp : Response) : option error :=
  if (String.length (resp_Body resp) <? 4096)%nat then Body_err resp else None.

Section RateLimitHeaders.
Context (E : Env).

Definition Get429BackoffTime (resp : Response) : Z * option error :=
    match time_Parse E "Mon, 02 Jan 2006 15:04:05 GMT"
            (Header_Get (resp_Header resp) "Date") with
    | inr err =>
        (0, Some (backoff_Permanent
                    (fmt_Errorf_w "date header is missing or invalid: " err)))
    | inl requestDate =>
        let '(rateLimitReset, err) :=
          Atoi (Header_Get (resp_Header resp) "X-Rate-Limit-Reset") in
        match err with
        | Some err =>
            (0, Some (backoff_Permanent
                        (fmt_Errorf_w
                           "X-Rate-Limit-Reset header is missing or invalid: " err)))
        | None => (int64 (int64 (rateLimitReset - requestDate) + 1), None)
        end
    end.

Definition parseLimitHeaders (resp : Response) : option RateLimit * option error :=
    let '(limit, err) := Atoi (Header_Get (resp_Header resp) "X-Rate-Limit-Limit") in
    match err with
    | Some e => (None, Some e)
    | None =>
    let '(remaining, err) :=
      Atoi (Header_Get (resp_Header resp) "X-Rate-Limit-Remaining") in
    match err with
    | Some e => (None, Some e)
    | None =>
    let '(reset, err) := Get429BackoffTime resp in
    match err with
    | Some e => (None, Some e)
    | None => (Some {| Limit := limit; Remaining := remaining; Reset := reset |}, None)
    end end end.
End RateLimitHeaders.

(** ** The response cache *)

(** Modelled from the spec: the [Cache] interface of the package is declared
    outside [client.go]; the specification gives its capability set,
    [Has(key)], [Get(key)], [Set(key, response)] and [Delete(key)].  Each
    operation is given the instant at which it runs, so that an
    implementation may expire its entries. *)
Class Cache (C : Type) : Type := {
  Cache_Has : C -> string -> Z -> bool;
  Cache_Get : C -> string -> Z -> option Response;
  Cache_Set : C -> string -> Response -> Z -> C;
  Cache_Delete : C -> string -> C;
}.

(** A cache in which a deleted key is absent. *)
Class CacheEvicts (C : Type) `{Cache C} : Prop :=
  Has_Delete : forall (c : C) (key : string) (t : Z),
    Cache_Has (Cache_Delete c key) key t = false.

(** Modelled from the spec: a cache that is a finite map of the stored
    responses. *)
#[export] Instance MapCache : Cache (gmap string Response) := {
  Cache_Has c key _ := bool_decide (is_Some (c !! key));
  Cache_Get c key _ := c !! key;
  Cache_Set c key resp _ := <[key := resp]> c;
  Cache_Delete c key := delete key c;
}.

(** Modelled from the spec: the cache used when caching is disabled, which
    stores nothing. *)
#[export] Instance NoOpCache : Cache unit := {
  Cache_Has _ _ _ := false;
  Cache_Get _ _ _ := None;
  Cache_Set c _ _ _ := c;
  Cache_Delete c _ := c;
}.

(** ** The request executor *)

Record Configuration : Type := {
  Debug : bool;
  RateLimit_Enable : bool;
  RateLimit_MaxRetries : Z;
  RateLimit_MaxBackoff : Z;
}.

Record APIClient (C : Type) : Type := {
  cfg : Configuration;
  cache : C;
  freshcache : bool;
  rateLimit : option RateLimit;
}.
Arguments cfg {C} _.
Arguments cache {C} _.
Arguments freshcache {C} _.
Arguments rateLimit {C} _.

Definition MethodGet : string := "GET".

Section Executor.
Context (E : Env).

  (** [callAPI] *)
Definition callAPI (config : Configuration) (request : Request)
    : M (option Response * option error) :=
    match (if Debug config then DumpRequestOut_err E request else None) with
    | Some e => ret (None, Some e)
    | None =>
        let* (resp, err) := client_Do E request in
        match err with
        | Some e => ret (resp, Some e)
        | None =>
            match (if Debug config
                   then from_option (DumpResponse_err E) None resp else None) with
            | Some e => ret (resp, Some e)
            | None => ret (resp, err)
            end
        end
    end.

  (** The variables the closure of [doWithRetries] captures:
      [bOff], [resp], [err] and the request, whose headers it extends. *)
Definition Captured : Type :=
    oktaBackoff * option Response * option error * Request.

Definition captured_bOff (s : Captured) : oktaBackoff :=
    let '(bOff, _, _, _) := s in bOff.

Definition captured_req (s : Captured) : Request :=
    let '(_, _, _, req) := s in req.

Definition api_operation (config : Configuration) (s : Captured)
    : M (Captured * option error) :=
    let '(bOff, _, _, req) := s in
    let* (resp, err) := callAPI config req in
    match err with
    | Some e =>
        if is_EOF e then
          ret ((bOff, resp, err, req), Some (fmt_Errorf_w "network error: " e))
        else ret ((bOff, resp, err, req), Some (backoff_Permanent e))
    | None =>
        match resp with
        | Some r =>
            if negb (tooManyRequests resp) then ret ((bOff, resp, err, req), None)
            else
              let err := tryDrainBody r in
              match err with
              | Some e => ret ((bOff, resp, err, req), Some e)
              | None =>
                  let '(backoffDuration, err') := Get429BackoffTime E r in
                  match err' with
                  | Some e => ret ((bOff, resp, err, req), Some e)
                  | None =>
                      let backoffDuration :=
                        if RateLimit_MaxBackoff config <? backoffDuration
                        then RateLimit_MaxBackoff config else backoffDuration in
                      let bOff := set_backoffDuration bOff (Seconds backoffDuration) in
                      let bOff := incr_retryCount bOff in
                      let req :=
                        set_Header req
                          (Header_Add (Header req) "X-Okta-Retry-For"
                             (HStr (Header_Get (resp_Header r) "X-Okta-Request-Id"))) in
                      let req :=
                        set_Header req
                          (Header_Add (Header req) "X-Okta-Retry-Count"
                             (HStr (pretty (retryCount bOff)))) in
                      ret ((bOff, resp, err, req), Some (errors_New "too many requests"))
                  end
              end
        | None => ret ((bOff, resp, err, req), None)
        end
    end.

  (** [doWithRetries]; the request comes back with the retry headers the
      closure added to it. *)
Definition doWithRetries (fuel : nat) (config : Configuration) (ctx : Context)
      (req : Request) : M (Request * (option Response * option error)) :=
    let bOff :=
      {| retryCount := 0; maxRetries := RateLimit_MaxRetries config;
         backoffDuration := 0; ctx := ctx |} in
    let* (captured, err) :=
      Retry E fuel (api_operation config) captured_bOff (bOff, None, None, req) in
    let '(_, resp, _, req) := captured in
    ret (req, (resp, err)).

Context {C : Type} `{Cache C}.

Definition set_cache (c : APIClient C) (cache' : C) : APIClient C :=
    {| cfg := cfg c; cache := cache'; freshcache := freshcache c;
       rateLimit := rateLimit c |}.

Definition set_freshcache (c : APIClient C) (b : bool) : APIClient C :=
    {| cfg := cfg c; cache := cache c; freshcache := b; rateLimit := rateLimit c |}.

Definition set_rateLimit (c : APIClient C) (l : option RateLimit) : APIClient C :=
    {| cfg := cfg c; cache := cache c; freshcache := freshcache c; rateLimit := l |}.

Definition cache_Delete (c : APIClient C) (key : string) : M (APIClient C) :=
    let* _ := emit (EvCacheDelete key) in
    ret (set_cache c (Cache_Delete (cache c) key)).

Definition cache_Has (c : APIClient C) (key : string) : M bool :=
    let* _ := emit (EvCacheHas key) in
    let* t := time_Now in
    ret (Cache_Has (cache c) key t).

Definition cache_Get (c : APIClient C) (key : string) : M (option Response) :=
    let* _ := emit (EvCacheGet key) in
    let* t := time_Now in
    ret (Cache_Get (cache c) key t).

Definition cache_Set (c : APIClient C) (key : string) (resp : Response)
    : M (APIClient C) :=
    let* _ := emit (EvCacheSet key) in
    let* t := time_Now in
    ret (set_cache c (Cache_Set (cache c) key resp t)).

  (** The wait of [do] on the tracked rate limit: [Some err] when the
      context is done first. *)
Definition rateLimitGate (c : APIClient C) (ctx : Context) : M (option error) :=
    if RateLimit_Enable (cfg c) then
      let* _ := emit EvRateLimit in
      let limit := rateLimit c in
      match limit with
      | Some limit =>
          if Remaining limit <=? 0 then
            let* t := time_Now in
            let* _ := emit (EvTimer t (Seconds (Reset limit))) in
            let* fired := select_timer E ctx (Seconds (Reset limit)) in
            if fired : bool then ret None else ret (Some (Err_when_done ctx))
          else ret None
      | None => ret None
      end
    else ret None.

  (** The block of [do] under [if !inCache]: the wait on the rate limit,
      the dispatch, and the bookkeeping of a 2xx answer to a GET. *)
Definition dispatch (fuel : nat) (c : APIClient C) (ctx : Context) (req : Request)
      (cacheKey : string)
    : M (APIClient C * Request * (option Response * option error)) :=
    let* cancelled := rateLimitGate c ctx in
    match cancelled with
    | Some e => ret (c, req, (None, Some e))
    | None =>
        let* (req', (resp, err)) := doWithRetries fuel (cfg c) ctx req in
        match err with
        | Some e => ret (c, req', (None, Some e))
        | None =>
            match resp with
            | None => panic "invalid memory address or nil pointer dereference"
            | Some r =>
                if (200 <=? StatusCode r) && (StatusCode r <=? 299)
                   && String.eqb (Method req') MethodGet then
                  let c :=
                    if RateLimit_Enable (cfg c) then
                      let '(newLimit, err) := parseLimitHeaders E r in
                      match err with
                      | None => set_rateLimit c newLimit
                      | Some _ => c
                      end
                    else c in
                  let* c := cache_Set c cacheKey r in
                  ret (c, req', (resp, err))
                else ret (c, req', (resp, err))
            end
        end
    end.

  (** [APIClient.do] *)
Definition do (fuel : nat) (c : APIClient C) (ctx : Context) (req : Request)
    : M (APIClient C * Request * (option Response * option error)) :=
    let cacheKey := CreateCacheKey E req in
    let* c :=
      if negb (String.eqb (Method req) MethodGet) then cache_Delete c cacheKey
      else ret c in
    let* inCache := cache_Has c cacheKey in
    let* (c, inCache) :=
      if freshcache c then
        let* c := cache_Delete c cacheKey in
        ret (set_freshcache c false, false)
      else ret (c, inCache) in
    if negb inCache then dispatch fuel c ctx req cacheKey
    else
      let* cached := cache_Get c cacheKey in
      ret (c, req, (cached, None)).
End Executor.

(** On a string of ASCII characters, [StringToAsciiBytes] returns the
    bytes of the string. *)
Definition is_ascii (s : string) : Prop :=
  Forall (fun b => b < 128) (bytes_of_string s).

(** ** The [ath] claim as the specification words it: the unpadded URL-safe
    base64 encoding of the SHA-256 digest of the access token's raw bytes *)

Definition ath_spec (accessToken : string) : string :=
  Base64.RawURLEncoding_EncodeToString
    (SHA256.Sum256 (bytes_of_string accessToken)).

(** ** A scripted environment, to run the code on concrete inputs *)

(** Every library call succeeds; the transport answers the [n]-th request
    with [script n] and [decode] stands for the response decoder. *)
Definition scripted (script : nat -> Response + error)
    (decode : Response -> option RequestAccessToken * option error) : Env :=
  {| http_Do n _ := script n;
     http_NewRequest_err _ _ := None;
     rsa_GenerateKey n _ := inl {| rsa_serial := n |};
     rsa_Validate _ := None;
     uuid_String n := "uuid-" +:+ pretty n;
     jwt_assertion _ claims := Signed ("assertion-" +:+ ID claims);
     dpop_NewSigner_err _ := None;
     dpop_Serialize_err _ _ := None;
     buildResponse := decode;
     createKeySigner key kid := (Some {| signer_key := key; signer_kid := kid |}, None);
     convertJWKToPrivateKey jwks _ := (jwks, None);
     select_timer_first _ := true;
     time_Parse _ value :=
       if String.eqb value "Thu, 01 Jan 1970 00:00:00 GMT" then inl 0
       else if String.eqb value "Thu, 01 Jan 1970 00:01:40 GMT" then inl 100
       else inr (library_error "time.Parse" "cannot parse");
     CreateCacheKey r := Method r +:+ " " +:+ URL r;
     DumpRequestOut_err _ := None;
     DumpResponse_err _ := None |}.

Definition no_decode (r : Response) : option RequestAccessToken * option error :=
  (None, None).

Definition unreachable (n : nat) : Response + error :=
  inr (library_error "net/http" "connection refused").

Definition world0 : World := {| now := 0; uuids := 0; keys := 0; trace := [] |}.

Definition key0 : rsa_PrivateKey := {| rsa_serial := 0 |}.

(** The two bytes of the UTF-8 encoding of U+00E9. *)
Definition token_e_acute : string :=
  String (ascii_of_N 195) (String (ascii_of_N 169) EmptyString).

(** ** Repeated calls of the static strategies on one request *)

Definition SSWS_calls (n : nat) (method URL : string) (a : SSWSAuth.t) : SSWSAuth.t :=
  Nat.iter n (fun a => fst (SSWSAuth.Authorize a method URL)) a.

Definition Bearer_calls (n : nat) (method URL : string) (a : BearerAuth.t) : BearerAuth.t :=
  Nat.iter n (fun a => fst (BearerAuth.Authorize a method URL)) a.

Definition request0 : Request :=
  {| Method := "GET"; URL := "https://example.okta.com/api/v1/users";
     Header := ∅; Body := [] |}.

Definition http_TimeFormat : string := "Mon, 02 Jan 2006 15:04:05 GMT".

(** A 429 response dated 100 seconds after the epoch whose limit resets at
    second 160. *)
Definition response429 : Response :=
  {| StatusCode := 429;
     resp_Header :=
       Header_Set
         (Header_Set (Header_Set ∅ "Date" "Thu, 01 Jan 1970 00:01:40 GMT")
            "X-Rate-Limit-Reset" "160")
         "X-Okta-Request-Id" "req-1";
     resp_Body := "{}";
     Body_err := None |}.

(** ** Premises of the scenarios of the specification *)

(** The libraries around the exchange work: the token request can be
    built, every key that is generated is valid and signs, and the client
    assertion can be signed with [signer]. *)
Record LibrariesWork (E : Env) (signer : option jose_Signer) : Prop := {
  NewRequest_works : forall method target, http_NewRequest_err E method target = None;
  GenerateKey_works : forall n bits, exists key,
    rsa_GenerateKey E n bits = inl key /\ rsa_Validate E key = None;
  NewSigner_works : forall key, dpop_NewSigner_err E key = None;
  Serialize_works : forall key c, dpop_Serialize_err E key c = None;
  assertion_works : forall c, exists compact, jwt_assertion E signer c = Signed compact;
}.

(** The DPoP proof [generateDpopJWT] builds in the world [w]. *)
Definition dpop_proof (E : Env) (key : rsa_PrivateKey)
    (httpMethod target nonce' accessToken : string) (w : World) : DpopJWT :=
  {| jwt_typ := "dpop+jwt"; jwt_key := key;
     jwt_claims :=
       {| jti := uuid_String E (uuids w); htm := httpMethod; htu := target;
          iat := Unix (now w); nonce := nonce';
          ath := if String.eqb accessToken EmptyString then EmptyString
                 else ath_of accessToken |} |}.

(** Responses of a token endpoint. *)
Definition response_of (status : Z) (headers : gmap string (list string))
    (body : string) : Response :=
  {| StatusCode := status; resp_Header := headers; resp_Body := body;
     Body_err := None |}.

Definition response401 : Response :=
  response_of 401 ∅ "{error: invalid_client}".

Definition response_invalid_dpop_proof : Response :=
  response_of 400 ∅ "{error: invalid_dpop_proof}".

Definition response_use_dpop_nonce : Response :=
  response_of 400 (Header_Set ∅ "Dpop-Nonce" "abc") "{error: use_dpop_nonce}".

Definition response200 : Response :=
  response_of 200 ∅ "{token_type: DPoP, expires_in: 3600, access_token: abc}".

Definition response200_bearer : Response :=
  response_of 200 ∅ "{token_type: Bearer, expires_in: 3600, access_token: abc}".

Definition response200_garbage : Response := response_of 200 ∅ "<html>".

(** A decoder for these responses. *)
Definition decode (r : Response) : option RequestAccessToken * option error :=
  if String.eqb (resp_Body r) (resp_Body response200) then
    (Some {| TokenType := "DPoP"; ExpiresIn := 3600; AccessToken := "abc";
             Scope := EmptyString |}, None)
  else if String.eqb (resp_Body r) (resp_Body response200_bearer) then
    (Some {| TokenType := "Bearer"; ExpiresIn := 3600; AccessToken := "abc";
             Scope := EmptyString |}, None)
  else (None, Some (library_error "encoding/json" "invalid character"))%string.

(** The endpoint of the handshake scenario: [invalid_dpop_proof], then
    [use_dpop_nonce] with nonce ["abc"], then 200. *)
Definition handshake_script (n : nat) : Response + error :=
  match n with
  | 0%nat => inl response_invalid_dpop_proof
  | 1%nat => inl response_use_dpop_nonce
  | _ => inl response200
  end.

Definition signer0 : jose_Signer := {| signer_key := "pem"; signer_kid := "kid" |}.

Definition privateKeyAuth0 : PrivateKeyAuth.t :=
  {| PrivateKeyAuth.tokenCache := goCache_New (5 * time_Minute);
     PrivateKeyAuth.privateKeySigner := Some signer0;
     PrivateKeyAuth.privateKey := "pem";
     PrivateKeyAuth.privateKeyId := "kid";
     PrivateKeyAuth.clientId := "client";
     PrivateKeyAuth.orgURL := "https://example.okta.com";
     PrivateKeyAuth.userAgent := "okta-sdk-golang";
     PrivateKeyAuth.scopes := ["okta.users.read"];
     PrivateKeyAuth.maxRetries := 2;
     PrivateKeyAuth.maxBackoff := 30;
     PrivateKeyAuth.req := request0 |}.

(** The token cache holds no usable access token at the instant [t]: the
    test [hasToken && accessToken != ""] of the [Authorize] methods fails. *)
Definition token_miss (c : goCache) (t : Z) : Prop :=
  (let '(accessToken, hasToken) := goCache_Get c AccessTokenCacheKey t in
   hasToken && any_ne_empty_string accessToken) = false.

(** The endpoint that asks for a DPoP proof and then answers 200 with a
    body that does not decode. *)
Definition garbage_script (n : nat) : Response + error :=
  match n with
  | 0%nat => inl response_invalid_dpop_proof
  | _ => inl response200_garbage
  end.

(** ** Credential reuse, for an [Authorize] method over a strategy [A]
    with its token cache and its request *)

(** A call made while the cache holds the live token [s] sends nothing,
    generates no key, needs no fuel, attaches [s] when it returns and does
    return when no DPoP nonce is cached. *)
Definition reuses_cached_token {A : Type} (cache_of : A -> goCache)
    (req_of : A -> Request)
    (authorize : nat -> A -> string -> string -> M (A * option error)) : Prop :=
  forall fuel a method target w s,
    goCache_Get (cache_of a) AccessTokenCacheKey (now w) = (AnyString s, true) ->
    s <> EmptyString ->
    exists res w',
      authorize fuel a method target w = (res, w') /\
      trace w' = trace w /\ keys w' = keys w /\ now w' = now w /\
      res <> OutOfFuel /\
      (forall a' err, res = Returns (a', err) ->
         cache_of a' = cache_of a /\
         Header_Values (Header (req_of a')) "Authorization"
         = Header_Values (Header (req_of a)) "Authorization" ++ [HStr s]) /\
      (snd (goCache_Get (cache_of a) DpopAccessTokenNonce (now w)) = false ->
       exists a', res = Returns (a', None)).

(** Two consecutive calls, the second on the strategy [a2] of a later
    request that shares the token cache, at a later instant at which the
    token is still live: after both, nothing has been sent. *)
Definition two_calls_send_nothing {A : Type} (cache_of : A -> goCache)
    (authorize : nat -> A -> string -> string -> M (A * option error)) : Prop :=
  forall fuel1 fuel2 a1 a2 method1 target1 method2 target2 w s res1 w1 w2,
    goCache_Get (cache_of a1) AccessTokenCacheKey (now w) = (AnyString s, true) ->
    s <> EmptyString ->
    authorize fuel1 a1 method1 target1 w = (res1, w1) ->
    cache_of a2 = cache_of a1 ->
    trace w2 = trace w1 ->
    goCache_Get (cache_of a1) AccessTokenCacheKey (now w2) = (AnyString s, true) ->
    exists res2 w2',
      authorize fuel2 a2 method2 target2 w2 = (res2, w2') /\
      res2 <> OutOfFuel /\ sent w2' = sent w.

(** A token cache that holds a bearer token stored at the epoch for 3598
    seconds. *)
Definition cache_bearer : goCache :=
  goCache_Set (goCache_New (5 * time_Minute)) AccessTokenCacheKey
    (AnyString "Bearer abc") (Seconds 3598) 0.

Definition privateKeyAuth_cached : PrivateKeyAuth.t :=
  PrivateKeyAuth.update privateKeyAuth0 cache_bearer (Some signer0) request0.

(** ** Caching of a fresh credential *)

(** The three [Set] calls that end the exchange branch of [Authorize], at
    the instant [t]. *)
Definition store_credential (c : goCache) (tok : RequestAccessToken)
    (nonce' : string) (key : option rsa_PrivateKey) (t : Z) : goCache :=
  let d := Seconds (int64 (ExpiresIn tok - 2)) in
  goCache_Set
    (goCache_Set
       (goCache_Set c AccessTokenCacheKey
          (AnyString (Sprintf_v_v (TokenType tok) (AccessToken tok))) d t)
       DpopAccessTokenNonce (AnyString nonce') d t)
    DpopAccessTokenPrivateKey (AnyRsaKey key) d t.



(** The run of each method up to the result of the exchange, on a cache
    miss: from the world [w] the exchange ends in [w1] with [result]. *)
Definition PrivateKeyAuth_exchanged (E : Env) (fuel : nat) (a : PrivateKeyAuth.t)
    (w : World) (signer : option jose_Signer) (result : Tuple4) (w1 : World) : Prop :=
  exists compact w0,
    match PrivateKeyAuth.privateKeySigner a with
    | None => createKeySigner E (PrivateKeyAuth.privateKey a) (PrivateKeyAuth.privateKeyId a)
    | Some s => (Some s, None)
    end = (signer, None) /\
    createClientAssertion E (PrivateKeyAuth.orgURL a) (PrivateKeyAuth.clientId a)
      signer w = (Returns (compact, None), w0) /\
    getAccessTokenForPrivateKey E fuel (PrivateKeyAuth.orgURL a) compact
      (PrivateKeyAuth.userAgent a) (PrivateKeyAuth.scopes a)
      (PrivateKeyAuth.maxRetries a) (PrivateKeyAuth.maxBackoff a)
      (PrivateKeyAuth.clientId a) signer w0 = (Returns result, w1).

Definition JWTAuth_exchanged (E : Env) (fuel : nat) (a : JWTAuth.t)
    (w : World) (result : Tuple4) (w1 : World) : Prop :=
  getAccessTokenForPrivateKey E fuel (JWTAuth.orgURL a) (JWTAuth.clientAssertion a)
    (JWTAuth.userAgent a) (JWTAuth.scopes a) (JWTAuth.maxRetries a)
    (JWTAuth.maxBackoff a) EmptyString None w = (Returns result, w1).

Definition JWKAuth_exchanged (E : Env) (fuel : nat) (a : JWKAuth.t)
    (w : World) (signer : option jose_Signer) (result : Tuple4) (w1 : World) : Prop :=
  exists privateKey compact w0,
    convertJWKToPrivateKey E (JWKAuth.jwk a) (JWKAuth.encryptionType a)
      = (privateKey, None) /\
    match JWKAuth.privateKeySigner a with
    | None => createKeySigner E privateKey (JWKAuth.privateKeyId a)
    | Some s => (Some s, None)
    end = (signer, None) /\
    createClientAssertion E (JWKAuth.orgURL a) (JWKAuth.clientId a)
      signer w = (Returns (compact, None), w0) /\
    getAccessTokenForPrivateKey E fuel (JWKAuth.orgURL a) compact
      (JWKAuth.userAgent a) (JWKAuth.scopes a) (JWKAuth.maxRetries a)
      (JWKAuth.maxBackoff a) EmptyString None w0 = (Returns result, w1).


Definition bearer_token : RequestAccessToken :=
  {| TokenType := "Bearer"; ExpiresIn := 3600; AccessToken := "abc";
     Scope := EmptyString |}.

(** ** Events of a call of the executor *)

(** A request sent at the instant [T] or later. *)
Definition is_send_from (T : Z) (e : Event) : Prop :=
  match e with
  | EvSend t _ => T <= t
  | _ => False
  end.

(** Anything but a request sent before the instant [T]. *)
Definition no_send_before (T : Z) (e : Event) : Prop :=
  match e with
  | EvSend t _ => T <= t
  | _ => True
  end.

(** An operation on the response cache other than a read or a write of an
    entry. *)
Definition no_cache_read_or_write (e : Event) : Prop :=
  match e with
  | EvCacheGet _ | EvCacheSet _ => False
  | _ => True
  end.

(** An operation on the response cache. *)
Definition is_cache_event (e : Event) : Prop :=
  match e with
  | EvCacheDelete _ | EvCacheHas _ | EvCacheGet _ | EvCacheSet _ => True
  | _ => False
  end.

(** From [w] to [w'] the clock does not go back and the events added all
    satisfy [P]. *)
Definition evolves (P : Event -> Prop) (w w' : World) : Prop :=
  now w <= now w' /\ exists new, trace w' = trace w ++ new /\ Forall P new.

(** The value of [inCache] when [do] reaches its test: the entry is in
    the cache (after the eviction of a non-GET request) and no refresh was
    asked for. *)
Definition served_from_cache (E : Env) {C : Type} `{Cache C}
    (c : APIClient C) (req : Request) (t : Z) : bool :=
  let cacheKey := CreateCacheKey E req in
  let cache1 :=
    if negb (String.eqb (Method req) MethodGet)
    then Cache_Delete (cache c) cacheKey else cache c in
  Cache_Has cache1 cacheKey t && negb (freshcache c).

(** A POST request and a client whose cache holds an answer under the key
    of that request, with the rate limit exhausted for 61 seconds. *)
Definition request_post : Request :=
  {| Method := "POST"; URL := "https://example.okta.com/api/v1/users";
     Header := ∅; Body := [] |}.

Definition config0 : Configuration :=
  {| Debug := false; RateLimit_Enable := true; RateLimit_MaxRetries := 2;
     RateLimit_MaxBackoff := 30 |}.

Definition limit0 : RateLimit := {| Limit := 600; Remaining := 0; Reset := 61 |}.

Definition client_of (entries : gmap string Response) : APIClient (gmap string Response) :=
  {| cfg := config0; cache := entries; freshcache := false; rateLimit := Some limit0 |}.

Definition client_post : APIClient (gmap string Response) :=
  client_of {[ "POST https://example.okta.com/api/v1/users" := response200 ]}.

Definition client_get_miss : APIClient (gmap string Response) := client_of ∅.

Definition client_get_hit : APIClient (gmap string Response) :=
  client_of {[ "GET https://example.okta.com/api/v1/users" := response200 ]}.

Definition ctx_cancelled_at (t : Z) : Context :=
  {| Done_at := Some t; Err_when_done := context_Canceled |}.

(** ** What a computation adds to the trace *)

(** Whatever its outcome, [m] only adds events that satisfy [P]. *)
Definition only_adds (P : Event -> Prop) {A : Type} (m : M A) : Prop :=
  forall w res w', m w = (res, w') ->
    exists new, trace w' = trace w ++ new /\ Forall P new.

(** A request of the exchange: a POST of the client-credentials form to
    the token endpoint of [orgURL]. *)
Definition is_token_request (orgURL : string) (q : Request) : Prop :=
  Method q = "POST" /\
  URL q = orgURL +:+ "/oauth2/v1/token" /\
  Header_Values (Header q) "Content-Type"
    = [HStr "application/x-www-form-urlencoded"] /\
  In ("grant_type", "client_credentials") (Body q) /\
  In ("client_assertion_type",
      "urn:ietf:params:oauth:client-assertion-type:jwt-bearer") (Body q).

Definition sends_token_request (orgURL : string) (e : Event) : Prop :=
  exists t q, e = EvSend t q /\ is_token_request orgURL q.

(** ** Attempts of [doWithRetries] *)

(** With [Debug] set, [callAPI] dumps the request and the response; the
    dumps succeed. *)
Definition dumps_work (E : Env) (config : Configuration) : Prop :=
  Debug config = true ->
  (forall q, DumpRequestOut_err E q = None) /\
  (forall r, DumpResponse_err E r = None).

(** The delay of a retry, in nanoseconds: the seconds computed from the
    headers of the 429 answer, at most [RateLimit.MaxBackoff]. *)
Definition retry_wait (config : Configuration) (delay : Z) : Z :=
  Z.max 0 (Seconds (Z.min delay (RateLimit_MaxBackoff config))).

(** The values of the two retry headers on the attempt number [k] (from 0)
    of a request [req], all earlier attempts of which were answered by 429
    with the request id [id]. *)
Definition is_attempt (req : Request) (id : string) (k : nat) (q : Request) : Prop :=
  Method q = Method req /\ URL q = URL req /\ Body q = Body req /\
  Header_Values (Header q) "X-Okta-Retry-For"
    = Header_Values (Header req) "X-Okta-Retry-For" ++ repeat (HStr id) k /\
  Header_Values (Header q) "X-Okta-Retry-Count"
    = Header_Values (Header req) "X-Okta-Retry-Count"
      ++ map (fun i => HStr (pretty (Z.of_nat i))) (seq 1 k) /\
  forall key, CanonicalMIMEHeaderKey key <> "X-Okta-Retry-For" ->
    CanonicalMIMEHeaderKey key <> "X-Okta-Retry-Count" ->
    Header_Values (Header q) key = Header_Values (Header req) key.

(** A response answered with the status 429, dated 100 seconds after the
    epoch, whose headers do not tell when the limit resets. *)
Definition response429_no_reset : Response :=
  {| StatusCode := 429;
     resp_Header := Header_Set ∅ "Date" "Thu, 01 Jan 1970 00:01:40 GMT";
     resp_Body := "{}";
     Body_err := None |}.

(** A 429 response whose body cannot be read. *)
Definition response429_broken_body : Response :=
  {| StatusCode := 429;
     resp_Header := resp_Header response429;
     resp_Body := "{";
     Body_err := Some (library_error "net/http" "unexpected EOF") |}.

Definition response404 : Response := response_of 404 ∅ "{errorCode: E0000007}".

(** The request as the closure of [doWithRetries] leaves it after a 429
    answer with the request id [id], [count] being the new retry count. *)
Definition next_attempt (req : Request) (id : string) (count : Z) : Request :=
  let req := set_Header req (Header_Add (Header req) "X-Okta-Retry-For" (HStr id)) in
  set_Header req (Header_Add (Header req) "X-Okta-Retry-Count" (HStr (pretty count))).

(** ** Calls of [do] *)

(** [RefreshNext] *)
Definition RefreshNext {C : Type} (c : APIClient C) : APIClient C :=
  set_freshcache c true.

(** The rate limit the client tracks does not hold the next call back. *)
Definition gate_open {C : Type} (c : APIClient C) : Prop :=
  forall limit, rateLimit c = Some limit -> 0 < Remaining limit.

(** A cache that keeps what it is given. *)
Class CacheStores (C : Type) `{Cache C} : Prop := {
  Has_Set : forall (c : C) (key : string) (r : Response) (t t' : Z),
    Cache_Has (Cache_Set c key r t) key t' = true;
  Get_Set : forall (c : C) (key : string) (r : Response) (t t' : Z),
    Cache_Get (Cache_Set c key r t) key t' = Some r;
}.

(** The rate limit [do] tracks after a 2xx answer [r] to a GET. *)
Definition tracked_limit (E : Env) (config : Configuration) (r : Response)
    (old : option RateLimit) : option RateLimit :=
  if RateLimit_Enable config then
    match parseLimitHeaders E r with
    | (newLimit, None) => newLimit
    | (_, Some _) => old
    end
  else old.

(** A 200 answer to a GET with the headers of the rate limit: 600 requests,
    none of them left, reset 60 seconds after the date of the answer. *)
Definition response200_limited : Response :=
  {| StatusCode := 200;
     resp_Header :=
       Header_Set
         (Header_Set
            (Header_Set (Header_Set ∅ "Date" "Thu, 01 Jan 1970 00:01:40 GMT")
               "X-Rate-Limit-Reset" "160")
            "X-Rate-Limit-Limit" "600")
         "X-Rate-Limit-Remaining" "0";
     resp_Body := "[]";
     Body_err := None |}.

(** A client with rate limiting enabled that tracks no limit yet. *)
Definition client_fresh (entries : gmap string Response)
    : APIClient (gmap string Response) :=
  {| cfg := config0; cache := entries; freshcache := false; rateLimit := None |}.

(** ** The cached branch of [Authorize] with a DPoP credential *)

(** A call made while the cache holds a live token of two words, a
    non-empty nonce and a key that signs: the token is appended to
    [Authorization] and a proof for the method and the URL of the call,
    signed with the cached key, with the cached nonce and bound to the
    second word of the token, is set as the [Dpop] header. *)
Definition attaches_cached_dpop_proof (E : Env) {A : Type} (cache_of : A -> goCache)
    (req_of : A -> Request)
    (authorize : nat -> A -> string -> string -> M (A * option error)) : Prop :=
  forall fuel a method target w s typ tok n key,
    goCache_Get (cache_of a) AccessTokenCacheKey (now w) = (AnyString s, true) ->
    Split s " " = [typ; tok] ->
    goCache_Get (cache_of a) DpopAccessTokenNonce (now w) = (AnyString n, true) ->
    n <> EmptyString ->
    goCache_Get (cache_of a) DpopAccessTokenPrivateKey (now w)
    = (AnyRsaKey (Some key), true) ->
    dpop_NewSigner_err E key = None ->
    (forall c, dpop_Serialize_err E key c = None) ->
    exists a',
      authorize fuel a method target w = (Returns (a', None), next_uuid w) /\
      cache_of a' = cache_of a /\
      Header_Values (Header (req_of a')) "Authorization"
      = Header_Values (Header (req_of a)) "Authorization" ++ [HStr s] /\
      Header_Values (Header (req_of a')) "Dpop"
      = [HJwt (dpop_proof E key method target n tok w)] /\
      Header_Values (Header (req_of a')) "x-okta-user-agent-extended"
      = [HStr "isDPoP:true"].

(** A call made while the cache holds a live token and a non-empty nonce
    fails when the key is not in the cache, and when the token is not made
    of two words; the token has been appended to [Authorization] all the
    same, and the world is as it was. *)
Definition rejects_cached_credential {A : Type} (cache_of : A -> goCache)
    (req_of : A -> Request)
    (authorize : nat -> A -> string -> string -> M (A * option error)) : Prop :=
  forall fuel a method target w s n k ok,
    goCache_Get (cache_of a) AccessTokenCacheKey (now w) = (AnyString s, true) ->
    s <> EmptyString ->
    goCache_Get (cache_of a) DpopAccessTokenNonce (now w) = (AnyString n, true) ->
    n <> EmptyString ->
    goCache_Get (cache_of a) DpopAccessTokenPrivateKey (now w) = (k, ok) ->
    ok && any_ne_nil k = false \/ length (Split s " ") <> 2%nat ->
    exists a',
      authorize fuel a method target w
      = (Returns (a', Some (errors_New
                              (if ok && any_ne_nil k then "Unidentified access token"
                               else "Using Dpop but signing key not found"))), w) /\
      cache_of a' = cache_of a /\
      Header_Values (Header (req_of a')) "Authorization"
      = Header_Values (Header (req_of a)) "Authorization" ++ [HStr s].

(** A call that returns an error returns the token cache as it was. *)
Definition failure_keeps_cache {A : Type} (cache_of : A -> goCache)
    (authorize : nat -> A -> string -> string -> M (A * option error)) : Prop :=
  forall fuel a method target w a' e w',
    authorize fuel a method target w = (Returns (a', Some e), w') ->
    cache_of a' = cache_of a.

(** A DPoP token, and a token cache that holds it with the nonce ["abc"]
    and a key since the epoch. *)
Definition dpop_token : RequestAccessToken :=
  {| TokenType := "DPoP"; ExpiresIn := 3600; AccessToken := "abc";
     Scope := EmptyString |}.

Definition cache_dpop : goCache :=
  store_credential (goCache_New (5 * time_Minute)) dpop_token "abc" (Some key0) 0.

Definition privateKeyAuth_dpop : PrivateKeyAuth.t :=
  PrivateKeyAuth.update privateKeyAuth0 cache_dpop (Some signer0) request0.

(** The same with a token of three words, and with no key. *)
Definition cache_three_words : goCache :=
  store_credential (goCache_New (5 * time_Minute))
    {| TokenType := "DPoP"; ExpiresIn := 3600; AccessToken := "a b";
       Scope := EmptyString |} "abc" (Some key0) 0.

Definition cache_no_key : goCache :=
  goCache_Set
    (goCache_Set (goCache_New (5 * time_Minute)) AccessTokenCacheKey
       (AnyString "DPoP abc") (Seconds 3598) 0)
    DpopAccessTokenNonce (AnyString "abc") (Seconds 3598) 0.

(** ** The signer of the private-key strategies *)

(** A call that returns keeps the signer the strategy has. *)
Definition keeps_signer {A : Type} (signer_of : A -> option jose_Signer)
    (authorize : nat -> A -> string -> string -> M (A * option error)) : Prop :=
  forall fuel a method target w a' err w' s,
    authorize fuel a method target w = (Returns (a', err), w') ->
    signer_of a = Some s ->
    signer_of a' = Some s.

(** The environment of [scripted], in which the dump of a response fails. *)
Definition undumpable (script : nat -> Response + error) : Env :=
  {| http_Do n _ := script n;
     http_NewRequest_err _ _ := None;
     rsa_GenerateKey n _ := inl {| rsa_serial := n |};
     rsa_Validate _ := None;
     uuid_String n := "uuid-" +:+ pretty n;
     jwt_assertion _ claims := Signed ("assertion-" +:+ ID claims);
     dpop_NewSigner_err _ := None;
     dpop_Serialize_err _ _ := None;
     buildResponse := no_decode;
     createKeySigner key kid := (Some {| signer_key := key; signer_kid := kid |}, None);
     convertJWKToPrivateKey jwks _ := (jwks, None);
     select_timer_first _ := true;
     time_Parse _ _ := inr (library_error "time.Parse" "cannot parse");
     CreateCacheKey r := Method r +:+ " " +:+ URL r;
     DumpRequestOut_err _ := None;
     DumpResponse_err _ := Some (library_error "httputil" "unexpected EOF") |}.

Definition config_debug : Configuration :=
  {| Debug := true; RateLimit_Enable := true; RateLimit_MaxRetries := 2;
     RateLimit_MaxBackoff := 30 |}.

(** ** UTF-8 encodings of one and two bytes *)

(** [utf8.EncodeRune] for a code point below U+0800: one byte below
    U+0080, two bytes from there on. *)
Definition EncodeRune_short (r : Z) : list Z :=
  if r <? 128 then [r]
  else [Z.lor 192 (Z.shiftr r 6); Z.lor 128 (Z.land r 63)].

Definition encode_short (rs : list Z) : list Z := concat (map EncodeRune_short rs).

(** What [DecodeRune] has to find in the two bytes of [EncodeRune_short r]. *)
Definition decodes_back (r : Z) : bool :=
  let s0 := Z.lor 192 (Z.shiftr r 6) in
  let s1 := Z.lor 128 (Z.land r 63) in
  in_range 194 223 s0 && in_range 128 191 s1
  && (Z.lor (Z.shiftl (Z.land s0 31) 6) (Z.land s1 63) =? r).

(** A tracked limit whose [Reset], in seconds, is more than a duration can
    hold, and a client that tracks it. *)
Definition limit_unrepresentable : RateLimit :=
  {| Limit := 600; Remaining := 0; Reset := 9223372037 |}.

Definition client_unrepresentable : APIClient (gmap string Response) :=
  {| cfg := config0; cache := ∅; freshcache := false;
     rateLimit := Some limit_unrepresentable |}.




(** A call made while the cache holds a live credential as [Authorize]
    stores it (the token [s], a nonce, and with a nonce that is not empty a
    key): the call returns, with [s] appended to [Authorization], nothing
    sent and the cache as it was; and it returns no error when the nonce is
    empty (the credential of a bearer token), and when the token has two
    words and the cached key signs. *)
Definition attaches_cached_token (E : Env) {A : Type} (cache_of : A -> goCache)
    (req_of : A -> Request)
    (authorize : nat -> A -> string -> string -> M (A * option error)) : Prop :=
  forall fuel a method target w s n,
    goCache_Get (cache_of a) AccessTokenCacheKey (now w) = (AnyString s, true) ->
    s <> EmptyString ->
    goCache_Get (cache_of a) DpopAccessTokenNonce (now w) = (AnyString n, true) ->
    (n <> EmptyString ->
     exists key, goCache_Get (cache_of a) DpopAccessTokenPrivateKey (now w)
                 = (AnyRsaKey (Some key), true)) ->
    exists a' err w',
      authorize fuel a method target w = (Returns (a', err), w') /\
      trace w' = trace w /\ keys w' = keys w /\ now w' = now w /\
      cache_of a' = cache_of a /\
      Header_Values (Header (req_of a')) "Authorization"
      = Header_Values (Header (req_of a)) "Authorization" ++ [HStr s] /\
      (n = EmptyString \/
       (length (Split s " ") = 2%nat /\
        forall key,
          goCache_Get (cache_of a) DpopAccessTokenPrivateKey (now w)
          = (AnyRsaKey (Some key), true) ->
          dpop_NewSigner_err E key = None /\
          forall c, dpop_Serialize_err E key c = None) ->
       err = None).

(** The token cache after the exchange of a bearer token at the epoch, as
    [Authorize] stores it: the token, an empty nonce and a nil key. *)
Definition cache_bearer_stored : goCache :=
  store_credential (goCache_New (5 * time_Minute)) bearer_token EmptyString None 0.

(** The request as [prepareRequest] hands it to [Authorize] when the
    context carries an access token: its [Authorization] header holds
    that token already. *)
Definition request_with_context_token : Request :=
  set_Header request0
    (Header_Add (Header request0) "Authorization" (HStr "Bearer from-context")).

(** * Properties *)

(** ** Checks of the library models on known values *)

Example sha256_abc :
  SHA256.Sum256 (bytes_of_string "abc") =
  [ 0xba; 0x78; 0x16; 0xbf; 0x8f; 0x01; 0xcf; 0xea; 0x41; 0x41; 0x40; 0xde;
    0x5d; 0xae; 0x22; 0x23; 0xb0; 0x03; 0x61; 0xa3; 0x96; 0x17; 0x7a; 0x9c;
    0xb4; 0x10; 0xff; 0x61; 0xf2; 0x00; 0x15; 0xad ].
Proof. vm_compute. reflexivity. Qed.

Example sha256_constants :
  nth 0 SHA256.K 0 = 0x428a2f98 /\ nth 63 SHA256.K 0 = 0xc67178f2 /\
  nth 0 SHA256.init 0 = 0x6a09e667 /\ nth 7 SHA256.init 0 = 0x5be0cd19.
Proof. vm_compute. repeat split; reflexivity. Qed.

(** A message of seventy bytes, which takes two blocks. *)
Example sha256_two_blocks :
  Base64.RawURLEncoding_EncodeToString
    (SHA256.Sum256 (repeat (byte_of_ascii "a") 70)) =
  "a9XlA0hVoRJB8N7o_HKFD_2ZVbKDR6hkKLX6GRGfatA".
Proof. vm_compute. reflexivity. Qed.

Example sha256_empty_b64 :
  Base64.RawURLEncoding_EncodeToString (SHA256.Sum256 []) =
  "47DEQpj8HBSa-_TImW-5JCeuQeRkm5NMpJWZG3hSuFU".
Proof. vm_compute. reflexivity. Qed.

Example canonical_dpop : CanonicalMIMEHeaderKey "DPoP" = "Dpop".
Proof. vm_compute. reflexivity. Qed.

Example canonical_extended :
  CanonicalMIMEHeaderKey "x-okta-user-agent-extended" = "X-Okta-User-Agent-Extended".
Proof. vm_compute. reflexivity. Qed.

Example Atoi_examples :
  Atoi "1700000060" = (1700000060, None) /\ Atoi "-7" = (-7, None) /\
  snd (Atoi EmptyString) <> None /\ snd (Atoi "12a") <> None /\
  snd (Atoi "9223372036854775808") <> None.
Proof. vm_compute. repeat split; discriminate. Qed.

#[export] Instance MapCache_evicts : CacheEvicts (gmap string Response).
Proof.
  intros c key t. cbn. apply bool_decide_eq_false.
  rewrite lookup_delete_eq. intros [x Hx]. discriminate.
Qed.

#[export] Instance NoOpCache_evicts : CacheEvicts unit.
Proof. intros c key t. reflexivity. Qed.

(** ** Machine integers *)

Lemma int64_id (x : Z) : in_int64 x -> int64 x = x.
Proof.
  unfold in_int64, int64. intros Hx.
  rewrite Z.mod_small by lia. lia.
Qed.

Lemma int64_range (x : Z) : in_int64 (int64 x).
Proof.
  unfold in_int64, int64.
  pose proof (Z.mod_pos_bound (x + 2 ^ 63) (2 ^ 64)). lia.
Qed.

Lemma Seconds_id (n : Z) : in_int64 (time_Second * n) -> Seconds n = time_Second * n.
Proof. apply int64_id. Qed.

(** ** Bytes and runes *)

Lemma byte_of_ascii_range (c : ascii) : 0 <= byte_of_ascii c < 256.
Proof.
  unfold byte_of_ascii. pose proof (N_ascii_bounded c). lia.
Qed.

Lemma runes_fuel_ascii (l : list Z) (fuel : nat) :
  Forall (fun b => 0 <= b < 128) l -> (length l <= fuel)%nat ->
  runes_fuel fuel l = l.
Proof.
  revert fuel. induction l as [|b l IH]; intros fuel Hall Hlen.
  - destruct fuel; reflexivity.
  - destruct fuel as [|fuel]; [cbn in Hlen; lia|].
    inversion Hall as [|? ? Hb Hl]; subst.
    cbn [runes_fuel DecodeRune].
    destruct (Z.ltb_spec b 128) as [_|Hge]; [|lia].
    cbn [skipn]. f_equal. apply IH; [assumption|cbn in Hlen; lia].
Qed.

Lemma bytes_of_string_range (s : string) :
  Forall (fun b => 0 <= b < 256) (bytes_of_string s).
Proof.
  induction s as [|c s IH]; cbn; constructor; auto using byte_of_ascii_range.
Qed.

Lemma map_low_byte_small (l : list Z) :
  Forall (fun b => 0 <= b < 128) l -> map (fun r => r mod 256) l = l.
Proof.
  induction 1 as [|b l Hb Hl IH]; [reflexivity|].
  cbn [map]. rewrite Z.mod_small by lia. f_equal. exact IH.
Qed.

Lemma StringToAsciiBytes_ascii (s : string) :
  is_ascii s -> StringToAsciiBytes s = bytes_of_string s.
Proof.
  intros Hs. unfold StringToAsciiBytes, runes.
  assert (Hall : Forall (fun b => 0 <= b < 128) (bytes_of_string s)).
  { pose proof (bytes_of_string_range s) as Hr. unfold is_ascii in Hs.
    rewrite Forall_forall in *. intros b Hb.
    specialize (Hs b Hb). specialize (Hr b Hb). cbn in *. lia. }
  rewrite runes_fuel_ascii by (auto; lia).
  apply map_low_byte_small, Hall.
Qed.

(** ** The digest and its encoding are never empty *)

Lemma be_bytes_length (n : nat) (x : Z) : length (SHA256.be_bytes n x) = n.
Proof.
  revert x. induction n as [|n IH]; intros x; [reflexivity|].
  cbn [SHA256.be_bytes]. rewrite length_app, IH. cbn. lia.
Qed.

Lemma round_length (st : list Z) (kw : Z * Z) :
  length (SHA256.round st kw) = length st.
Proof.
  unfold SHA256.round.
  repeat (destruct st as [|? st]; try reflexivity).
Qed.

Lemma rounds_length (kws : list (Z * Z)) (st : list Z) :
  length (fold_left SHA256.round kws st) = length st.
Proof.
  revert st. induction kws as [|kw kws IH]; intros st; [reflexivity|].
  cbn [fold_left]. rewrite IH. apply round_length.
Qed.

Lemma compress_length (st block : list Z) :
  length (SHA256.compress st block) = length st.
Proof.
  unfold SHA256.compress.
  rewrite length_map, length_combine, rounds_length. lia.
Qed.

Lemma blocks_length (fuel : nat) (st bs : list Z) :
  length (SHA256.blocks fuel st bs) = length st.
Proof.
  revert st bs. induction fuel as [|fuel IH]; intros st bs; [reflexivity|].
  cbn [SHA256.blocks]. destruct bs; [reflexivity|].
  rewrite IH. apply compress_length.
Qed.

Lemma Sum256_length (msg : list Z) : length (SHA256.Sum256 msg) = 32%nat.
Proof.
  unfold SHA256.Sum256.
  pose proof (blocks_length (length (SHA256.pad msg)) SHA256.init (SHA256.pad msg)) as Hl.
  change (length SHA256.init) with 8%nat in Hl.
  destruct (SHA256.blocks _ _ _) as [|a [|b [|c [|d [|e [|f [|g [|h [|]]]]]]]]];
    try discriminate Hl.
  cbn [flat_map]. rewrite !length_app, !be_bytes_length. reflexivity.
Qed.

Lemma base64_nonempty (bs : list Z) :
  bs <> [] -> claim (Base64.RawURLEncoding_EncodeToString bs) =
              Some (Base64.RawURLEncoding_EncodeToString bs).
Proof.
  intros Hne. unfold Base64.RawURLEncoding_EncodeToString.
  destruct bs as [|b0 [|b1 [|b2 r]]]; [congruence| | |]; reflexivity.
Qed.

Lemma ath_of_present (accessToken : string) :
  claim (ath_of accessToken) = Some (ath_of accessToken).
Proof.
  apply base64_nonempty. intros Hnil.
  pose proof (Sum256_length (StringToAsciiBytes accessToken)) as Hl.
  rewrite Hnil in Hl. discriminate Hl.
Qed.

(** ** Running computations *)

Lemma bind_Returns {A B : Type} (m : M A) (k : A -> M B) (w w1 : World) (a : A) :
  m w = (Returns a, w1) -> bind m k w = k a w1.
Proof. intros Hm. unfold bind. rewrite Hm. reflexivity. Qed.

Lemma bind_inv {A B : Type} (m : M A) (k : A -> M B) (w w' : World) (b : B) :
  bind m k w = (Returns b, w') ->
  exists a w1, m w = (Returns a, w1) /\ k a w1 = (Returns b, w').
Proof.
  unfold bind. destruct (m w) as [[a| |] w1]; intros Hk; try discriminate Hk.
  exists a, w1. split; [reflexivity|exact Hk].
Qed.

(** ** DPoP proofs *)

Section DpopProofs.
Context (E : Env).

Lemma generateDpopJWT_inv privateKey httpMethod URL nonce accessToken w jwt w' :
    generateDpopJWT E privateKey httpMethod URL nonce accessToken w
      = (Returns (Some jwt, None), w') ->
    exists key,
      privateKey = Some key /\ jwt_key jwt = key /\ jwt_typ jwt = "dpop+jwt" /\
      jwt_claims jwt =
        {| jti := uuid_String E (uuids w); htm := httpMethod; htu := URL;
           iat := Unix (now w); nonce := nonce;
           ath := if String.eqb accessToken EmptyString then EmptyString
                  else ath_of accessToken |} /\
      now w' = now w /\ trace w' = trace w /\ keys w' = keys w /\
      uuids w' = S (uuids w).
  Proof.
    unfold generateDpopJWT. destruct privateKey as [key|]; [|discriminate].
    destruct (dpop_NewSigner_err E key); [discriminate|].
    unfold bind, uuid_New, time_Now, ret. cbn.
    destruct (String.eqb accessToken EmptyString); cbn;
      match goal with |- context [dpop_Serialize_err E key ?c] =>
        destruct (dpop_Serialize_err E key c) end;
      intros Heq; inversion Heq; subst; clear Heq;
      exists key; cbn; repeat split; reflexivity.
  Qed.

Lemma generateDpopJWT_ok key httpMethod URL nonce accessToken w :
    dpop_NewSigner_err E key = None ->
    (forall c, dpop_Serialize_err E key c = None) ->
    exists jwt w',
      generateDpopJWT E (Some key) httpMethod URL nonce accessToken w
        = (Returns (Some jwt, None), w').
  Proof.
    intros Hs Hc. unfold generateDpopJWT. rewrite Hs.
    unfold bind, uuid_New, time_Now, ret. cbn.
    rewrite Hc. eauto.
  Qed.
End DpopProofs.

(** ** C8: the [ath] claim *)

(** C8, as amended.  A DPoP proof generated with a working key carries no
    [ath] claim when the access token is empty; for a non-empty token the
    claim is the unpadded URL-safe base64 encoding of the SHA-256 digest
    of [StringToAsciiBytes] of the token, which for a token of ASCII
    characters is the digest of its raw bytes; for ["abc"] it is the
    encoded digest of ["abc"]. *)
Theorem C8_ath_claim (E : Env) (key : rsa_PrivateKey)
    (httpMethod URL nonce accessToken : string) (w : World) :
  dpop_NewSigner_err E key = None ->
  (forall c, dpop_Serialize_err E key c = None) ->
  exists jwt w',
    generateDpopJWT E (Some key) httpMethod URL nonce accessToken w
      = (Returns (Some jwt, None), w') /\
    (accessToken = EmptyString -> claim (ath (jwt_claims jwt)) = None) /\
    (accessToken <> EmptyString ->
       claim (ath (jwt_claims jwt)) =
       Some (Base64.RawURLEncoding_EncodeToString
               (SHA256.Sum256 (StringToAsciiBytes accessToken)))) /\
    (accessToken <> EmptyString -> is_ascii accessToken ->
       claim (ath (jwt_claims jwt)) = Some (ath_spec accessToken)) /\
    (accessToken = "abc" ->
       claim (ath (jwt_claims jwt)) = Some (ath_spec "abc") /\
       ath_spec "abc" = "ungWv48Bz-pBQUDeXa4iI7ADYaOWF3qctBD_YfIAFa0").
Proof.
  intros Hs Hc.
  destruct (generateDpopJWT_ok E key httpMethod URL nonce accessToken w Hs Hc)
    as (jwt & w' & Hrun).
  exists jwt, w'. split; [exact Hrun|].
  apply generateDpopJWT_inv in Hrun as (key' & _ & _ & _ & Hclaims & _).
  rewrite Hclaims. cbn [ath].
  assert (Hpresent : accessToken <> EmptyString ->
            claim (if String.eqb accessToken EmptyString then EmptyString
                   else ath_of accessToken) = Some (ath_of accessToken)).
  { intros Hne. apply String.eqb_neq in Hne. rewrite Hne. apply ath_of_present. }
  split; [|split; [|split]].
  - intros ->. reflexivity.
  - exact Hpresent.
  - intros Hne Hascii. rewrite (Hpresent Hne). unfold ath_of, ath_spec.
    rewrite StringToAsciiBytes_ascii by exact Hascii. reflexivity.
  - intros ->. split; vm_compute; reflexivity.
Qed.

Lemma C8_ath_claim_witness :
  exists jwt w',
    generateDpopJWT (scripted unreachable no_decode) (Some key0)
      "GET" "https://example.okta.com/api/v1/users" "n1" "abc" world0
      = (Returns (Some jwt, None), w') /\
    claim (ath (jwt_claims jwt)) = Some "ungWv48Bz-pBQUDeXa4iI7ADYaOWF3qctBD_YfIAFa0".
Proof.
  destruct (C8_ath_claim (scripted unreachable no_decode) key0
              "GET" "https://example.okta.com/api/v1/users" "n1" "abc" world0
              eq_refl (fun _ => eq_refl))
    as (jwt & w' & Hrun & _ & _ & _ & Habc).
  exists jwt, w'. split; [exact Hrun|].
  destruct (Habc eq_refl) as [H1 H2]. rewrite H1, H2. reflexivity.
Defined.

(** C8 as stated fails on a token that is not ASCII: for the two bytes of
    the UTF-8 encoding of U+00E9 the claim is the digest of the single
    byte 0xE9, not of the token's raw bytes. *)
Lemma C8_counterexample :
  exists jwt w',
    generateDpopJWT (scripted unreachable no_decode) (Some key0)
      "GET" "https://example.okta.com/api/v1/users" "n1" token_e_acute world0
      = (Returns (Some jwt, None), w') /\
    claim (ath (jwt_claims jwt)) = Some "3i4zHYka4menAJy0W06IMPFw4Mk3KI6icxoZQcelOw0" /\
    ath_spec token_e_acute = "SplVfkAzw1Od4utlRyAXytX5VX96BiWgnxw_biumnEw" /\
    claim (ath (jwt_claims jwt)) <> Some (ath_spec token_e_acute).
Proof.
  eexists _, _. split; [vm_compute; reflexivity|].
  split; [vm_compute; reflexivity|].
  split; [vm_compute; reflexivity|].
  vm_compute. discriminate.
Qed.

(** ** C9: the static strategies *)

Section HeaderAdd.
Context {V : Type}.
Implicit Types (h : gmap string (list V)) (v : V).

Lemma Header_Values_Add h key v :
    Header_Values (Header_Add h key v) key = Header_Values h key ++ [v].
  Proof. unfold Header_Values, Header_Add. rewrite lookup_insert_eq. reflexivity. Qed.

Lemma Header_Add_other h key v k :
    k <> CanonicalMIMEHeaderKey key -> Header_Add h key v !! k = h !! k.
  Proof. intros Hne. unfold Header_Add. apply lookup_insert_ne. congruence. Qed.

Lemma Header_Values_Set h key v :
    Header_Values (Header_Set h key v) key = [v].
  Proof. unfold Header_Values, Header_Set. rewrite lookup_insert_eq. reflexivity. Qed.

Lemma Header_Set_other h key v k :
    k <> CanonicalMIMEHeaderKey key -> Header_Set h key v !! k = h !! k.
  Proof. intros Hne. unfold Header_Set. apply lookup_insert_ne. congruence. Qed.

Lemma Header_Values_Add_iter h key v (n : nat) :
    Header_Values (Nat.iter n (fun h => Header_Add h key v) h) key
    = Header_Values h key ++ repeat v n.
  Proof.
    induction n as [|n IH].
    - cbn. rewrite app_nil_r. reflexivity.
    - rewrite Nat.iter_succ, Header_Values_Add, IH, <- app_assoc. f_equal.
      clear IH. induction n as [|n IH]; [reflexivity|].
      cbn [repeat app]. f_equal. exact IH.
  Qed.

Lemma Header_Add_iter_other h key v (n : nat) k :
    k <> CanonicalMIMEHeaderKey key ->
    Nat.iter n (fun h => Header_Add h key v) h !! k = h !! k.
  Proof.
    intros Hne. induction n as [|n IH]; [reflexivity|].
    rewrite Nat.iter_succ, Header_Add_other by exact Hne. exact IH.
  Qed.
End HeaderAdd.

Lemma SSWS_calls_unfold (n : nat) (method URL : string) (a : SSWSAuth.t) :
  SSWS_calls n method URL a =
  {| SSWSAuth.token := SSWSAuth.token a;
     SSWSAuth.req :=
       set_Header (SSWSAuth.req a)
         (Nat.iter n
            (fun h => Header_Add h "Authorization" (HStr ("SSWS " +:+ SSWSAuth.token a)))
            (Header (SSWSAuth.req a))) |}.
Proof.
  unfold SSWS_calls. induction n as [|n IH].
  - destruct a as [tok [m u h b]]. reflexivity.
  - rewrite !Nat.iter_succ, IH. reflexivity.
Qed.

Lemma Bearer_calls_unfold (n : nat) (method URL : string) (a : BearerAuth.t) :
  Bearer_calls n method URL a =
  {| BearerAuth.token := BearerAuth.token a;
     BearerAuth.req :=
       set_Header (BearerAuth.req a)
         (Nat.iter n
            (fun h => Header_Add h "Authorization" (HStr ("Bearer " +:+ BearerAuth.token a)))
            (Header (BearerAuth.req a))) |}.
Proof.
  unfold Bearer_calls. induction n as [|n IH].
  - destruct a as [tok [m u h b]]. reflexivity.
  - rewrite !Nat.iter_succ, IH. reflexivity.
Qed.

(** C9, what the code does.  [Authorize] of both static strategies always
    returns nil and touches nothing but the [Authorization] header of the
    request, but it does not set that header: every call appends one more
    copy of the scheme and token ([Header.Add], where the exchange branch
    of the token-based strategies uses [Header.Set], and where the caller
    says of this step that it overrides the authorization of the context).
    After [n] calls the header holds [n] more values than before, and its
    first value, the one [Header.Get] reads, is after [n >= 1] calls what
    it is after one call. *)
Theorem C9_static_authorize_appends (n : nat) (method target : string) :
  (forall a : SSWSAuth.t,
     let a' := SSWS_calls n method target a in
     let v := HStr ("SSWS " +:+ SSWSAuth.token a) in
     snd (SSWSAuth.Authorize a method target) = None /\
     SSWSAuth.token a' = SSWSAuth.token a /\
     Method (SSWSAuth.req a') = Method (SSWSAuth.req a) /\
     URL (SSWSAuth.req a') = URL (SSWSAuth.req a) /\
     Body (SSWSAuth.req a') = Body (SSWSAuth.req a) /\
     Header_Values (Header (SSWSAuth.req a')) "Authorization"
       = Header_Values (Header (SSWSAuth.req a)) "Authorization" ++ repeat v n /\
     (forall k, k <> "Authorization" ->
        Header (SSWSAuth.req a') !! k = Header (SSWSAuth.req a) !! k) /\
     ((1 <= n)%nat ->
        Header_first (Header (SSWSAuth.req a')) "Authorization"
        = Header_first (Header (SSWSAuth.req (SSWS_calls 1 method target a)))
            "Authorization")) /\
  (forall a : BearerAuth.t,
     let a' := Bearer_calls n method target a in
     let v := HStr ("Bearer " +:+ BearerAuth.token a) in
     snd (BearerAuth.Authorize a method target) = None /\
     BearerAuth.token a' = BearerAuth.token a /\
     Method (BearerAuth.req a') = Method (BearerAuth.req a) /\
     URL (BearerAuth.req a') = URL (BearerAuth.req a) /\
     Body (BearerAuth.req a') = Body (BearerAuth.req a) /\
     Header_Values (Header (BearerAuth.req a')) "Authorization"
       = Header_Values (Header (BearerAuth.req a)) "Authorization" ++ repeat v n /\
     (forall k, k <> "Authorization" ->
        Header (BearerAuth.req a') !! k = Header (BearerAuth.req a) !! k) /\
     ((1 <= n)%nat ->
        Header_first (Header (BearerAuth.req a')) "Authorization"
        = Header_first (Header (BearerAuth.req (Bearer_calls 1 method target a)))
            "Authorization")).
Proof.
  assert (Hfirst : forall (l : list hval) (v : hval) (m : nat),
            (1 <= m)%nat -> head (l ++ repeat v m) = head (l ++ repeat v 1)).
  { intros l v m Hm. destruct l as [|x l]; [|reflexivity].
    destruct m as [|m]; [lia|reflexivity]. }
  split; intros a; cbv zeta.
  - rewrite !SSWS_calls_unfold. cbn [SSWSAuth.token SSWSAuth.req set_Header
      Method URL Body Header snd SSWSAuth.Authorize].
    repeat apply conj; try reflexivity.
    + apply Header_Values_Add_iter.
    + intros k Hk. apply Header_Add_iter_other. exact Hk.
    + intros Hn. unfold Header_first. rewrite !Header_Values_Add_iter.
      apply Hfirst, Hn.
  - rewrite !Bearer_calls_unfold. cbn [BearerAuth.token BearerAuth.req set_Header
      Method URL Body Header snd BearerAuth.Authorize].
    repeat apply conj; try reflexivity.
    + apply Header_Values_Add_iter.
    + intros k Hk. apply Header_Add_iter_other. exact Hk.
    + intros Hn. unfold Header_first. rewrite !Header_Values_Add_iter.
      apply Hfirst, Hn.
Qed.

Lemma C9_static_authorize_appends_witness :
  Header_first
    (Header (SSWSAuth.req
       (SSWS_calls 3 "GET" "u" {| SSWSAuth.token := "00abc"; SSWSAuth.req := request0 |})))
    "Authorization"
  = Header_first
      (Header (SSWSAuth.req
         (SSWS_calls 1 "GET" "u" {| SSWSAuth.token := "00abc"; SSWSAuth.req := request0 |})))
      "Authorization".
Proof.
  destruct (C9_static_authorize_appends 3 "GET" "u") as [Hssws _].
  destruct (Hssws {| SSWSAuth.token := "00abc"; SSWSAuth.req := request0 |})
    as (_ & _ & _ & _ & _ & _ & _ & Hfirst).
  apply Hfirst. lia.
Defined.

(** C9 as stated fails: on a request without an [Authorization] header, the
    header holds two values after two calls and one after one call, in
    both sub-modes. *)
Lemma C9_counterexample :
  let ssws := {| SSWSAuth.token := "00abc"; SSWSAuth.req := request0 |} in
  let bearer := {| BearerAuth.token := "00abc"; BearerAuth.req := request0 |} in
  Header_Values (Header (SSWSAuth.req (SSWS_calls 1 "GET" "u" ssws))) "Authorization"
    = [HStr "SSWS 00abc"] /\
  Header_Values (Header (SSWSAuth.req (SSWS_calls 2 "GET" "u" ssws))) "Authorization"
    = [HStr "SSWS 00abc"; HStr "SSWS 00abc"] /\
  SSWSAuth.req (SSWS_calls 2 "GET" "u" ssws) <> SSWSAuth.req (SSWS_calls 1 "GET" "u" ssws) /\
  Header_Values (Header (BearerAuth.req (Bearer_calls 2 "GET" "u" bearer))) "Authorization"
    = [HStr "Bearer 00abc"; HStr "Bearer 00abc"] /\
  BearerAuth.req (Bearer_calls 2 "GET" "u" bearer)
    <> BearerAuth.req (Bearer_calls 1 "GET" "u" bearer).
Proof.
  cbv zeta. repeat apply conj; try (vm_compute; reflexivity).
  - intros Heq.
    apply (f_equal (fun r => length (Header_Values (Header r) "Authorization"))) in Heq.
    vm_compute in Heq. discriminate Heq.
  - intros Heq.
    apply (f_equal (fun r => length (Header_Values (Header r) "Authorization"))) in Heq.
    vm_compute in Heq. discriminate Heq.
Qed.

(** The same on the request [prepareRequest] builds when the context
    carries an access token: the static token does not override the one of
    the context, which stays the first value of the header. *)
Example C9_context_token_not_overridden :
  let a := {| SSWSAuth.token := "00abc"; SSWSAuth.req := request_with_context_token |} in
  let a' := fst (SSWSAuth.Authorize a "GET" "u") in
  Header_Values (Header (SSWSAuth.req a')) "Authorization"
    = [HStr "Bearer from-context"; HStr "SSWS 00abc"] /\
  Header_first (Header (SSWSAuth.req a')) "Authorization"
    = Some (HStr "Bearer from-context").
Proof. vm_compute. split; reflexivity. Qed.

(** ** C6: the backoff time of a 429 response *)

Lemma int64_add_l (a b : Z) : int64 (int64 a + b) = int64 (a + b).
Proof.
  unfold int64.
  replace ((a + 2 ^ 63) mod 2 ^ 64 - 2 ^ 63 + b + 2 ^ 63)
    with ((a + 2 ^ 63) mod 2 ^ 64 + b) by lia.
  rewrite Zplus_mod_idemp_l. f_equal. f_equal. lia.
Qed.

Lemma Header_Get_absent (h : gmap string (list string)) (key : string) :
  h !! CanonicalMIMEHeaderKey key = None -> Header_Get h key = EmptyString.
Proof.
  intros Hnone. unfold Header_Get, Header_first, Header_Values.
  rewrite Hnone. reflexivity.
Qed.

(** [backoff.Retry] gives up at once on a permanent error. *)
Lemma Retry_permanent (E : Env) {St : Type} (fuel : nat)
    (op : St -> M (St * option error)) (bOff : St -> oktaBackoff)
    (s s1 : St) (w w1 : World) (e inner : error) :
  op s w = (Returns (s1, Some e), w1) ->
  as_Permanent e = Some inner ->
  Retry E (S fuel) op bOff s w = (Returns (s1, Some inner), w1).
Proof.
  intros Hop Hperm. cbn [Retry]. rewrite (bind_Returns _ _ _ _ _ Hop).
  rewrite Hperm. reflexivity.
Qed.

(** C6.  When both headers parse, [Get429BackoffTime] returns the reset
    epoch minus the Unix time of the [Date] header plus one (in [int64]
    arithmetic, hence exactly that number whenever it is representable);
    when either header is absent or does not parse, it returns an error
    that [backoff.Retry] recognises as permanent.  ([time.Parse] is the
    standard library's; that it rejects the empty string is a premise of
    the case of an absent [Date] header.) *)
Theorem C6_backoff_time (E : Env) (resp : Response) :
  let date := Header_Get (resp_Header resp) "Date" in
  let reset := Header_Get (resp_Header resp) "X-Rate-Limit-Reset" in
  (forall d r,
     time_Parse E http_TimeFormat date = inl d -> Atoi reset = (r, None) ->
     Get429BackoffTime E resp = (int64 (r - d + 1), None) /\
     (in_int64 (r - d + 1) -> Get429BackoffTime E resp = (r - d + 1, None))) /\
  (forall e,
     time_Parse E http_TimeFormat date = inr e ->
     exists e', Get429BackoffTime E resp = (0, Some e') /\ is_Some (as_Permanent e')) /\
  (snd (Atoi reset) <> None ->
     exists e', Get429BackoffTime E resp = (0, Some e') /\ is_Some (as_Permanent e')) /\
  (resp_Header resp !! "X-Rate-Limit-Reset" = None ->
     exists e', Get429BackoffTime E resp = (0, Some e') /\ is_Some (as_Permanent e')) /\
  (resp_Header resp !! "Date" = None ->
     forall e, time_Parse E http_TimeFormat EmptyString = inr e ->
     exists e', Get429BackoffTime E resp = (0, Some e') /\ is_Some (as_Permanent e')).
Proof.
  cbv zeta. unfold Get429BackoffTime, http_TimeFormat.
  assert (Hbad : snd (Atoi (Header_Get (resp_Header resp) "X-Rate-Limit-Reset")) <> None ->
    exists e',
      match time_Parse E "Mon, 02 Jan 2006 15:04:05 GMT"
              (Header_Get (resp_Header resp) "Date") with
      | inl requestDate =>
          let '(rateLimitReset, err) :=
            Atoi (Header_Get (resp_Header resp) "X-Rate-Limit-Reset") in
          match err with
          | Some err =>
              (0, Some (backoff_Permanent
                          (fmt_Errorf_w
                             "X-Rate-Limit-Reset header is missing or invalid: " err)))
          | None => (int64 (int64 (rateLimitReset - requestDate) + 1), None)
          end
      | inr err =>
          (0, Some (backoff_Permanent
                      (fmt_Errorf_w "date header is missing or invalid: " err)))
      end = (0, Some e') /\ is_Some (as_Permanent e')).
  { intros Hne. destruct (time_Parse E _ _) as [d|e].
    - destruct (Atoi _) as [r [err|]]; [|contradiction].
      eexists. split; [reflexivity|]. cbn. eauto.
    - eexists. split; [reflexivity|]. cbn. eauto. }
  split; [|split; [|split; [|split]]].
  - intros d r Hd Hr. rewrite Hd, Hr. rewrite int64_add_l.
    split; [reflexivity|]. intros Hin. rewrite int64_id by exact Hin. reflexivity.
  - intros e He. rewrite He. eexists. split; [reflexivity|]. cbn. eauto.
  - exact Hbad.
  - intros Habsent. apply Hbad.
    rewrite Header_Get_absent by exact Habsent. vm_compute. discriminate.
  - intros Habsent e He.
    rewrite (Header_Get_absent _ "Date") by exact Habsent. rewrite He.
    eexists. split; [reflexivity|]. cbn. eauto.
Qed.

Lemma C6_backoff_time_witness :
  Get429BackoffTime (scripted unreachable no_decode) response429 = (61, None).
Proof.
  destruct (C6_backoff_time (scripted unreachable no_decode) response429)
    as [Hok _].
  destruct (Hok 100 160) as [_ Hexact].
  - vm_compute. reflexivity.
  - vm_compute. reflexivity.
  - apply Hexact. unfold in_int64. lia.
Defined.

(** ** Steps of the token exchange *)

Lemma sent_of_app (tr1 tr2 : list Event) :
  sent_of (tr1 ++ tr2) = sent_of tr1 ++ sent_of tr2.
Proof.
  induction tr1 as [|e tr1 IH]; [reflexivity|].
  destruct e; cbn [app sent_of]; rewrite IH; reflexivity.
Qed.

Lemma sent_log_send (t : Z) (q : Request) (w : World) :
  sent (log (EvSend t q) w) = sent w ++ [q].
Proof. unfold sent, log. cbn [trace]. rewrite sent_of_app. reflexivity. Qed.

Section ExchangeSteps.
Context (E : Env).

Lemma generatePrivateKey_run bits w key :
    rsa_GenerateKey E (keys w) bits = inl key -> rsa_Validate E key = None ->
    generatePrivateKey E bits w = (Returns (Some key, None), next_key w).
  Proof. intros Hg Hv. unfold generatePrivateKey. rewrite Hg, Hv. reflexivity. Qed.

Lemma generateDpopJWT_run key httpMethod target nonce' accessToken w :
    dpop_NewSigner_err E key = None ->
    (forall c, dpop_Serialize_err E key c = None) ->
    generateDpopJWT E (Some key) httpMethod target nonce' accessToken w
    = (Returns (Some (dpop_proof E key httpMethod target nonce' accessToken w), None),
       next_uuid w).
  Proof.
    intros Hs Hc. unfold generateDpopJWT, dpop_proof. rewrite Hs.
    unfold bind, uuid_New, time_Now, ret. cbn.
    rewrite Hc. destruct (String.eqb accessToken EmptyString); reflexivity.
  Qed.

Lemma createClientAssertion_run orgURL clientID signer w :
    (forall c, exists compact, jwt_assertion E signer c = Signed compact) ->
    exists compact,
      createClientAssertion E orgURL clientID signer w
      = (Returns (compact, None), next_uuid w).
  Proof.
    intros Hsign. unfold createClientAssertion, bind, time_Now, uuid_New, ret.
    match goal with |- context [jwt_assertion E signer ?c] =>
      destruct (Hsign c) as [compact Hc]; rewrite Hc end.
    exists compact. reflexivity.
  Qed.

Lemma operation_run tokenRequest bOff r0 w resp :
    http_Do E (length (sent w)) tokenRequest = inl resp ->
    operation E tokenRequest (bOff, r0) w
    = (Returns ((incr_retryCount bOff, Some resp), None),
       log (EvSend (now w) tokenRequest) w).
  Proof.
    intros Hdo. unfold operation, bind, client_Do, ret. rewrite Hdo. reflexivity.
  Qed.

Lemma Retry_first {St : Type} (fuel : nat) (op : St -> M (St * option error))
      (bOff : St -> oktaBackoff) (s s1 : St) (w w1 : World) :
    op s w = (Returns (s1, None), w1) ->
    Retry E (S fuel) op bOff s w = (Returns (s1, None), w1).
  Proof.
    intros Hop. cbn [Retry]. rewrite (bind_Returns _ _ _ _ _ Hop). reflexivity.
  Qed.

  (** One round of the DPoP handshake whose request is answered by [resp]. *)
Lemma dpop_round (fuel : nat) signer tokenRequest orgURL nonce' maxRetries maxBackoff
      clientAssertion scopes clientID w key resp :
    LibrariesWork E signer ->
    rsa_GenerateKey E (keys w) 2048 = inl key -> rsa_Validate E key = None ->
    (forall q, http_Do E (length (sent w)) q = inl resp) ->
    Body_err resp = None ->
    exists q w',
      sent w' = sent w ++ [q] /\
      keys w' = S (keys w) /\
      Header_first (Header q) "Dpop"
        = Some (HJwt (dpop_proof E key "POST" (orgURL +:+ "/oauth2/v1/token")
                        nonce' EmptyString (next_key w))) /\
      getAccessTokenForDpopPrivateKey E (S fuel) tokenRequest orgURL nonce'
        maxRetries maxBackoff clientAssertion scopes clientID signer w
      = (if 300 <=? StatusCode resp then
           if Contains (resp_Body resp) "use_dpop_nonce" then
             getAccessTokenForDpopPrivateKey E fuel q orgURL
               (Header_Get (resp_Header resp) "Dpop-Nonce")
               maxRetries maxBackoff clientAssertion scopes clientID signer w'
           else (Returns (None, EmptyString, None, None), w')
         else (Returns (fst (buildResponse E resp), nonce', Some key, None), w')).
  Proof.
    intros Hlib Hgen Hval Hdo Hbody.
    destruct (createClientAssertion_run orgURL clientID signer
                (next_uuid (next_key w)) (assertion_works E signer Hlib))
      as [compact Hassert].
    set (jwt := dpop_proof E key "POST" (orgURL +:+ "/oauth2/v1/token")
                  nonce' EmptyString (next_key w)).
    set (q := set_Header (set_Body tokenRequest (token_form scopes compact))
                (Header_Set (Header (set_Body tokenRequest (token_form scopes compact)))
                   "DPoP" (HJwt jwt))).
    set (w3 := next_uuid (next_uuid (next_key w))).
    exists q, (log (EvSend (now w3) q) w3).
    split; [rewrite sent_log_send; reflexivity|].
    split; [reflexivity|].
    split.
    { unfold q, Header_first. cbn [set_Header Header].
      change "Dpop" with (CanonicalMIMEHeaderKey "DPoP") at 1.
      unfold Header_Values. 
      replace (CanonicalMIMEHeaderKey (CanonicalMIMEHeaderKey "DPoP"))
        with (CanonicalMIMEHeaderKey "DPoP") by (vm_compute; reflexivity).
      unfold Header_Set. rewrite lookup_insert_eq. reflexivity. }
    cbn [getAccessTokenForDpopPrivateKey].
    rewrite (bind_Returns _ _ _ _ _ (generatePrivateKey_run 2048 w key Hgen Hval)).
    cbv beta iota.
    rewrite (bind_Returns _ _ _ _ _
               (generateDpopJWT_run key "POST" _ nonce' EmptyString (next_key w)
                  (NewSigner_works E signer Hlib key)
                  (Serialize_works E signer Hlib key))).
    cbv beta iota.
    rewrite (bind_Returns _ _ _ _ _ Hassert).
    cbv beta iota. cbn [hval_of_jwt].
    fold jwt. fold q.
    assert (Hdo3 : http_Do E (length (sent w3)) q = inl resp) by exact (Hdo q).
    rewrite (bind_Returns _ _ _ _ _
               (Retry_first fuel _ fst _ _ _ _
                  (operation_run q (new_bOff maxRetries maxBackoff) None w3 resp
                     Hdo3))).
    cbv beta iota. cbn [snd]. rewrite Hbody.
    destruct (300 <=? StatusCode resp); [|destruct (buildResponse E resp); reflexivity].
    destruct (Contains (resp_Body resp) "use_dpop_nonce"); reflexivity.
  Qed.
End ExchangeSteps.

Section PlainRound.
Context (E : Env).

  (** The first request of the exchange, answered by [resp]. *)
Lemma plain_round (fuel : nat) signer orgURL clientAssertion userAgent scopes
      maxRetries maxBackoff clientID w resp :
    LibrariesWork E signer ->
    (forall q, http_Do E (length (sent w)) q = inl resp) ->
    exists q compact w',
      sent w' = sent w ++ [q] /\ keys w' = keys w /\ now w' = now w /\
      Header_first (Header q) "Dpop" = None /\
      getAccessTokenForPrivateKey E (S fuel) orgURL clientAssertion userAgent scopes
        maxRetries maxBackoff clientID signer w
      = (if 300 <=? StatusCode resp then
           if Contains (resp_Body resp) "invalid_dpop_proof" then
             getAccessTokenForDpopPrivateKey E (S fuel) q orgURL EmptyString
               maxRetries maxBackoff compact (Join scopes " ") clientID signer w'
           else (Returns (None, EmptyString, None, None), w')
         else
           match buildResponse E resp with
           | (_, Some e) => (Returns (None, EmptyString, None, Some e), w')
           | (accessToken, None) => (Returns (accessToken, EmptyString, None, None), w')
           end).
  Proof.
    intros Hlib Hdo.
    unfold getAccessTokenForPrivateKey.
    rewrite (NewRequest_works E signer Hlib).
    match goal with
    | |- context [Retry E (S fuel) (operation E ?q0) fst ?s0] =>
        set (q := q0); set (s := s0)
    end.
    set (w1 := log (EvSend (now w) q) w).
    destruct (createClientAssertion_run E orgURL clientID signer w1
                (assertion_works E signer Hlib)) as [compact Hassert].
    exists q, compact, (next_uuid w1).
    split; [unfold w1; cbn; rewrite sent_of_app; reflexivity|].
    split; [reflexivity|]. split; [reflexivity|].
    split; [unfold q; vm_compute; reflexivity|].
    rewrite (bind_Returns _ _ _ _ _
               (Retry_first E fuel _ fst _ _ _ _
                  (operation_run E q (new_bOff maxRetries maxBackoff) None w resp
                     (Hdo q)))).
    cbv beta iota. cbn [snd].
    rewrite (bind_Returns _ _ _ _ _ Hassert).
    cbv beta iota.
    destruct (300 <=? StatusCode resp).
    - destruct (Contains (resp_Body resp) "invalid_dpop_proof"); reflexivity.
    - destruct (buildResponse E resp) as [tok [e|]]; reflexivity.
  Qed.
End PlainRound.

(** ** C4: a permanent HTTP error of the token endpoint *)

(** C4, what the code does.  When the token endpoint answers the first
    request of the exchange with a status of 300 or more and a body without
    [invalid_dpop_proof], or a request of the DPoP handshake with such a
    status and a body without [use_dpop_nonce], the exchange ends after
    that one request, without a retry, and returns no token and a nil
    error: the HTTP failure is not reported. *)
Theorem C4_http_error_returns_nil_error (E : Env) (fuel : nat)
    (signer : option jose_Signer) (tokenRequest : Request)
    (orgURL clientAssertion userAgent nonce' scope clientID : string)
    (scopes : list string) (maxRetries maxBackoff : Z) (w : World) (resp : Response) :
  LibrariesWork E signer ->
  (forall q, http_Do E (length (sent w)) q = inl resp) ->
  300 <= StatusCode resp ->
  (Contains (resp_Body resp) "invalid_dpop_proof" = false ->
   exists w',
     getAccessTokenForPrivateKey E (S fuel) orgURL clientAssertion userAgent scopes
       maxRetries maxBackoff clientID signer w
     = (Returns (None, EmptyString, None, None), w') /\
     length (sent w') = S (length (sent w))) /\
  (Contains (resp_Body resp) "use_dpop_nonce" = false -> Body_err resp = None ->
   exists w',
     getAccessTokenForDpopPrivateKey E (S fuel) tokenRequest orgURL nonce'
       maxRetries maxBackoff clientAssertion scope clientID signer w
     = (Returns (None, EmptyString, None, None), w') /\
     length (sent w') = S (length (sent w))).
Proof.
  intros Hlib Hdo Hstatus.
  assert (Hge : (300 <=? StatusCode resp) = true) by (apply Z.leb_le; exact Hstatus).
  split.
  - intros Hmark.
    destruct (plain_round E fuel signer orgURL clientAssertion userAgent scopes
                maxRetries maxBackoff clientID w resp Hlib Hdo)
      as (q & compact & w' & Hsent & _ & _ & _ & Hrun).
    exists w'. rewrite Hrun, Hge, Hmark. split; [reflexivity|].
    rewrite Hsent, length_app. cbn. lia.
  - intros Hmark Hbody.
    destruct (GenerateKey_works E signer Hlib (keys w) 2048) as (key & Hgen & Hval).
    destruct (dpop_round E fuel signer tokenRequest orgURL nonce' maxRetries maxBackoff
                clientAssertion scope clientID w key resp Hlib Hgen Hval Hdo Hbody)
      as (q & w' & Hsent & _ & _ & Hrun).
    exists w'. rewrite Hrun, Hge, Hmark. split; [reflexivity|].
    rewrite Hsent, length_app. cbn. lia.
Qed.

Lemma scripted_works script dec signer : LibrariesWork (scripted script dec) signer.
Proof.
  constructor; cbn; try reflexivity.
  - intros n bits. eexists. split; reflexivity.
  - intros c. eexists. reflexivity.
Qed.

Lemma C4_http_error_returns_nil_error_witness :
  exists w',
    getAccessTokenForPrivateKey (scripted (fun _ => inl response401) decode) 1
      "https://example.okta.com" "assertion" "okta-sdk-golang" ["okta.users.read"]
      2 30 "client" (Some signer0) world0
    = (Returns (None, EmptyString, None, None), w') /\
    length (sent w') = 1%nat.
Proof.
  destruct (C4_http_error_returns_nil_error
              (scripted (fun _ => inl response401) decode) 0 (Some signer0) request0
              "https://example.okta.com" "assertion" "okta-sdk-golang" EmptyString
              "okta.users.read" "client" ["okta.users.read"] 2 30 world0 response401
              (scripted_works _ _ _) (fun _ => eq_refl))
    as [Hplain _].
  - vm_compute. discriminate.
  - apply Hplain. vm_compute. reflexivity.
Defined.

(** The caller of the exchange then reports an empty token. *)
Example C4_authorize_reports_empty_token :
  fst (PrivateKeyAuth.Authorize (scripted (fun _ => inl response401) decode) 1
         privateKeyAuth0 "GET" "https://example.okta.com/api/v1/users" world0)
  = Returns (privateKeyAuth0, Some (errors_New "Empty access token")).
Proof. vm_compute. reflexivity. Qed.

(** ** C10: a 2xx answer in the DPoP handshake *)






(** The whole path on a concrete endpoint: a DPoP challenge, then a 200
    whose body does not decode. *)
Example C10_authorize_reports_empty_token :
  fst (PrivateKeyAuth.Authorize (scripted garbage_script decode) 2
         privateKeyAuth0 "GET" "https://example.okta.com/api/v1/users" world0)
  = Returns (privateKeyAuth0, Some (errors_New "Empty access token")).
Proof. vm_compute. reflexivity. Qed.

(** ** C3: convergence of the DPoP handshake *)

(** C3.  Let the libraries work and let the token endpoint answer the
    first request with a status of 300 or more and [invalid_dpop_proof],
    the second with such a status, [use_dpop_nonce] and the header
    [Dpop-Nonce: abc], and the third with a 2xx status.  Then the exchange
    returns after exactly three requests; the first carries no [Dpop]
    header, the third carries a DPoP proof whose [nonce] claim is ["abc"],
    and the nonce and key returned with the token are those of that proof. *)
Theorem C3_dpop_handshake_converges (E : Env) (fuel : nat)
    (signer : option jose_Signer)
    (orgURL clientAssertion userAgent clientID : string) (scopes : list string)
    (maxRetries maxBackoff : Z) (w : World) (r1 r2 r3 : Response) :
  LibrariesWork E signer ->
  (forall q, http_Do E (length (sent w)) q = inl r1) ->
  300 <= StatusCode r1 ->
  Contains (resp_Body r1) "invalid_dpop_proof" = true ->
  (forall q, http_Do E (S (length (sent w))) q = inl r2) ->
  300 <= StatusCode r2 ->
  Contains (resp_Body r2) "use_dpop_nonce" = true ->
  Header_Get (resp_Header r2) "Dpop-Nonce" = "abc" ->
  Body_err r2 = None ->
  (forall q, http_Do E (S (S (length (sent w)))) q = inl r3) ->
  200 <= StatusCode r3 < 300 ->
  Body_err r3 = None ->
  exists q1 q2 q3 jwt key w',
    getAccessTokenForPrivateKey E (S (S fuel)) orgURL clientAssertion userAgent scopes
      maxRetries maxBackoff clientID signer w
    = (Returns (fst (buildResponse E r3), "abc", Some key, None), w') /\
    sent w' = sent w ++ [q1; q2; q3] /\
    Header_first (Header q1) "Dpop" = None /\
    Header_first (Header q3) "Dpop" = Some (HJwt jwt) /\
    claim (nonce (jwt_claims jwt)) = Some "abc" /\
    htm (jwt_claims jwt) = "POST" /\
    jwt_key jwt = key.
Proof.
  intros Hlib Hdo1 Hs1 Hm1 Hdo2 Hs2 Hm2 Hnonce Hb2 Hdo3 Hs3 Hb3.
  apply Z.leb_le in Hs1, Hs2.
  assert (Hlt3 : (300 <=? StatusCode r3) = false) by (apply Z.leb_gt; lia).
  destruct (plain_round E (S fuel) signer orgURL clientAssertion userAgent scopes
              maxRetries maxBackoff clientID w r1 Hlib Hdo1)
    as (q1 & compact & w1 & Hsent1 & Hkeys1 & _ & Hq1 & Hrun1).
  rewrite Hs1, Hm1 in Hrun1.
  destruct (GenerateKey_works E signer Hlib (keys w1) 2048) as (key1 & Hgen1 & Hval1).
  assert (Hdo2' : forall q, http_Do E (length (sent w1)) q = inl r2).
  { intros q. rewrite Hsent1, length_app, Nat.add_comm. apply Hdo2. }
  destruct (dpop_round E (S fuel) signer q1 orgURL EmptyString maxRetries maxBackoff
              compact (Join scopes " ") clientID w1 key1 r2 Hlib Hgen1 Hval1 Hdo2' Hb2)
    as (q2 & w2 & Hsent2 & Hkeys2 & _ & Hrun2).
  rewrite Hs2, Hm2, Hnonce in Hrun2.
  destruct (GenerateKey_works E signer Hlib (keys w2) 2048) as (key2 & Hgen2 & Hval2).
  assert (Hdo3' : forall q, http_Do E (length (sent w2)) q = inl r3).
  { intros q. rewrite Hsent2, Hsent1, !length_app. cbn [length].
    replace (length (sent w) + 1 + 1)%nat with (S (S (length (sent w)))) by lia.
    apply Hdo3. }
  destruct (dpop_round E fuel signer q2 orgURL "abc" maxRetries maxBackoff
              compact (Join scopes " ") clientID w2 key2 r3 Hlib Hgen2 Hval2 Hdo3' Hb3)
    as (q3 & w3 & Hsent3 & _ & Hproof3 & Hrun3).
  rewrite Hlt3 in Hrun3.
  exists q1, q2, q3, (dpop_proof E key2 "POST" (orgURL +:+ "/oauth2/v1/token") "abc"
                        EmptyString (next_key w2)), key2, w3.
  split; [rewrite Hrun1, Hrun2, Hrun3; reflexivity|].
  split; [rewrite Hsent3, Hsent2, Hsent1, <- !app_assoc; reflexivity|].
  split; [exact Hq1|].
  split; [exact Hproof3|].
  repeat split; reflexivity.
Qed.

Lemma C3_dpop_handshake_converges_witness :
  exists q1 q2 q3 jwt key w',
    getAccessTokenForPrivateKey (scripted handshake_script decode) 2
      "https://example.okta.com" "assertion" "okta-sdk-golang" ["okta.users.read"]
      2 30 "client" (Some signer0) world0
    = (Returns (fst (decode response200), "abc", Some key, None), w') /\
    sent w' = sent world0 ++ [q1; q2; q3] /\
    Header_first (Header q1) "Dpop" = None /\
    Header_first (Header q3) "Dpop" = Some (HJwt jwt) /\
    claim (nonce (jwt_claims jwt)) = Some "abc" /\
    htm (jwt_claims jwt) = "POST" /\
    jwt_key jwt = key.
Proof.
  apply (C3_dpop_handshake_converges (scripted handshake_script decode) 0
           (Some signer0) "https://example.okta.com" "assertion" "okta-sdk-golang"
           "client" ["okta.users.read"] 2 30 world0
           response_invalid_dpop_proof response_use_dpop_nonce response200
           (scripted_works _ _ _) (fun _ => eq_refl)).
  - vm_compute. discriminate.
  - vm_compute. reflexivity.
  - intros q. reflexivity.
  - vm_compute. discriminate.
  - vm_compute. reflexivity.
  - vm_compute. reflexivity.
  - reflexivity.
  - intros q. reflexivity.
  - vm_compute. split; [discriminate|reflexivity].
  - reflexivity.
Defined.

(** ** What the authorization code does to the world *)

Section AuthorizeSteps.
Context (E : Env).

  (** Generating a proof sends nothing and takes no time. *)
Lemma generateDpopJWT_world key httpMethod target nonce' accessToken w res w' :
    generateDpopJWT E key httpMethod target nonce' accessToken w = (res, w') ->
    trace w' = trace w /\ now w' = now w /\ keys w' = keys w /\ res <> OutOfFuel.
  Proof.
    unfold generateDpopJWT. destruct key as [key|].
    - destruct (dpop_NewSigner_err E key).
      + intros Heq; inversion Heq; subst; repeat split; discriminate.
      + unfold bind, uuid_New, time_Now, ret. cbn.
        match goal with |- context [dpop_Serialize_err E key ?c] =>
          destruct (dpop_Serialize_err E key c) end;
          intros Heq; inversion Heq; subst; repeat split; discriminate.
    - intros Heq; inversion Heq; subst; repeat split; discriminate.
  Qed.

Lemma Authorization_not_Dpop :
    CanonicalMIMEHeaderKey "Authorization" <> CanonicalMIMEHeaderKey "Dpop".
  Proof. vm_compute. discriminate. Qed.

Lemma Authorization_not_extended :
    CanonicalMIMEHeaderKey "Authorization"
    <> CanonicalMIMEHeaderKey "x-okta-user-agent-extended".
  Proof. vm_compute. discriminate. Qed.

Lemma Header_Values_Set_other {V : Type} (h : gmap string (list V)) key v key' :
    CanonicalMIMEHeaderKey key' <> CanonicalMIMEHeaderKey key ->
    Header_Values (Header_Set h key v) key' = Header_Values h key'.
  Proof.
    intros Hne. unfold Header_Values. rewrite Header_Set_other by exact Hne.
    reflexivity.
  Qed.

  (** The cached branch: nothing is sent, no key is generated, no time
      passes, and if the branch returns, the cached token is the last value
      of the [Authorization] header. *)
Lemma authorizeFromCache_effects tokenCache req method target accessToken w res w' :
    authorizeFromCache E tokenCache req method target accessToken w = (res, w') ->
    trace w' = trace w /\ now w' = now w /\ keys w' = keys w /\ res <> OutOfFuel /\
    (forall req' err, res = Returns (req', err) ->
       exists s, accessToken = AnyString s /\
         Header_Values (Header req') "Authorization"
         = Header_Values (Header req) "Authorization" ++ [HStr s] /\
         Method req' = Method req /\ URL req' = URL req /\ Body req' = Body req).
  Proof.
    unfold authorizeFromCache.
    destruct accessToken as [|s|k]; cbn [assert_string];
      try (unfold bind, panic; intros Heq; inversion Heq; subst;
           repeat split; discriminate).
    unfold tokenCache_Get.
    unfold bind at 1. unfold ret at 1. unfold bind at 1 2.
    unfold time_Now at 1. unfold ret at 1.
    destruct (goCache_Get tokenCache DpopAccessTokenNonce (now w)) as [nonce' hasNonce].
    assert (Hadd : forall r' : Request,
              Header_Values (Header r') "Authorization"
              = Header_Values
                  (Header (set_Header req
                     (Header_Add (Header req) "Authorization" (HStr s))))
                  "Authorization" ->
              Method r' = Method req -> URL r' = URL req -> Body r' = Body req ->
              exists s0, AnyString s = AnyString s0 /\
                Header_Values (Header r') "Authorization"
                = Header_Values (Header req) "Authorization" ++ [HStr s0] /\
                Method r' = Method req /\ URL r' = URL req /\ Body r' = Body req).
    { intros r' Hv Hm Hu Hb. exists s. split; [reflexivity|].
      rewrite Hv. cbn [set_Header Header]. rewrite Header_Values_Add. auto. }
    destruct (hasNonce && any_ne_empty_string nonce').
    2:{ unfold ret. intros Heq; inversion Heq; subst.
        repeat split; try discriminate.
        intros req' err Hret. inversion Hret; subst. apply Hadd; reflexivity. }
    unfold bind at 1 2. unfold time_Now at 1. unfold ret at 1.
    destruct (goCache_Get tokenCache DpopAccessTokenPrivateKey (now w))
      as [privateKey ok].
    destruct (ok && any_ne_nil privateKey).
    2:{ unfold ret. intros Heq; inversion Heq; subst.
        repeat split; try discriminate.
        intros req' err Hret. inversion Hret; subst. apply Hadd; reflexivity. }
    destruct (negb (length (Split s " ") =? 2)%nat).
    { unfold ret. intros Heq; inversion Heq; subst.
      repeat split; try discriminate.
      intros req' err Hret. inversion Hret; subst. apply Hadd; reflexivity. }
    destruct privateKey as [|s1|key]; cbn [assert_rsa];
      try (unfold bind, panic; intros Heq; inversion Heq; subst;
           repeat split; discriminate).
    unfold bind at 1. unfold ret at 1.
    destruct nonce' as [|n|k]; cbn [assert_string];
      try (unfold bind, panic; intros Heq; inversion Heq; subst;
           repeat split; discriminate).
    unfold bind at 1. unfold ret at 1.
    unfold bind.
    destruct (generateDpopJWT E key method target n (nth 1 (Split s " ") EmptyString) w)
      as [res1 w1] eqn:Hgen.
    apply generateDpopJWT_world in Hgen as (Htr & Hnow & Hkeys & Hfuel).
    destruct res1 as [[dpopJWT err]| |]; [| |congruence].
    - destruct err as [e|]; unfold ret; intros Heq; inversion Heq; subst;
        (repeat split; [assumption|assumption|assumption|discriminate|]);
        intros req' err Hret; inversion Hret; subst; apply Hadd; try reflexivity.
      cbn [set_Header Header].
      rewrite (Header_Values_Set_other _ "x-okta-user-agent-extended")
        by exact Authorization_not_extended.
      rewrite (Header_Values_Set_other _ "Dpop") by exact Authorization_not_Dpop.
      reflexivity.
    - intros Heq; inversion Heq; subst.
      repeat split; try assumption; discriminate.
  Qed.
End AuthorizeSteps.

(** ** C2: reuse of a cached credential *)

Section Reuse.
Context (E : Env).

Lemma authorizeFromCache_plain tokenCache req method target s w :
    snd (goCache_Get tokenCache DpopAccessTokenNonce (now w)) = false ->
    authorizeFromCache E tokenCache req method target (AnyString s) w
    = (Returns (set_Header req
                  (Header_Add (Header req) "Authorization" (HStr s)), None), w).
  Proof.
    intros Hnonce. unfold authorizeFromCache, tokenCache_Get. cbn [assert_string].
    unfold bind, ret, time_Now.
    destruct (goCache_Get tokenCache DpopAccessTokenNonce (now w)) as [n b].
    cbn in Hnonce. subst b. reflexivity.
  Qed.

  (** The shape the three methods share on a hit. *)
Lemma hit_reuses {A : Type} (cache_of : A -> goCache) (req_of : A -> Request)
      (with_req : A -> Request -> A)
      (authorize : nat -> A -> string -> string -> M (A * option error)) :
    (forall a r, cache_of (with_req a r) = cache_of a) ->
    (forall a r, req_of (with_req a r) = r) ->
    (forall fuel a method target w s,
       goCache_Get (cache_of a) AccessTokenCacheKey (now w) = (AnyString s, true) ->
       s <> EmptyString ->
       authorize fuel a method target w
       = (let* (req', err) :=
            authorizeFromCache E (cache_of a) (req_of a) method target (AnyString s) in
          ret (with_req a req', err)) w) ->
    reuses_cached_token cache_of req_of authorize.
  Proof.
    intros Hcache Hreq Hhit fuel a method target w s Hget Hs.
    rewrite (Hhit fuel a method target w s Hget Hs). unfold bind.
    destruct (authorizeFromCache E (cache_of a) (req_of a) method target (AnyString s) w)
      as [res w'] eqn:Hrun.
    pose proof (authorizeFromCache_effects E _ _ _ _ _ _ _ _ Hrun)
      as (Htr & Hnow & Hkeys & Hfuel & Hret).
    destruct res as [[req' err]| |]; [| |congruence].
    - eexists _, _. split; [reflexivity|].
      repeat split; try assumption; try discriminate.
      + inversion H; subst. apply Hcache.
      + inversion H; subst. rewrite Hreq.
        destruct (Hret req' err0 eq_refl) as (s0 & Hs0 & Hv & _).
        inversion Hs0; subst. exact Hv.
      + intros Hnonce. rewrite (authorizeFromCache_plain _ _ _ _ _ _ Hnonce) in Hrun.
        inversion Hrun; subst. eauto.
    - eexists _, _. split; [reflexivity|].
      repeat split; try assumption; try discriminate.
      intros Hnonce. rewrite (authorizeFromCache_plain _ _ _ _ _ _ Hnonce) in Hrun.
      discriminate Hrun.
  Qed.

Lemma reuse_twice {A : Type} (cache_of : A -> goCache) (req_of : A -> Request)
      (authorize : nat -> A -> string -> string -> M (A * option error)) :
    reuses_cached_token cache_of req_of authorize ->
    two_calls_send_nothing cache_of authorize.
  Proof.
    intros Hreuse fuel1 fuel2 a1 a2 method1 target1 method2 target2 w s res1 w1 w2
      Hget Hs Hrun1 Hshare Htrace Hlive.
    destruct (Hreuse fuel1 a1 method1 target1 w s Hget Hs)
      as (res & w' & Hrun & Htr1 & _).
    rewrite Hrun1 in Hrun. inversion Hrun; subst res w'.
    rewrite <- Hshare in Hlive.
    destruct (Hreuse fuel2 a2 method2 target2 w2 s Hlive Hs)
      as (res2 & w2' & Hrun2 & Htr2 & _ & _ & Hfuel & _).
    exists res2, w2'. split; [exact Hrun2|]. split; [exact Hfuel|].
    unfold sent. rewrite Htr2, Htrace, Htr1. reflexivity.
  Qed.

Lemma hit_test (c : goCache) (t : Z) (s : string) :
    goCache_Get c AccessTokenCacheKey t = (AnyString s, true) -> s <> EmptyString ->
    (let '(accessToken, hasToken) := goCache_Get c AccessTokenCacheKey t in
     hasToken && any_ne_empty_string accessToken) = true.
  Proof.
    intros -> Hs. cbn. apply String.eqb_neq in Hs. rewrite Hs. reflexivity.
  Qed.

Lemma PrivateKeyAuth_reuses :
    reuses_cached_token PrivateKeyAuth.tokenCache PrivateKeyAuth.req
      (PrivateKeyAuth.Authorize E).
  Proof.
    apply (hit_reuses _ _
             (fun a r => PrivateKeyAuth.update a (PrivateKeyAuth.tokenCache a)
                           (PrivateKeyAuth.privateKeySigner a) r));
      [reflexivity|reflexivity|].
    intros fuel a method target w s Hget Hs.
    pose proof (hit_test _ _ _ Hget Hs) as Htest.
    unfold PrivateKeyAuth.Authorize, tokenCache_Get.
    unfold bind at 1 2. unfold time_Now at 1. unfold ret at 1.
    rewrite Hget in *. cbv beta iota. rewrite Htest. reflexivity.
  Qed.

Lemma JWTAuth_reuses :
    reuses_cached_token JWTAuth.tokenCache JWTAuth.req (JWTAuth.Authorize E).
  Proof.
    apply (hit_reuses _ _ (fun a r => JWTAuth.update a (JWTAuth.tokenCache a) r));
      [reflexivity|reflexivity|].
    intros fuel a method target w s Hget Hs.
    pose proof (hit_test _ _ _ Hget Hs) as Htest.
    unfold JWTAuth.Authorize, tokenCache_Get.
    unfold bind at 1 2. unfold time_Now at 1. unfold ret at 1.
    rewrite Hget in *. cbv beta iota. rewrite Htest. reflexivity.
  Qed.

Lemma JWKAuth_reuses :
    reuses_cached_token JWKAuth.tokenCache JWKAuth.req (JWKAuth.Authorize E).
  Proof.
    apply (hit_reuses _ _
             (fun a r => JWKAuth.update a (JWKAuth.tokenCache a)
                           (JWKAuth.privateKeySigner a) r));
      [reflexivity|reflexivity|].
    intros fuel a method target w s Hget Hs.
    pose proof (hit_test _ _ _ Hget Hs) as Htest.
    unfold JWKAuth.Authorize, tokenCache_Get.
    unfold bind at 1 2. unfold time_Now at 1. unfold ret at 1.
    rewrite Hget in *. cbv beta iota. rewrite Htest. reflexivity.
  Qed.
End Reuse.

Section Returns.
Context (E : Env).

Lemma generateDpopJWT_returns key httpMethod target nonce' accessToken w :
  exists jwt err w',
    generateDpopJWT E (Some key) httpMethod target nonce' accessToken w
    = (Returns (jwt, err), w') /\
    (dpop_NewSigner_err E key = None ->
     (forall c, dpop_Serialize_err E key c = None) -> err = None).
Proof.
  unfold generateDpopJWT.
  destruct (dpop_NewSigner_err E key) as [e|] eqn:Hs.
  { unfold ret. eexists _, _, _. split; [reflexivity|]. intros Hnone; discriminate Hnone. }
  unfold bind, uuid_New, time_Now, ret. cbn.
  match goal with |- context [dpop_Serialize_err E key ?c] =>
    destruct (dpop_Serialize_err E key c) as [e|] eqn:Hc end.
  - eexists _, _, _. split; [reflexivity|]. intros _ Hall. rewrite Hall in Hc.
    discriminate Hc.
  - eexists _, _, _. split; [reflexivity|]. reflexivity.
Qed.

(** The cached branch returns on a credential as [Authorize] stores it. *)
Lemma authorizeFromCache_returns tokenCache req method target w s n :
  goCache_Get tokenCache DpopAccessTokenNonce (now w) = (AnyString n, true) ->
  (n <> EmptyString ->
   exists key, goCache_Get tokenCache DpopAccessTokenPrivateKey (now w)
               = (AnyRsaKey (Some key), true)) ->
  exists req' err w',
    authorizeFromCache E tokenCache req method target (AnyString s) w
    = (Returns (req', err), w') /\
    (n = EmptyString \/
     (length (Split s " ") = 2%nat /\
      forall key,
        goCache_Get tokenCache DpopAccessTokenPrivateKey (now w)
        = (AnyRsaKey (Some key), true) ->
        dpop_NewSigner_err E key = None /\
        forall c, dpop_Serialize_err E key c = None) ->
     err = None).
Proof.
  intros Hnonce Hkey.
  unfold authorizeFromCache, tokenCache_Get. cbn [assert_string].
  unfold bind at 1. unfold ret at 1. unfold bind at 1 2.
  unfold time_Now at 1. unfold ret at 1. rewrite Hnonce.
  cbn [any_ne_empty_string andb].
  destruct (String.eqb_spec n EmptyString) as [Hn|Hn]; cbn [negb].
  { unfold ret. eexists _, _, _. split; [reflexivity|]. reflexivity. }
  destruct (Hkey Hn) as [key Hk].
  unfold bind at 1 2. unfold time_Now at 1. unfold ret at 1. rewrite Hk.
  cbn [any_ne_nil andb].
  destruct (Nat.eqb_spec (length (Split s " ")) 2) as [Hlen|Hlen]; cbn [negb].
  - cbn [assert_rsa assert_string]. unfold bind at 1. unfold ret at 1.
    unfold bind at 1. unfold ret at 1.
    destruct (generateDpopJWT_returns key method target n
                (nth 1 (Split s " ") EmptyString) w)
      as (jwt & err & w' & Hgen & Hok).
    rewrite (bind_Returns _ _ _ _ _ Hgen). cbv beta iota.
    destruct err as [e|]; unfold ret; eexists _, _, _; (split; [reflexivity|]).
    + intros [Hempty|[_ Hsigns]]; [contradiction|].
      destruct (Hsigns key eq_refl) as [Hs Hc]. discriminate (Hok Hs Hc).
    + reflexivity.
  - unfold ret. eexists _, _, _. split; [reflexivity|].
    intros [Hempty|[Hlen' _]]; contradiction.
Qed.

Lemma PrivateKeyAuth_hit fuel a method target w s :
  goCache_Get (PrivateKeyAuth.tokenCache a) AccessTokenCacheKey (now w)
  = (AnyString s, true) ->
  s <> EmptyString ->
  PrivateKeyAuth.Authorize E fuel a method target w
  = (let* (req', err) :=
       authorizeFromCache E (PrivateKeyAuth.tokenCache a) (PrivateKeyAuth.req a)
         method target (AnyString s) in
     ret (PrivateKeyAuth.update a (PrivateKeyAuth.tokenCache a)
            (PrivateKeyAuth.privateKeySigner a) req', err)) w.
Proof.
  intros Hget Hs. pose proof (hit_test _ _ _ Hget Hs) as Htest.
  unfold PrivateKeyAuth.Authorize, tokenCache_Get.
  unfold bind at 1 2. unfold time_Now at 1. unfold ret at 1.
  rewrite Hget in *. cbv beta iota. rewrite Htest. reflexivity.
Qed.

Lemma JWTAuth_hit fuel a method target w s :
  goCache_Get (JWTAuth.tokenCache a) AccessTokenCacheKey (now w) = (AnyString s, true) ->
  s <> EmptyString ->
  JWTAuth.Authorize E fuel a method target w
  = (let* (req', err) :=
       authorizeFromCache E (JWTAuth.tokenCache a) (JWTAuth.req a)
         method target (AnyString s) in
     ret (JWTAuth.update a (JWTAuth.tokenCache a) req', err)) w.
Proof.
  intros Hget Hs. pose proof (hit_test _ _ _ Hget Hs) as Htest.
  unfold JWTAuth.Authorize, tokenCache_Get.
  unfold bind at 1 2. unfold time_Now at 1. unfold ret at 1.
  rewrite Hget in *. cbv beta iota. rewrite Htest. reflexivity.
Qed.

Lemma JWKAuth_hit fuel a method target w s :
  goCache_Get (JWKAuth.tokenCache a) AccessTokenCacheKey (now w) = (AnyString s, true) ->
  s <> EmptyString ->
  JWKAuth.Authorize E fuel a method target w
  = (let* (req', err) :=
       authorizeFromCache E (JWKAuth.tokenCache a) (JWKAuth.req a)
         method target (AnyString s) in
     ret (JWKAuth.update a (JWKAuth.tokenCache a) (JWKAuth.privateKeySigner a) req',
          err)) w.
Proof.
  intros Hget Hs. pose proof (hit_test _ _ _ Hget Hs) as Htest.
  unfold JWKAuth.Authorize, tokenCache_Get.
  unfold bind at 1 2. unfold time_Now at 1. unfold ret at 1.
  rewrite Hget in *. cbv beta iota. rewrite Htest. reflexivity.
Qed.

Lemma hit_attaches_token {A : Type} (cache_of : A -> goCache) (req_of : A -> Request)
    (with_req : A -> Request -> A)
    (authorize : nat -> A -> string -> string -> M (A * option error)) :
  (forall a r, cache_of (with_req a r) = cache_of a) ->
  (forall a r, req_of (with_req a r) = r) ->
  (forall fuel a method target w s,
     goCache_Get (cache_of a) AccessTokenCacheKey (now w) = (AnyString s, true) ->
     s <> EmptyString ->
     authorize fuel a method target w
     = (let* (req', err) :=
          authorizeFromCache E (cache_of a) (req_of a) method target (AnyString s) in
        ret (with_req a req', err)) w) ->
  attaches_cached_token E cache_of req_of authorize.
Proof.
  intros Hcache Hreq Hhit fuel a method target w s n Hget Hs Hnonce Hkey.
  destruct (authorizeFromCache_returns (cache_of a) (req_of a) method target w s n
              Hnonce Hkey) as (req' & err & w' & Hrun & Herr).
  pose proof (authorizeFromCache_effects E _ _ _ _ _ _ _ _ Hrun)
    as (Htr & Hnow & Hkeys & _ & Hret).
  destruct (Hret req' err eq_refl) as (s0 & Hs0 & Hv & _).
  inversion Hs0; subst s0.
  exists (with_req a req'), err, w'.
  rewrite (Hhit fuel a method target w s Hget Hs), (bind_Returns _ _ _ _ _ Hrun).
  split; [reflexivity|]. split; [exact Htr|]. split; [exact Hkeys|].
  split; [exact Hnow|]. split; [apply Hcache|].
  split; [rewrite Hreq; exact Hv|exact Herr].
Qed.
Lemma PrivateKeyAuth_attaches :
  attaches_cached_token E PrivateKeyAuth.tokenCache PrivateKeyAuth.req
    (PrivateKeyAuth.Authorize E).
Proof.
  apply (hit_attaches_token _ _
           (fun a r => PrivateKeyAuth.update a (PrivateKeyAuth.tokenCache a)
                         (PrivateKeyAuth.privateKeySigner a) r));
    [reflexivity|reflexivity|]. apply PrivateKeyAuth_hit.
Qed.

Lemma JWTAuth_attaches :
  attaches_cached_token E JWTAuth.tokenCache JWTAuth.req (JWTAuth.Authorize E).
Proof.
  apply (hit_attaches_token _ _ (fun a r => JWTAuth.update a (JWTAuth.tokenCache a) r));
    [reflexivity|reflexivity|]. apply JWTAuth_hit.
Qed.

Lemma JWKAuth_attaches :
  attaches_cached_token E JWKAuth.tokenCache JWKAuth.req (JWKAuth.Authorize E).
Proof.
  apply (hit_attaches_token _ _
           (fun a r => JWKAuth.update a (JWKAuth.tokenCache a)
                         (JWKAuth.privateKeySigner a) r));
    [reflexivity|reflexivity|]. apply JWKAuth_hit.
Qed.
End Returns.

(** C2.  For each of [PrivateKeyAuth], [JWTAuth] and [JWKAuth]: a call of
    [Authorize] made while the token cache holds a live, non-empty access
    token sends no request (the trace of the world is unchanged), generates
    no key and uses none of the fuel of the exchange, so
    [getAccessTokenForPrivateKey] is not run, whatever else the cache
    holds and however the call ends.  With the credential as [Authorize]
    stores it (the token, a nonce, and a key when the nonce is not empty)
    the call returns, the cached token has been added to the
    [Authorization] header and the cache is unchanged; it returns no error
    for the credential of a bearer token (an empty nonce), and for a DPoP
    credential whose token has two words and whose key signs.  And after
    two consecutive calls within the life of the token, nothing has been
    sent. *)
Theorem C2_cached_token_is_reused (E : Env) :
  (reuses_cached_token PrivateKeyAuth.tokenCache PrivateKeyAuth.req
     (PrivateKeyAuth.Authorize E) /\
   attaches_cached_token E PrivateKeyAuth.tokenCache PrivateKeyAuth.req
     (PrivateKeyAuth.Authorize E) /\
   two_calls_send_nothing PrivateKeyAuth.tokenCache (PrivateKeyAuth.Authorize E)) /\
  (reuses_cached_token JWTAuth.tokenCache JWTAuth.req (JWTAuth.Authorize E) /\
   attaches_cached_token E JWTAuth.tokenCache JWTAuth.req (JWTAuth.Authorize E) /\
   two_calls_send_nothing JWTAuth.tokenCache (JWTAuth.Authorize E)) /\
  (reuses_cached_token JWKAuth.tokenCache JWKAuth.req (JWKAuth.Authorize E) /\
   attaches_cached_token E JWKAuth.tokenCache JWKAuth.req (JWKAuth.Authorize E) /\
   two_calls_send_nothing JWKAuth.tokenCache (JWKAuth.Authorize E)).
Proof.
  pose proof (PrivateKeyAuth_reuses E) as H1.
  pose proof (JWTAuth_reuses E) as H2.
  pose proof (JWKAuth_reuses E) as H3.
  split; [|split].
  - split; [exact H1|]. split; [apply PrivateKeyAuth_attaches|].
    eapply reuse_twice; exact H1.
  - split; [exact H2|]. split; [apply JWTAuth_attaches|].
    eapply reuse_twice; exact H2.
  - split; [exact H3|]. split; [apply JWKAuth_attaches|].
    eapply reuse_twice; exact H3.
Qed.

Lemma C2_cached_token_is_reused_witness :
  let E := scripted unreachable no_decode in
  let w := set_now world0 (Seconds 3000) in
  (exists a' w',
     PrivateKeyAuth.Authorize E 0
       (PrivateKeyAuth.update privateKeyAuth0 cache_bearer_stored (Some signer0) request0)
       "GET" "https://example.okta.com/api/v1/users" w
     = (Returns (a', None), w') /\
     trace w' = trace w /\
     PrivateKeyAuth.tokenCache a' = cache_bearer_stored /\
     Header_Values (Header (PrivateKeyAuth.req a')) "Authorization"
     = [HStr "Bearer abc"]) /\
  (exists res w',
     PrivateKeyAuth.Authorize E 0 privateKeyAuth_cached
       "GET" "https://example.okta.com/api/v1/users" w
     = (res, w') /\
     trace w' = trace w /\
     (forall a' err, res = Returns (a', err) ->
        Header_Values (Header (PrivateKeyAuth.req a')) "Authorization"
        = [HStr "Bearer abc"])).
Proof.
  intros E w.
  destruct (C2_cached_token_is_reused E) as [(Hreuse & Hattach & _) _].
  split.
  - destruct (Hattach 0%nat
                (PrivateKeyAuth.update privateKeyAuth0 cache_bearer_stored (Some signer0)
                   request0)
                "GET" "https://example.okta.com/api/v1/users" w "Bearer abc" EmptyString)
      as (a' & err & w' & Hrun & Htr & _ & _ & Hcache & Hv & Herr).
    + vm_compute. reflexivity.
    + discriminate.
    + vm_compute. reflexivity.
    + intros Hne. contradiction Hne. reflexivity.
    + exists a', w'. rewrite (Herr (or_introl eq_refl)) in Hrun.
      split; [exact Hrun|]. split; [exact Htr|]. split; [exact Hcache|exact Hv].
  - destruct (Hreuse 0%nat privateKeyAuth_cached "GET"
                "https://example.okta.com/api/v1/users" w "Bearer abc")
      as (res & w' & Hrun & Htr & _ & _ & _ & Hret & _).
    + vm_compute. reflexivity.
    + discriminate.
    + exists res, w'. split; [exact Hrun|]. split; [exact Htr|].
      intros a' err Hres. destruct (Hret a' err Hres) as [_ Hv]. exact Hv.
Defined.

(** ** C1: the life of a cached credential *)







Section Store.
Context (E : Env).


Lemma miss_test (c : goCache) (t : Z) :
    token_miss c t ->
    forall accessToken hasToken,
      goCache_Get c AccessTokenCacheKey t = (accessToken, hasToken) ->
      hasToken && any_ne_empty_string accessToken = false.
  Proof. unfold token_miss. intros Hmiss x b Hget. rewrite Hget in Hmiss. exact Hmiss. Qed.

Lemma PrivateKeyAuth_exchange fuel a method target w signer result w1 :
    token_miss (PrivateKeyAuth.tokenCache a) (now w) ->
    PrivateKeyAuth_exchanged E fuel a w signer result w1 ->
    PrivateKeyAuth.Authorize E fuel a method target w
    = (let* (c, r, err) :=
         authorizeFromExchange E (PrivateKeyAuth.tokenCache a) (PrivateKeyAuth.req a)
           method target result in
       ret (PrivateKeyAuth.update a c signer r, err)) w1.
  Proof.
    intros Hmiss (compact & w0 & Hsigner & Hassert & Hrun).
    unfold PrivateKeyAuth.Authorize, tokenCache_Get.
    unfold bind at 1 2. unfold time_Now at 1. unfold ret at 1.
    destruct (goCache_Get (PrivateKeyAuth.tokenCache a) AccessTokenCacheKey (now w))
      as [accessToken hasToken] eqn:Hget.
    rewrite (miss_test _ _ Hmiss _ _ Hget).
    rewrite Hsigner. cbn [PrivateKeyAuth.update PrivateKeyAuth.orgURL
      PrivateKeyAuth.clientId PrivateKeyAuth.privateKeySigner PrivateKeyAuth.userAgent
      PrivateKeyAuth.scopes PrivateKeyAuth.maxRetries PrivateKeyAuth.maxBackoff
      PrivateKeyAuth.tokenCache PrivateKeyAuth.req PrivateKeyAuth.privateKey
      PrivateKeyAuth.privateKeyId].
    rewrite (bind_Returns _ _ _ _ _ Hassert). cbv beta iota.
    rewrite (bind_Returns _ _ _ _ _ Hrun). reflexivity.
  Qed.

Lemma JWTAuth_exchange fuel a method target w result w1 :
    token_miss (JWTAuth.tokenCache a) (now w) ->
    JWTAuth_exchanged E fuel a w result w1 ->
    JWTAuth.Authorize E fuel a method target w
    = (let* (c, r, err) :=
         authorizeFromExchange E (JWTAuth.tokenCache a) (JWTAuth.req a)
           method target result in
       ret (JWTAuth.update a c r, err)) w1.
  Proof.
    intros Hmiss Hrun. unfold JWTAuth_exchanged in Hrun.
    unfold JWTAuth.Authorize, tokenCache_Get.
    unfold bind at 1 2. unfold time_Now at 1. unfold ret at 1.
    destruct (goCache_Get (JWTAuth.tokenCache a) AccessTokenCacheKey (now w))
      as [accessToken hasToken] eqn:Hget.
    rewrite (miss_test _ _ Hmiss _ _ Hget).
    rewrite (bind_Returns _ _ _ _ _ Hrun). reflexivity.
  Qed.

Lemma JWKAuth_exchange fuel a method target w signer result w1 :
    token_miss (JWKAuth.tokenCache a) (now w) ->
    JWKAuth_exchanged E fuel a w signer result w1 ->
    JWKAuth.Authorize E fuel a method target w
    = (let* (c, r, err) :=
         authorizeFromExchange E (JWKAuth.tokenCache a) (JWKAuth.req a)
           method target result in
       ret (JWKAuth.update a c signer r, err)) w1.
  Proof.
    intros Hmiss (privateKey & compact & w0 & Hconv & Hsigner & Hassert & Hrun).
    unfold JWKAuth.Authorize, tokenCache_Get.
    unfold bind at 1 2. unfold time_Now at 1. unfold ret at 1.
    destruct (goCache_Get (JWKAuth.tokenCache a) AccessTokenCacheKey (now w))
      as [accessToken hasToken] eqn:Hget.
    rewrite (miss_test _ _ Hmiss _ _ Hget).
    rewrite Hconv, Hsigner. cbn [JWKAuth.update JWKAuth.orgURL
      JWKAuth.clientId JWKAuth.privateKeySigner JWKAuth.userAgent
      JWKAuth.scopes JWKAuth.maxRetries JWKAuth.maxBackoff
      JWKAuth.tokenCache JWKAuth.req JWKAuth.privateKeyId].
    rewrite (bind_Returns _ _ _ _ _ Hassert). cbv beta iota.
    rewrite (bind_Returns _ _ _ _ _ Hrun). reflexivity.
  Qed.
End Store.

Section CachesCredential.
Context (E : Env).

End CachesCredential.




(** ** The executor: what a call adds to the trace *)

Lemma evolves_refl (P : Event -> Prop) (w : World) : evolves P w w.
Proof.
  split; [lia|]. exists []. split; [rewrite app_nil_r; reflexivity|constructor].
Qed.

Lemma evolves_trans (P : Event -> Prop) (w1 w2 w3 : World) :
  evolves P w1 w2 -> evolves P w2 w3 -> evolves P w1 w3.
Proof.
  intros [Ht1 (n1 & Hn1 & HP1)] [Ht2 (n2 & Hn2 & HP2)].
  split; [lia|]. exists (n1 ++ n2).
  split; [rewrite Hn2, Hn1, app_assoc; reflexivity|].
  apply Forall_app; split; assumption.
Qed.

Lemma evolves_weaken (P Q : Event -> Prop) (w w' : World) :
  (forall e, P e -> Q e) -> evolves P w w' -> evolves Q w w'.
Proof.
  intros HPQ [Ht (n & Hn & HP)]. split; [exact Ht|].
  exists n. split; [exact Hn|]. eapply Forall_impl; eassumption.
Qed.

Lemma evolves_log (P : Event -> Prop) (e : Event) (w : World) :
  P e -> evolves P w (log e w).
Proof.
  intros He. split; [cbn; lia|]. exists [e]. split; [reflexivity|].
  constructor; [exact He|constructor].
Qed.

Lemma is_send_from_mono (T1 T2 : Z) (e : Event) :
  T1 <= T2 -> is_send_from T2 e -> is_send_from T1 e.
Proof. intros Hle. destruct e; cbn; try tauto. lia. Qed.

Section ExecutorSteps.
Context (E : Env).

Lemma select_timer_evolves (P : Event -> Prop) ctx d w fired w' :
    select_timer E ctx d w = (fired, w') -> evolves P w w'.
  Proof.
    unfold select_timer. intros Hsel.
    assert (Hgoal : forall t, now w <= t -> evolves P w (set_now w t)).
    { intros t Ht. split; [exact Ht|]. exists []. cbn.
      split; [rewrite app_nil_r; reflexivity|constructor]. }
    destruct (Done_at ctx) as [cdone|].
    - destruct (now w + Z.max 0 d <? cdone);
        [|destruct ((cdone =? now w + Z.max 0 d) || (now w + Z.max 0 d =? now w))];
        inversion Hsel; subst; apply Hgoal; lia.
    - inversion Hsel; subst; apply Hgoal; lia.
  Qed.

  (** [backoff.Retry] keeps what its operation keeps. *)
Lemma Retry_evolves {St : Type} (Inv : St -> Prop)
      (op : St -> M (St * option error)) (bOff : St -> oktaBackoff) :
    (forall s w res w', Inv s -> op s w = (res, w') ->
       evolves (is_send_from (now w)) w w' /\
       forall s1 err, res = Returns (s1, err) -> Inv s1) ->
    forall fuel s w res w', Inv s -> Retry E fuel op bOff s w = (res, w') ->
      evolves (is_send_from (now w)) w w' /\
      forall s1 err, res = Returns (s1, err) -> Inv s1.
  Proof.
    intros Hop. induction fuel as [|fuel IH]; intros s w res w' Hinv Hrun.
    - cbn in Hrun. inversion Hrun; subst. split; [apply evolves_refl|].
      intros s1 err Hret; discriminate Hret.
    - cbn [Retry] in Hrun. unfold bind at 1 in Hrun.
      destruct (op s w) as [res1 w1] eqn:Hop1.
      destruct (Hop s w res1 w1 Hinv Hop1) as [Hev1 Hinv1].
      destruct res1 as [[s1 err]| |];
        [|inversion Hrun; subst; split; [exact Hev1|intros ? ? Hret; discriminate Hret]..].
      specialize (Hinv1 s1 err eq_refl).
      assert (Hdone : forall e0, (res, w') = (Returns (s1, e0), w1) ->
                evolves (is_send_from (now w)) w w' /\
                forall s2 err2, res = Returns (s2, err2) -> Inv s2).
      { intros e0 Heq. inversion Heq; subst. split; [exact Hev1|].
        intros s2 err2 Hret. inversion Hret; subst. exact Hinv1. }
      destruct err as [e|]; [|apply (Hdone None); symmetry; exact Hrun].
      destruct (as_Permanent e) as [inner|];
        [apply (Hdone (Some inner)); symmetry; exact Hrun|].
      destruct (NextBackOff (bOff s1) =? backoff_Stop).
      + unfold bind, ctx_Err, ret in Hrun.
        destruct (Done_at (ctx (bOff s1))) as [cdone|];
          [destruct (cdone <=? now w1)|];
          eapply Hdone; symmetry; exact Hrun.
      + unfold bind at 1 in Hrun.
        destruct (select_timer E (ctx (bOff s1)) (NextBackOff (bOff s1)) w1)
          as [fired w2] eqn:Hsel.
        pose proof (select_timer_evolves (is_send_from (now w)) _ _ _ _ _ Hsel) as Hev2.
        assert (Hfired : exists b, fired = Returns b).
        { unfold select_timer in Hsel.
          destruct (Done_at (ctx (bOff s1))) as [cdone|];
            [destruct (_ <? cdone); [|destruct ((cdone =? _) || _)]|];
            inversion Hsel; eauto. }
        destruct Hfired as [b ->]. destruct b.
        * destruct (IH s1 w2 res w' Hinv1 Hrun) as [Hev3 Hinv3].
          split; [|exact Hinv3].
          eapply evolves_trans; [exact Hev1|].
          eapply evolves_trans; [exact Hev2|].
          eapply evolves_weaken; [|exact Hev3].
          intros e0. apply is_send_from_mono.
          destruct Hev1 as [Hle1 _]. destruct Hev2 as [Hle2 _]. lia.
        * unfold ret in Hrun. inversion Hrun; subst.
          split; [eapply evolves_trans; eassumption|].
          intros s2 err2 Hret. inversion Hret; subst. exact Hinv1.
  Qed.
End ExecutorSteps.

Section ExecutorCalls.
Context (E : Env).

Lemma callAPI_step config request w res w' :
    callAPI E config request w = (res, w') ->
    (w' = w \/ w' = log (EvSend (now w) request) w) /\ exists out, res = Returns out.
  Proof.
    unfold callAPI.
    destruct (if Debug config then DumpRequestOut_err E request else None).
    { unfold ret. intros Heq; inversion Heq; subst. eauto. }
    unfold bind, client_Do.
    destruct (http_Do E (length (sent w)) request) as [resp|e]; cbn.
    - destruct (if Debug config then DumpResponse_err E resp else None);
        unfold ret; intros Heq; inversion Heq; subst; eauto.
    - unfold ret. intros Heq; inversion Heq; subst. eauto.
  Qed.

Lemma api_operation_step config (m : string) s w res w' :
    Method (captured_req s) = m ->
    api_operation E config s w = (res, w') ->
    evolves (is_send_from (now w)) w w' /\
    forall s1 err, res = Returns (s1, err) -> Method (captured_req s1) = m.
  Proof.
    destruct s as [[[bOff resp0] err0] req]. cbn [captured_req]. intros Hm.
    unfold api_operation, bind.
    destruct (callAPI E config req w) as [res1 w1] eqn:Hcall.
    destruct (callAPI_step _ _ _ _ _ Hcall) as [Hw [[resp err] ->]].
    assert (Hev : evolves (is_send_from (now w)) w w1).
    { destruct Hw as [->| ->]; [apply evolves_refl|].
      apply evolves_log. cbn. lia. }
    assert (Hret : forall (s1 : Captured) (e1 : option error),
              Method (captured_req s1) = m ->
              (Returns (s1, e1), w1) = (res, w') ->
              evolves (is_send_from (now w)) w w' /\
              forall s2 err2, res = Returns (s2, err2) ->
                Method (captured_req s2) = m).
    { intros s1 e1 Hm1 Heq. inversion Heq; subst. split; [exact Hev|].
      intros s2 err2 Hs2. inversion Hs2; subst. congruence. }
    destruct err as [e|].
    { destruct (is_EOF e); unfold ret; apply Hret; exact Hm. }
    destruct resp as [r|]; [|unfold ret; apply Hret; exact Hm].
    destruct (negb (tooManyRequests (Some r))); [unfold ret; apply Hret; exact Hm|].
    destruct (tryDrainBody r); [unfold ret; apply Hret; exact Hm|].
    destruct (Get429BackoffTime E r) as [backoffDuration [e|]];
      unfold ret; apply Hret; exact Hm.
  Qed.

  (** [doWithRetries] only sends, from its start on; the method of the
      request is not changed. *)
Lemma doWithRetries_step fuel config ctx req w res w' :
    doWithRetries E fuel config ctx req w = (res, w') ->
    evolves (is_send_from (now w)) w w' /\
    forall req' out, res = Returns (req', out) -> Method req' = Method req.
  Proof.
    unfold doWithRetries, bind.
    match goal with |- context [Retry E fuel ?op ?b ?s w] =>
      destruct (Retry E fuel op b s w) as [res1 w1] eqn:Hretry end.
    apply (Retry_evolves E (fun s => Method (captured_req s) = Method req)) in Hretry
      as [Hev Hinv]; [| |reflexivity].
    2:{ intros s w0 res0 w0' Hs Hop.
        exact (api_operation_step config (Method req) s w0 res0 w0' Hs Hop). }
    destruct res1 as [[[[[bOff resp] err0] req1] err]| |].
    - unfold ret. intros Heq; inversion Heq; subst. split; [exact Hev|].
      intros req' out Hret. inversion Hret; subst.
      exact (Hinv _ _ eq_refl).
    - intros Heq; inversion Heq; subst. split; [exact Hev|].
      intros ? ? Hret; discriminate Hret.
    - intros Heq; inversion Heq; subst. split; [exact Hev|].
      intros ? ? Hret; discriminate Hret.
  Qed.

Context {C : Type} `{Cache C}.

  (** The wait on the tracked rate limit. *)
Lemma rateLimitGate_step (c : APIClient C) ctx w res w' :
    rateLimitGate E c ctx w = (res, w') ->
    evolves (fun e => e = EvRateLimit \/ exists t d, e = EvTimer t d) w w' /\
    (RateLimit_Enable (cfg c) = false -> trace w' = trace w) /\
    exists cancelled,
      res = Returns cancelled /\
      forall limit,
        RateLimit_Enable (cfg c) = true -> rateLimit c = Some limit ->
        Remaining limit <= 0 ->
        (cancelled = None -> now w + Seconds (Reset limit) <= now w') /\
        (forall cdone, Done_at ctx = Some cdone ->
           0 < Seconds (Reset limit) ->
           cdone < now w + Seconds (Reset limit) ->
           cancelled = Some (Err_when_done ctx)).
  Proof.
    unfold rateLimitGate.
    destruct (RateLimit_Enable (cfg c)).
    2:{ unfold ret. intros Heq; inversion Heq; subst.
        split; [apply evolves_refl|]. split; [reflexivity|].
        eexists. split; [reflexivity|]. intros limit Hen; discriminate Hen. }
    unfold bind at 1. unfold emit at 1.
    assert (Hev1 : evolves (fun e => e = EvRateLimit \/ exists t d, e = EvTimer t d)
                     w (log EvRateLimit w)) by (apply evolves_log; left; reflexivity).
    destruct (rateLimit c) as [limit|].
    2:{ unfold ret. intros Heq; inversion Heq; subst.
        split; [exact Hev1|]. split; [intros Hen; discriminate Hen|].
        eexists. split; [reflexivity|]. intros limit _ Hl; discriminate Hl. }
    destruct (Z.leb_spec (Remaining limit) 0) as [Hrem|Hrem].
    2:{ unfold ret. intros Heq; inversion Heq; subst.
        split; [exact Hev1|]. split; [intros Hen; discriminate Hen|].
        eexists. split; [reflexivity|].
        intros limit' _ Hl Hr. inversion Hl; subst. lia. }
    unfold bind, time_Now, emit, ret.
    set (w2 := log (EvTimer (now (log EvRateLimit w)) (Seconds (Reset limit)))
                 (log EvRateLimit w)).
    assert (Hev2 : evolves (fun e => e = EvRateLimit \/ exists t d, e = EvTimer t d) w w2).
    { eapply evolves_trans; [exact Hev1|]. apply evolves_log. right. eauto. }
    destruct (select_timer E ctx (Seconds (Reset limit)) w2) as [fired w3] eqn:Hsel.
    pose proof (select_timer_evolves E
                  (fun e => e = EvRateLimit \/ exists t d, e = EvTimer t d)
                  _ _ _ _ _ Hsel) as Hev3.
    unfold select_timer in Hsel.
    change (now w2) with (now w) in Hsel.
    destruct (Done_at ctx) as [cdone|] eqn:Hdone.
    - destruct (Z.ltb_spec (now w + Z.max 0 (Seconds (Reset limit))) cdone) as [Hlt|Hge].
      + inversion Hsel; subst fired w3.
        intros Heq; inversion Heq; subst.
        split; [eapply evolves_trans; eassumption|].
        split; [intros Hen; discriminate Hen|].
        eexists. split; [reflexivity|].
        intros limit' _ Hl _. inversion Hl; subst.
        split; [intros _; cbn; lia|].
        intros cd Hcd Hpos Hlt'; inversion Hcd; subst; lia.
      + destruct ((cdone =? now w + Z.max 0 (Seconds (Reset limit)))
                  || (now w + Z.max 0 (Seconds (Reset limit)) =? now w)) eqn:Hboth.
        * inversion Hsel; subst fired w3.
          apply orb_true_iff in Hboth.
          destruct (select_timer_first E (now w + Z.max 0 (Seconds (Reset limit))));
            intros Heq; inversion Heq; subst;
            (split; [eapply evolves_trans; eassumption|]);
            (split; [intros Hen; discriminate Hen|]);
            eexists; (split; [reflexivity|]);
            intros limit' _ Hl _; inversion Hl; subst;
            (split; [intros Hc; try discriminate Hc; cbn; lia|]);
            intros cd Hcd Hpos Hlt'; inversion Hcd; subst;
            destruct Hboth as [Hb|Hb]; apply Z.eqb_eq in Hb; lia.
        * inversion Hsel; subst fired w3.
          intros Heq; inversion Heq; subst.
          split; [eapply evolves_trans; eassumption|].
          split; [intros Hen; discriminate Hen|].
          eexists. split; [reflexivity|].
          intros limit' _ Hl _. inversion Hl; subst.
          split; [intros Hc; discriminate Hc|]. intros; reflexivity.
    - inversion Hsel; subst fired w3.
      intros Heq; inversion Heq; subst.
      split; [eapply evolves_trans; eassumption|].
      split; [intros Hen; discriminate Hen|].
      eexists. split; [reflexivity|].
      intros limit' _ Hl _. inversion Hl; subst.
      split; [intros _; cbn; lia|].
      intros cd Hcd; discriminate Hcd.
  Qed.
End ExecutorCalls.

Lemma evolves_sent (P : Event -> Prop) (w w' : World) :
  (forall e, P e -> sent_of [e] = []) -> evolves P w w' -> sent w' = sent w.
Proof.
  intros Hno [_ (new & Hnew & HP)]. unfold sent. rewrite Hnew, sent_of_app.
  assert (Hnil : sent_of new = []).
  { clear Hnew. induction HP as [|e l He Hl IH]; [reflexivity|].
    pose proof (Hno e He) as Hone.
    destruct e; cbn [sent_of] in *; try exact IH. discriminate Hone. }
  rewrite Hnil, app_nil_r. reflexivity.
Qed.

Section ExecutorDo.
Context (E : Env) {C : Type} `{Cache C}.

  (** The block under [if !inCache], step by step. *)
Lemma dispatch_step fuel (c : APIClient C) ctx req key w res w' :
    dispatch E fuel c ctx req key w = (res, w') ->
    exists cancelled wg,
      rateLimitGate E c ctx w = (Returns cancelled, wg) /\
      match cancelled with
      | Some e => res = Returns (c, req, (None, Some e)) /\ w' = wg
      | None =>
          exists wd,
            evolves (is_send_from (now wg)) wg wd /\
            ((w' = wd /\
              forall c' req' out, res = Returns (c', req', out) -> cache c' = cache c) \/
             (Method req = MethodGet /\ w' = log (EvCacheSet key) wd))
      end.
  Proof.
    unfold dispatch. unfold bind at 1.
    destruct (rateLimitGate E c ctx w) as [resg wg] eqn:Hgate.
    destruct (rateLimitGate_step E c ctx w resg wg Hgate) as (_ & _ & cancelled & -> & _).
    intros Hrun. exists cancelled, wg. split; [reflexivity|].
    destruct cancelled as [e|].
    { unfold ret in Hrun. inversion Hrun; subst. split; reflexivity. }
    unfold bind at 1 in Hrun.
    destruct (doWithRetries E fuel (cfg c) ctx req wg) as [resd wd] eqn:Hdo.
    destruct (doWithRetries_step E fuel (cfg c) ctx req wg resd wd Hdo) as [Hev Hmethod].
    exists wd. split; [exact Hev|].
    destruct resd as [[req' [resp err]]| |];
      [|inversion Hrun; subst; left; split; [reflexivity|];
        intros ? ? ? Hret; discriminate Hret..].
    specialize (Hmethod req' (resp, err) eq_refl).
    destruct err as [e|].
    { unfold ret in Hrun. inversion Hrun; subst. left. split; [reflexivity|].
      intros c' r' out Hret. inversion Hret; subst. reflexivity. }
    destruct resp as [r|].
    2:{ unfold panic in Hrun. inversion Hrun; subst. left. split; [reflexivity|].
        intros ? ? ? Hret; discriminate Hret. }
    destruct ((200 <=? StatusCode r) && (StatusCode r <=? 299)
              && String.eqb (Method req') MethodGet) eqn:Hok.
    - right. apply andb_prop in Hok as [_ Hget].
      apply String.eqb_eq in Hget. split; [congruence|].
      unfold cache_Set, bind, emit, time_Now, ret in Hrun.
      inversion Hrun; subst. reflexivity.
    - unfold ret in Hrun. inversion Hrun; subst. left. split; [reflexivity|].
      intros c' r' out Hret. inversion Hret; subst. reflexivity.
  Qed.

  (** Where [do] stands when it reaches its test of [inCache]. *)
Lemma do_prologue fuel (c : APIClient C) ctx req w :
    let key := CreateCacheKey E req in
    exists c3 w3,
      do E fuel c ctx req w
      = (if negb (served_from_cache E c req (now w))
         then dispatch E fuel c3 ctx req key w3
         else (Returns (c3, req, (Cache_Get (cache c3) key (now w), None)),
               log (EvCacheGet key) w3)) /\
      now w3 = now w /\
      cfg c3 = cfg c /\ rateLimit c3 = rateLimit c /\
      (String.eqb (Method req) MethodGet = false ->
       (exists rest, trace w3 = trace w ++ EvCacheDelete key :: rest /\
                     Forall no_cache_read_or_write rest) /\
       (cache c3 = Cache_Delete (cache c) key \/
        cache c3 = Cache_Delete (Cache_Delete (cache c) key) key)) /\
      evolves (fun e => is_cache_event e /\ no_cache_read_or_write e) w w3.
  Proof.
    cbv zeta. unfold do, served_from_cache.
    set (key := CreateCacheKey E req).
    assert (Hcache : forall k, (is_cache_event (EvCacheDelete k) /\
                                no_cache_read_or_write (EvCacheDelete k)) /\
                               (is_cache_event (EvCacheHas k) /\
                                no_cache_read_or_write (EvCacheHas k)))
      by (intros k; cbn; tauto).
    destruct (String.eqb (Method req) MethodGet) eqn:Hget; cbn [negb];
      unfold cache_Delete, cache_Has, cache_Get, bind, emit, time_Now, ret;
      cbn [cache set_cache freshcache now log];
      destruct (freshcache c) eqn:Hfresh; cbn [negb];
      rewrite ?andb_false_r, ?andb_true_r; cbn [negb];
      try match goal with
          | |- context [Cache_Has ?a ?k ?t] => destruct (Cache_Has a k t)
          end; cbn [negb];
      eexists _, _; (split; [reflexivity|]);
      (split; [reflexivity|]); (split; [reflexivity|]); (split; [reflexivity|]).
    all: split;
      [ first
          [ intros Hf; discriminate Hf
          | intros _; split;
            [ eexists; cbn [trace log]; split;
              [ rewrite <- ?app_assoc; cbn [app]; reflexivity | repeat constructor ]
            | first [left; reflexivity | right; reflexivity] ] ]
      | repeat (eapply evolves_trans; [|apply evolves_log; apply Hcache]);
        apply evolves_refl ].
  Qed.
End ExecutorDo.

Lemma evolves_after_first (P : Event -> Prop) (w w3 w' : World) (e : Event)
    (rest0 : list Event) :
  trace w3 = trace w ++ e :: rest0 -> Forall P rest0 -> evolves P w3 w' ->
  exists rest, trace w' = trace w ++ e :: rest /\ Forall P rest.
Proof.
  intros Htr HP [_ (new & Hnew & HPnew)]. exists (rest0 ++ new).
  split; [rewrite Hnew, Htr, <- app_assoc; reflexivity|].
  apply Forall_app; split; assumption.
Qed.

(** ** C7: a request that is not a GET evicts the entry of its fingerprint *)

(** C7.  A call of [do] whose request is not a GET starts by deleting the
    cache entry of the request's key: the deletion is the first thing the
    call does, whatever its outcome, and nothing that follows reads or
    writes a cache entry.  With a cache in which a deleted key is absent,
    the call is not served from the cache, and when it returns, with or
    without an error, the key is absent from the cache. *)
Theorem C7_non_get_evicts_first (E : Env) {C : Type} `{CacheEvicts C}
    (fuel : nat) (c : APIClient C) (ctx : Context) (req : Request)
    (w : World) (res : Res (APIClient C * Request * (option Response * option error)))
    (w' : World) :
  Method req <> MethodGet ->
  do E fuel c ctx req w = (res, w') ->
  let key := CreateCacheKey E req in
  (exists rest,
     trace w' = trace w ++ EvCacheDelete key :: rest /\
     Forall no_cache_read_or_write rest) /\
  served_from_cache E c req (now w) = false /\
  (forall c' req' out, res = Returns (c', req', out) ->
     forall t, Cache_Has (cache c') key t = false).
Proof.
  intros Hmethod Hrun. cbv zeta.
  apply String.eqb_neq in Hmethod.
  assert (Hmiss : served_from_cache E c req (now w) = false).
  { unfold served_from_cache. rewrite Hmethod. cbn [negb].
    rewrite Has_Delete. reflexivity. }
  destruct (do_prologue E fuel c ctx req w)
    as (c3 & w3 & Hdo & Hnow & _ & _ & Hnonget & _).
  destruct (Hnonget Hmethod) as [(rest0 & Htr0 & Hrest0) Hcache3].
  rewrite Hdo, Hmiss in Hrun. cbn [negb] in Hrun.
  assert (Hhas3 : forall t, Cache_Has (cache c3) (CreateCacheKey E req) t = false).
  { intros t. destruct Hcache3 as [-> | ->]; apply Has_Delete. }
  destruct (dispatch_step E fuel c3 ctx req _ w3 res w' Hrun)
    as (cancelled & wg & Hgate & Hrest).
  destruct (rateLimitGate_step E c3 ctx w3 _ wg Hgate) as (Hevg & _).
  assert (Hevg' : evolves no_cache_read_or_write w3 wg).
  { eapply evolves_weaken; [|exact Hevg].
    intros e [-> | (t & d & ->)]; exact I. }
  split; [|split; [exact Hmiss|]].
  - destruct cancelled as [e|].
    + destruct Hrest as [_ ->].
      eapply evolves_after_first; eassumption.
    + destruct Hrest as (wd & Hevd & [[-> _] | [Hget _]]).
      * eapply evolves_after_first; [eassumption..|].
        eapply evolves_trans; [exact Hevg'|].
        eapply evolves_weaken; [|exact Hevd].
        intros e He. destruct e; try contradiction. exact I.
      * apply String.eqb_eq in Hget. congruence.
  - intros c' req' out Hret t.
    destruct cancelled as [e|].
    + destruct Hrest as [-> _]. inversion Hret; subst. apply Hhas3.
    + destruct Hrest as (wd & _ & [[_ Hsame] | [Hget _]]).
      * rewrite (Hsame c' req' out Hret). apply Hhas3.
      * apply String.eqb_eq in Hget. congruence.
Qed.

Lemma C7_non_get_evicts_first_witness :
  exists res w',
    do (scripted (fun _ => inl response401) decode) 1 client_post context_TODO
      request_post world0 = (res, w') /\
    (exists rest,
       trace w' = EvCacheDelete "POST https://example.okta.com/api/v1/users" :: rest /\
       Forall no_cache_read_or_write rest) /\
    (forall c' req' out, res = Returns (c', req', out) ->
       forall t, Cache_Has (cache c') "POST https://example.okta.com/api/v1/users" t
                 = false).
Proof.
  destruct (do (scripted (fun _ => inl response401) decode) 1 client_post context_TODO
              request_post world0) as [res w'] eqn:Hrun.
  exists res, w'. split; [reflexivity|].
  destruct (C7_non_get_evicts_first (scripted (fun _ => inl response401) decode) 1
              client_post context_TODO request_post world0 res w')
    as (Hfirst & _ & Hgone).
  - vm_compute. discriminate.
  - exact Hrun.
  - split; [exact Hfirst|exact Hgone].
Defined.

(** The same call, run: the entry is deleted first, the request is sent
    after the wait on the rate limit, and the 401 answer is returned. *)
Example C7_run :
  let '(res, w') :=
    do (scripted (fun _ => inl response401) decode) 1 client_post context_TODO
      request_post world0 in
  res = Returns (client_of ∅, request_post, (Some response401, None)) /\
  trace w' =
    [ EvCacheDelete "POST https://example.okta.com/api/v1/users";
      EvCacheHas "POST https://example.okta.com/api/v1/users";
      EvRateLimit;
      EvTimer 0 61000000000;
      EvSend 61000000000 request_post ].
Proof. vm_compute. split; reflexivity. Qed.

(** ** C5: the wait on an exhausted rate limit *)

(** C5, as amended.  In a call of [do], (1) on a cache miss with rate
    limiting enabled and a tracked limit whose [Remaining] is zero (or
    less) and whose [Reset] is [T] seconds, every request the call sends is
    sent at or after the start of the call plus the duration
    [time.Second * T], computed in [int64] nanoseconds as the code does;
    when [T] seconds are representable as a duration, that is [T] seconds
    after the start of the call (hence not before [T] seconds past the
    epoch, the clock being past the epoch); and if that duration is
    positive and the context is done before it has passed, the call returns
    the error of the context and has sent nothing; (2) on a cache hit the
    cached response is returned and the call has only touched the cache: it
    has neither read the rate limit, nor waited, nor sent. *)
Theorem C5_rate_limit_gate (E : Env) {C : Type} `{Cache C}
    (fuel : nat) (c : APIClient C) (ctx : Context) (req : Request)
    (w : World) (res : Res (APIClient C * Request * (option Response * option error)))
    (w' : World) (limit : RateLimit) :
  do E fuel c ctx req w = (res, w') ->
  (served_from_cache E c req (now w) = false ->
   RateLimit_Enable (cfg c) = true ->
   rateLimit c = Some limit ->
   Remaining limit <= 0 ->
   evolves (no_send_before (now w + Seconds (Reset limit))) w w' /\
   (in_int64 (time_Second * Reset limit) ->
    evolves (no_send_before (now w + time_Second * Reset limit)) w w' /\
    (0 <= now w -> evolves (no_send_before (time_Second * Reset limit)) w w')) /\
   (forall cdone,
      Done_at ctx = Some cdone ->
      0 < Seconds (Reset limit) ->
      cdone < now w + Seconds (Reset limit) ->
      (exists c', res = Returns (c', req, (None, Some (Err_when_done ctx)))) /\
      sent w' = sent w)) /\
  (served_from_cache E c req (now w) = true ->
   (exists c', res = Returns (c', req,
                              (Cache_Get (cache c') (CreateCacheKey E req) (now w), None))) /\
   evolves is_cache_event w w' /\
   sent w' = sent w).
Proof.
  intros Hrun.
  destruct (do_prologue E fuel c ctx req w)
    as (c3 & w3 & Hdo & Hnow3 & Hcfg & Hlimit & _ & Hev0).
  rewrite Hdo in Hrun. split.
  - intros Hmiss Hen Hl Hrem. rewrite Hmiss in Hrun. cbn [negb] in Hrun.
    destruct (dispatch_step E fuel c3 ctx req _ w3 res w' Hrun)
      as (cancelled & wg & Hgate & Hrest).
    destruct (rateLimitGate_step E c3 ctx w3 _ wg Hgate)
      as (Hevg & _ & cancelled' & Hc' & Hgated).
    inversion Hc'; subst cancelled'. clear Hc'.
    rewrite Hcfg in Hgated. rewrite Hlimit in Hgated.
    destruct (Hgated limit Hen Hl Hrem) as [Hwait Hcancel].
    rewrite Hnow3 in Hwait, Hcancel.
    set (T := now w + Seconds (Reset limit)) in *.
    assert (Hev0' : evolves (no_send_before T) w w3).
    { eapply evolves_weaken; [|exact Hev0]. intros e [He _]. destruct e; try exact I.
      contradiction. }
    assert (Hevg' : evolves (no_send_before T) w3 wg).
    { eapply evolves_weaken; [|exact Hevg].
      intros e [-> | (t & d & ->)]; exact I. }
    assert (Hmain : evolves (no_send_before T) w w').
    { eapply evolves_trans; [exact Hev0'|].
      destruct cancelled as [e|].
      - destruct Hrest as [_ ->]. exact Hevg'.
      - specialize (Hwait eq_refl).
        destruct Hrest as (wd & Hevd & Hend).
        assert (Hevd' : evolves (no_send_before T) wg wd).
        { eapply evolves_weaken; [|exact Hevd].
          intros e He. destruct e; try contradiction. cbn in *. lia. }
        eapply evolves_trans; [exact Hevg'|].
        destruct Hend as [[-> _] | [_ ->]]; [exact Hevd'|].
        eapply evolves_trans; [exact Hevd'|]. apply evolves_log. exact I. }
    split; [exact Hmain|]. split.
    + intros Hin. unfold T in Hmain. rewrite (Seconds_id _ Hin) in Hmain.
      split; [exact Hmain|].
      intros Hepoch. eapply evolves_weaken; [|exact Hmain].
      intros e He. destruct e; try exact I. cbn in *. lia.
    + intros cdone Hdone Hpos Hlt. rewrite (Hcancel cdone Hdone Hpos Hlt) in Hrest.
      destruct Hrest as [-> ->]. split; [eauto|].
      transitivity (sent w3).
      * eapply evolves_sent; [|exact Hevg].
        intros e [-> | (t & d & ->)]; reflexivity.
      * eapply evolves_sent; [|exact Hev0].
        intros e [He _]. destruct e; try reflexivity. contradiction.
  - intros Hhit. rewrite Hhit in Hrun. cbn [negb] in Hrun.
    inversion Hrun; subst. split; [eauto|].
    assert (Hev : evolves is_cache_event w (log (EvCacheGet (CreateCacheKey E req)) w3)).
    { eapply evolves_trans.
      - eapply evolves_weaken; [|exact Hev0]. intros e [He _]. exact He.
      - apply evolves_log. exact I. }
    split; [exact Hev|].
    eapply evolves_sent; [|exact Hev].
    intros e He. destruct e; try reflexivity. contradiction.
Qed.

Lemma C5_rate_limit_gate_witness :
  exists res w',
    do (scripted (fun _ => inl response200) decode) 1 client_get_miss
      (ctx_cancelled_at 60000000000) request0 world0 = (res, w') /\
    evolves (no_send_before (0 + time_Second * 61)) world0 w' /\
    (exists c', res = Returns (c', request0, (None, Some context_Canceled))) /\
    sent w' = [].
Proof.
  destruct (do (scripted (fun _ => inl response200) decode) 1 client_get_miss
              (ctx_cancelled_at 60000000000) request0 world0) as [res w'] eqn:Hrun.
  exists res, w'. split; [reflexivity|].
  destruct (C5_rate_limit_gate (scripted (fun _ => inl response200) decode) 1
              client_get_miss (ctx_cancelled_at 60000000000) request0 world0 res w'
              limit0 Hrun) as [Hmiss _].
  destruct Hmiss as (_ & Hexact & Hcancel).
  - vm_compute. reflexivity.
  - reflexivity.
  - reflexivity.
  - vm_compute. discriminate.
  - destruct Hexact as [Hgate _]; [unfold in_int64, time_Second; cbn; lia|].
    split; [exact Hgate|].
    destruct (Hcancel 60000000000 eq_refl) as [Hres Hsent].
    + vm_compute. reflexivity.
    + vm_compute. reflexivity.
    + split; [exact Hres|exact Hsent].
Defined.

(** C5 as stated fails when [T] seconds are not representable as a
    duration: with a tracked limit of [Remaining = 0] and
    [Reset = 9223372037], the product [time.Second * 9223372037] wraps to a
    negative duration, the timer fires at once, and a GET that misses the
    cache at the instant 1000 is sent at that instant, long before [T]
    seconds. *)
Lemma C5_counterexample :
  let E := scripted (fun _ => inl response200) decode in
  let w := set_now world0 1000 in
  served_from_cache E client_unrepresentable request0 (now w) = false /\
  RateLimit_Enable (cfg client_unrepresentable) = true /\
  rateLimit client_unrepresentable = Some limit_unrepresentable /\
  Remaining limit_unrepresentable = 0 /\
  Seconds (Reset limit_unrepresentable) = -9223372036709551616 /\
  In (EvSend 1000 request0)
     (trace (snd (do E 1 client_unrepresentable context_TODO request0 w))) /\
  ~ evolves (no_send_before (now w + time_Second * Reset limit_unrepresentable)) w
      (snd (do E 1 client_unrepresentable context_TODO request0 w)).
Proof.
  cbv zeta.
  assert (Htrace : trace (snd (do (scripted (fun _ => inl response200) decode) 1
                                 client_unrepresentable context_TODO request0
                                 (set_now world0 1000)))
                   = [ EvCacheHas "GET https://example.okta.com/api/v1/users";
                       EvRateLimit;
                       EvTimer 1000 (-9223372036709551616);
                       EvSend 1000 request0;
                       EvCacheSet "GET https://example.okta.com/api/v1/users" ])
    by (vm_compute; reflexivity).
  split; [vm_compute; reflexivity|]. split; [reflexivity|]. split; [reflexivity|].
  split; [reflexivity|]. split; [vm_compute; reflexivity|].
  split; [rewrite Htrace; cbn; auto|].
  intros [_ (new & Hnew & Hall)]. rewrite Htrace in Hnew. cbn [trace set_now world0 app] in Hnew.
  subst new. do 3 apply List.Forall_inv_tail in Hall. apply List.Forall_inv in Hall.
  cbn in Hall. unfold time_Second in Hall. lia.
Qed.

(** Two runs of a GET on a client whose limit is exhausted for 61 seconds:
    on a miss the request leaves at second 61 and its answer is cached; on a
    hit only the cache is touched. *)
Example C5_runs :
  trace (snd (do (scripted (fun _ => inl response200) decode) 1 client_get_miss
                context_TODO request0 world0))
  = [ EvCacheHas "GET https://example.okta.com/api/v1/users";
      EvRateLimit;
      EvTimer 0 61000000000;
      EvSend 61000000000 request0;
      EvCacheSet "GET https://example.okta.com/api/v1/users" ] /\
  trace (snd (do (scripted unreachable decode) 1 client_get_hit context_TODO
                request0 world0))
  = [ EvCacheHas "GET https://example.okta.com/api/v1/users";
      EvCacheGet "GET https://example.okta.com/api/v1/users" ].
Proof. split; vm_compute; reflexivity. Qed.

(** * Further properties of the code *)

(** ** The retry budget of the token exchange *)

Lemma int32_id (x : Z) : - 2 ^ 31 <= x < 2 ^ 31 -> int32 x = x.
Proof. intros Hx. unfold int32. rewrite Z.mod_small by lia. lia. Qed.

Lemma sent_log_other (e : Event) (w : World) :
  sent_of [e] = [] -> sent (log e w) = sent w.
Proof.
  intros He. unfold sent, log. cbn [trace]. rewrite sent_of_app, He, app_nil_r.
  reflexivity.
Qed.

Section RetrySteps.
Context (E : Env) {St : Type}.
Implicit Types (op : St -> M (St * option error)) (bOff : St -> oktaBackoff).

(** A failed attempt after which the budget is spent ends the loop with the
    error of that attempt. *)
Lemma Retry_fail_stop fuel op bOff (s s1 : St) (w w1 : World) (e : error) :
  op s w = (Returns (s1, Some e), w1) ->
  as_Permanent e = None ->
  NextBackOff (bOff s1) = backoff_Stop ->
  Done_at (ctx (bOff s1)) = None ->
  Retry E (S fuel) op bOff s w = (Returns (s1, Some e), w1).
Proof.
  intros Hop Hperm Hnext Hdone. cbn [Retry].
  rewrite (bind_Returns _ _ _ _ _ Hop). cbv beta iota.
  rewrite Hperm, Hnext, Z.eqb_refl. unfold bind, ctx_Err, ret.
  rewrite Hdone. reflexivity.
Qed.

(** A failed attempt within the budget is followed, after the backoff
    duration, by another attempt. *)
Lemma Retry_fail_wait fuel op bOff (s s1 : St) (w w1 : World) (e : error) :
  op s w = (Returns (s1, Some e), w1) ->
  as_Permanent e = None ->
  NextBackOff (bOff s1) <> backoff_Stop ->
  Done_at (ctx (bOff s1)) = None ->
  Retry E (S fuel) op bOff s w
  = Retry E fuel op bOff s1
      (set_now w1 (now w1 + Z.max 0 (NextBackOff (bOff s1)))).
Proof.
  intros Hop Hperm Hnext Hdone. cbn [Retry].
  rewrite (bind_Returns _ _ _ _ _ Hop). cbv beta iota.
  rewrite Hperm.
  destruct (Z.eqb_spec (NextBackOff (bOff s1)) backoff_Stop) as [|_]; [contradiction|].
  unfold bind at 1. unfold select_timer. rewrite Hdone. reflexivity.
Qed.
End RetrySteps.

Section ExchangeRetry.
Context (E : Env).

Lemma operation_fails (q : Request) bOff r0 w e :
  http_Do E (length (sent w)) q = inr e ->
  operation E q (bOff, r0) w
  = (Returns ((incr_retryCount bOff, None), Some e), log (EvSend (now w) q) w).
Proof.
  intros Hdo. unfold operation, bind, client_Do, ret. rewrite Hdo. reflexivity.
Qed.

(** The loop of [backoff.Retry] around a token request that the transport
    keeps failing: [k] retries are left in the budget. *)
Lemma exchange_Retry_fails (q : Request) (err : nat -> error) (d m : Z) :
  (forall n, http_Do E n q = inr (err n)) ->
  (forall n, as_Permanent (err n) = None) ->
  d <> backoff_Stop -> m < 2 ^ 31 - 1 ->
  forall (k fuel : nat) (rc : Z) (r0 : option Response) (w : World),
    0 <= rc -> rc + Z.of_nat k = m -> (k < fuel)%nat ->
    exists b' w',
      Retry E fuel (operation E q) fst
        ({| retryCount := rc; maxRetries := m; backoffDuration := d;
            ctx := context_TODO |}, r0) w
      = (Returns ((b', None), Some (err (length (sent w) + k)%nat)), w') /\
      sent w' = sent w ++ repeat q (S k) /\
      now w' = now w + Z.of_nat k * Z.max 0 d /\
      keys w' = keys w /\ uuids w' = uuids w.
Proof.
  intros Hdo Hperm Hd Hm. induction k as [|k IH]; intros fuel rc r0 w Hrc Hk Hfuel.
  - destruct fuel as [|fuel]; [lia|].
    eexists _, _. split.
    + rewrite Nat.add_0_r.
      apply (Retry_fail_stop E fuel _ fst _ _ _ _ _
               (operation_fails q _ r0 w _ (Hdo _)) (Hperm _)); [|reflexivity].
      unfold NextBackOff, incr_retryCount.
      cbn [fst retryCount maxRetries backoffDuration].
      rewrite int32_id by lia.
      destruct (Z.ltb_spec m (rc + 1)) as [_|]; [reflexivity|lia].
    + split; [rewrite sent_log_send; reflexivity|].
      split; [cbn; lia|]. split; reflexivity.
  - destruct fuel as [|fuel]; [lia|].
    assert (Hnext : NextBackOff
                      (fst (incr_retryCount
                              {| retryCount := rc; maxRetries := m;
                                 backoffDuration := d; ctx := context_TODO |},
                            @None Response)) = d).
    { unfold NextBackOff, incr_retryCount.
      cbn [fst retryCount maxRetries backoffDuration].
      rewrite int32_id by lia.
      destruct (Z.ltb_spec m (rc + 1)) as [|_]; [lia|reflexivity]. }
    rewrite (Retry_fail_wait E fuel _ fst _ _ _ _ _
               (operation_fails q _ r0 w _ (Hdo _)) (Hperm _));
      [|rewrite Hnext; exact Hd|reflexivity].
    rewrite Hnext.
    set (w1 := set_now (log (EvSend (now w) q) w)
                 (now (log (EvSend (now w) q) w) + Z.max 0 d)).
    unfold incr_retryCount. cbn [retryCount maxRetries backoffDuration ctx].
    rewrite int32_id by lia.
    destruct (IH fuel (rc + 1) None w1) as (b' & w' & Hrun & Hsent & Hnow & Hkeys & Huuids);
      [lia|lia|lia|].
    exists b', w'.
    assert (Hs1 : sent w1 = sent w ++ [q]) by (unfold w1; apply sent_log_send).
    split.
    { rewrite Hrun. rewrite Hs1, length_app. cbn [length].
      replace (length (sent w) + 1 + k)%nat with (length (sent w) + S k)%nat by lia.
      reflexivity. }
    split; [rewrite Hsent, Hs1, <- app_assoc; reflexivity|].
    split; [rewrite Hnow; unfold w1; cbn [now set_now log]; lia|].
    split; [rewrite Hkeys; reflexivity|rewrite Huuids; reflexivity].
Qed.
End ExchangeRetry.

(** X1.  When the transport fails every token request with an error that is
    not permanent, [getAccessTokenForPrivateKey] with [maxRetries = m >= 0]
    sends the same request exactly [m + 1] times, waits [maxBackoff]
    nanoseconds (the number is converted to a duration as it is) between
    two attempts, and returns no token and the error of the last attempt. *)
Theorem X1_exchange_retry_budget (E : Env) (fuel : nat)
    (orgURL clientAssertion userAgent clientID : string) (scopes : list string)
    (signer : option jose_Signer) (maxRetries maxBackoff : Z) (w : World)
    (err : nat -> error) :
  (forall method target, http_NewRequest_err E method target = None) ->
  (forall n q, http_Do E n q = inr (err n)) ->
  (forall n, as_Permanent (err n) = None) ->
  0 <= maxRetries < 2 ^ 31 - 1 ->
  maxBackoff <> backoff_Stop ->
  (Z.to_nat maxRetries < fuel)%nat ->
  exists q w',
    getAccessTokenForPrivateKey E fuel orgURL clientAssertion userAgent scopes
      maxRetries maxBackoff clientID signer w
    = (Returns (None, EmptyString, None,
                Some (err (length (sent w) + Z.to_nat maxRetries)%nat)), w') /\
    sent w' = sent w ++ repeat q (S (Z.to_nat maxRetries)) /\
    now w' = now w + maxRetries * Z.max 0 maxBackoff /\
    keys w' = keys w.
Proof.
  intros Hnew Hdo Hperm Hm Hd Hfuel.
  unfold getAccessTokenForPrivateKey. rewrite Hnew.
  match goal with
  | |- context [Retry E fuel (operation E ?q0) fst ?s0] => set (q := q0)
  end.
  destruct (exchange_Retry_fails E q err maxBackoff maxRetries
              (fun n => Hdo n q) Hperm Hd ltac:(lia)
              (Z.to_nat maxRetries) fuel 0 None w)
    as (b' & w' & Hrun & Hsent & Hnow & Hkeys & _); [lia|lia|exact Hfuel|].
  exists q, w'. unfold new_bOff.
  rewrite (bind_Returns _ _ _ _ _ Hrun). cbv beta iota.
  split; [reflexivity|]. split; [exact Hsent|].
  split; [rewrite Hnow; lia|exact Hkeys].
Qed.

Lemma X1_exchange_retry_budget_witness :
  exists q w',
    getAccessTokenForPrivateKey (scripted unreachable decode) 3
      "https://example.okta.com" "assertion" "okta-sdk-golang" ["okta.users.read"]
      2 30 "client" (Some signer0) world0
    = (Returns (None, EmptyString, None,
                Some (library_error "net/http" "connection refused")), w') /\
    sent w' = [q; q; q] /\ now w' = 60.
Proof.
  destruct (X1_exchange_retry_budget (scripted unreachable decode) 3
              "https://example.okta.com" "assertion" "okta-sdk-golang" "client"
              ["okta.users.read"] (Some signer0) 2 30 world0
              (fun _ => library_error "net/http" "connection refused"))
    as (q & w' & Hrun & Hsent & Hnow & _).
  - reflexivity.
  - reflexivity.
  - reflexivity.
  - lia.
  - unfold backoff_Stop. lia.
  - cbn. lia.
  - exists q, w'. split; [exact Hrun|]. split; [exact Hsent|]. rewrite Hnow. reflexivity.
Defined.

(** ** The exchange talks to the token endpoint only *)

Section OnlyAdds.
Context (P : Event -> Prop).

Lemma only_adds_ret {A : Type} (a : A) : only_adds P (ret a).
Proof.
  intros w res w' Heq. inversion Heq; subst. exists [].
  split; [rewrite app_nil_r; reflexivity|constructor].
Qed.

Lemma only_adds_panic {A : Type} (msg : string) : only_adds P (@panic A msg).
Proof.
  intros w res w' Heq. inversion Heq; subst. exists [].
  split; [rewrite app_nil_r; reflexivity|constructor].
Qed.

Lemma only_adds_out_of_fuel {A : Type} : only_adds P (@out_of_fuel A).
Proof.
  intros w res w' Heq. inversion Heq; subst. exists [].
  split; [rewrite app_nil_r; reflexivity|constructor].
Qed.

Lemma only_adds_bind {A B : Type} (m : M A) (k : A -> M B) :
  only_adds P m -> (forall a, only_adds P (k a)) -> only_adds P (bind m k).
Proof.
  intros Hm Hk w res w' Hrun. unfold bind in Hrun.
  destruct (m w) as [r1 w1] eqn:Hm1.
  destruct (Hm w r1 w1 Hm1) as (n1 & Hn1 & HP1).
  destruct r1 as [a| |].
  - destruct (Hk a w1 res w' Hrun) as (n2 & Hn2 & HP2).
    exists (n1 ++ n2). split; [rewrite Hn2, Hn1, app_assoc; reflexivity|].
    apply Forall_app; split; assumption.
  - inversion Hrun; subst. eauto.
  - inversion Hrun; subst. eauto.
Qed.

(** A computation that leaves the trace as it is. *)
Lemma only_adds_silent {A : Type} (m : M A) :
  (forall w res w', m w = (res, w') -> trace w' = trace w) -> only_adds P m.
Proof.
  intros Hm w res w' Hrun. exists [].
  split; [rewrite app_nil_r; exact (Hm w res w' Hrun)|constructor].
Qed.

Lemma only_adds_emit (e : Event) : P e -> only_adds P (emit e).
Proof.
  intros He w res w' Hrun. inversion Hrun; subst. exists [e].
  split; [reflexivity|constructor; [exact He|constructor]].
Qed.
End OnlyAdds.

Section OnlyAddsCalls.
Context (E : Env) (P : Event -> Prop).

Lemma only_adds_time_Now : only_adds P time_Now.
Proof. apply only_adds_silent. intros w res w' Heq; inversion Heq; reflexivity. Qed.

Lemma only_adds_uuid_New : only_adds P (uuid_New E).
Proof. apply only_adds_silent. intros w res w' Heq; inversion Heq; reflexivity. Qed.

Lemma only_adds_ctx_Err c : only_adds P (ctx_Err c).
Proof.
  apply only_adds_silent. intros w res w'. unfold ctx_Err.
  destruct (Done_at c) as [t|]; [destruct (t <=? now w)|];
    intros Heq; inversion Heq; reflexivity.
Qed.

Lemma only_adds_select_timer c d : only_adds P (select_timer E c d).
Proof.
  apply only_adds_silent. intros w res w'. unfold select_timer.
  destruct (Done_at c) as [t|];
    [destruct (_ <? t); [|destruct ((t =? _) || _)]|];
    intros Heq; inversion Heq; reflexivity.
Qed.

Lemma only_adds_generatePrivateKey bits : only_adds P (generatePrivateKey E bits).
Proof.
  apply only_adds_silent. intros w res w'. unfold generatePrivateKey.
  destruct (rsa_GenerateKey E (keys w) bits) as [k|e];
    [destruct (rsa_Validate E k)|]; intros Heq; inversion Heq; reflexivity.
Qed.

Lemma only_adds_generateDpopJWT key httpMethod target nonce' accessToken :
  only_adds P (generateDpopJWT E key httpMethod target nonce' accessToken).
Proof.
  apply only_adds_silent. intros w res w' Hrun.
  apply generateDpopJWT_world in Hrun. tauto.
Qed.

Lemma only_adds_createClientAssertion orgURL clientID signer :
  only_adds P (createClientAssertion E orgURL clientID signer).
Proof.
  unfold createClientAssertion.
  apply only_adds_bind; [apply only_adds_time_Now|intros t1].
  apply only_adds_bind; [apply only_adds_time_Now|intros t2].
  apply only_adds_bind; [apply only_adds_uuid_New|intros id].
  destruct (jwt_assertion E signer _);
    [apply only_adds_ret|apply only_adds_ret|apply only_adds_panic].
Qed.

Lemma only_adds_client_Do q :
  (forall t, P (EvSend t q)) -> only_adds P (client_Do E q).
Proof.
  intros Hq w res w'. unfold client_Do.
  destruct (http_Do E (length (sent w)) q); intros Heq; inversion Heq; subst;
    (exists [EvSend (now w) q]; split; [reflexivity|repeat constructor; apply Hq]).
Qed.

(** [backoff.Retry] adds what its operation adds. *)
Lemma only_adds_Retry {St : Type} (op : St -> M (St * option error))
    (bOff : St -> oktaBackoff) :
  (forall s, only_adds P (op s)) ->
  forall fuel s, only_adds P (Retry E fuel op bOff s).
Proof.
  intros Hop. induction fuel as [|fuel IH]; intros s; cbn [Retry].
  - apply only_adds_out_of_fuel.
  - apply only_adds_bind; [apply Hop|intros [s1 [e|]]]; [|apply only_adds_ret].
    destruct (as_Permanent e); [apply only_adds_ret|].
    destruct (NextBackOff (bOff s1) =? backoff_Stop).
    + apply only_adds_bind; [apply only_adds_ctx_Err|intros [ce|]]; apply only_adds_ret.
    + apply only_adds_bind; [apply only_adds_select_timer|intros [|]];
        [apply IH|apply only_adds_ret].
Qed.
End OnlyAddsCalls.

Section TokenRequests.
Context (E : Env) (orgURL : string).

Lemma only_adds_operation q s :
  is_token_request orgURL q ->
  only_adds (sends_token_request orgURL) (operation E q s).
Proof.
  intros Hq. unfold operation.
  apply only_adds_bind; [|intros [resp err]; apply only_adds_ret].
  apply only_adds_client_Do. intros t. exists t, q. split; [reflexivity|exact Hq].
Qed.

Lemma Content_Type_not_DPoP :
  CanonicalMIMEHeaderKey "Content-Type" <> CanonicalMIMEHeaderKey "DPoP".
Proof. vm_compute. discriminate. Qed.

Lemma dpop_request_is_token_request q scopes compact j :
  Method q = "POST" -> URL q = orgURL +:+ "/oauth2/v1/token" ->
  Header_Values (Header q) "Content-Type"
    = [HStr "application/x-www-form-urlencoded"] ->
  is_token_request orgURL
    (set_Header (set_Body q (token_form scopes compact))
       (Header_Set (Header (set_Body q (token_form scopes compact))) "DPoP" j)).
Proof.
  intros Hm Hu Hct. unfold is_token_request. cbn [set_Header set_Body Method URL Header Body].
  split; [exact Hm|]. split; [exact Hu|]. split.
  - rewrite Header_Values_Set_other by exact Content_Type_not_DPoP. exact Hct.
  - unfold token_form. split; [left; reflexivity|right; right; left; reflexivity].
Qed.

Lemma only_adds_dpop fuel :
  forall tokenRequest nonce' maxRetries maxBackoff clientAssertion scopes clientID signer,
    Method tokenRequest = "POST" ->
    URL tokenRequest = orgURL +:+ "/oauth2/v1/token" ->
    Header_Values (Header tokenRequest) "Content-Type"
      = [HStr "application/x-www-form-urlencoded"] ->
    only_adds (sends_token_request orgURL)
      (getAccessTokenForDpopPrivateKey E fuel tokenRequest orgURL nonce'
         maxRetries maxBackoff clientAssertion scopes clientID signer).
Proof.
  induction fuel as [|fuel IH];
    intros tokenRequest nonce' maxRetries maxBackoff clientAssertion scopes clientID
      signer Hm Hu Hct; cbn [getAccessTokenForDpopPrivateKey].
  - apply only_adds_out_of_fuel.
  - apply only_adds_bind; [apply only_adds_generatePrivateKey|intros [privateKey [e|]]];
      [apply only_adds_ret|].
    apply only_adds_bind; [apply only_adds_generateDpopJWT|intros [dpopJWT [e|]]];
      [apply only_adds_ret|].
    apply only_adds_bind;
      [apply only_adds_createClientAssertion|intros [newClientAssertion [e|]]];
      [apply only_adds_ret|].
    pose proof (dpop_request_is_token_request tokenRequest scopes newClientAssertion
                  (hval_of_jwt dpopJWT) Hm Hu Hct) as Hq.
    apply only_adds_bind.
    { apply only_adds_Retry. intros s. apply only_adds_operation. exact Hq. }
    intros [captured [e|]]; [apply only_adds_ret|].
    destruct (snd captured) as [tokenResponse|]; [|apply only_adds_panic].
    destruct (Body_err tokenResponse); [apply only_adds_ret|].
    destruct (300 <=? StatusCode tokenResponse).
    + destruct (Contains (resp_Body tokenResponse) "use_dpop_nonce");
        [|apply only_adds_ret].
      destruct Hq as (Hm' & Hu' & Hct' & _).
      apply IH; assumption.
    + destruct (buildResponse E tokenResponse). apply only_adds_ret.
Qed.

(** X2.  Whatever the endpoint answers and however the call ends,
    [getAccessTokenForPrivateKey] does nothing to the outside but send POST
    requests of the client-credentials form to [orgURL + "/oauth2/v1/token"]. *)
Theorem X2_exchange_only_calls_token_endpoint (fuel : nat)
    (clientAssertion userAgent clientID : string) (scopes : list string)
    (maxRetries maxBackoff : Z) (signer : option jose_Signer)
    (w : World) (res : Res Tuple4) (w' : World) :
  getAccessTokenForPrivateKey E fuel orgURL clientAssertion userAgent scopes
    maxRetries maxBackoff clientID signer w = (res, w') ->
  exists new,
    trace w' = trace w ++ new /\ Forall (sends_token_request orgURL) new.
Proof.
  revert w res w'.
  change (only_adds (sends_token_request orgURL)
            (getAccessTokenForPrivateKey E fuel orgURL clientAssertion userAgent scopes
               maxRetries maxBackoff clientID signer)).
  unfold getAccessTokenForPrivateKey.
  destruct (http_NewRequest_err E "POST" (orgURL +:+ "/oauth2/v1/token"));
    [apply only_adds_ret|].
  match goal with
  | |- context [Retry E fuel (operation E ?q0) fst ?s0] => set (q := q0)
  end.
  assert (Hm : Method q = "POST") by reflexivity.
  assert (Hu : URL q = orgURL +:+ "/oauth2/v1/token") by reflexivity.
  assert (Hct : Header_Values (Header q) "Content-Type"
                = [HStr "application/x-www-form-urlencoded"]).
  { unfold q. vm_compute. reflexivity. }
  assert (Hq : is_token_request orgURL q).
  { split; [exact Hm|]. split; [exact Hu|]. split; [exact Hct|].
    unfold q, token_form. cbn [Body set_Header].
    split; [left; reflexivity|right; right; left; reflexivity]. }
  clearbody q.
  apply only_adds_bind.
  { apply only_adds_Retry. intros s. apply only_adds_operation. exact Hq. }
  intros [captured [e|]]; [apply only_adds_ret|].
  destruct (snd captured) as [tokenResponse|]; [|apply only_adds_panic].
  apply only_adds_bind;
    [apply only_adds_createClientAssertion|intros [newClientAssertion [e|]]];
    [apply only_adds_ret|].
  destruct (300 <=? StatusCode tokenResponse).
  - destruct (Contains (resp_Body tokenResponse) "invalid_dpop_proof");
      [|apply only_adds_ret].
    apply only_adds_dpop; assumption.
  - destruct (buildResponse E tokenResponse) as [tok [e|]]; apply only_adds_ret.
Qed.
End TokenRequests.

Lemma X2_exchange_only_calls_token_endpoint_witness :
  exists res w' new,
    getAccessTokenForPrivateKey (scripted handshake_script decode) 2
      "https://example.okta.com" "assertion" "okta-sdk-golang" ["okta.users.read"]
      2 30 "client" (Some signer0) world0 = (res, w') /\
    trace w' = trace world0 ++ new /\
    Forall (sends_token_request "https://example.okta.com") new.
Proof.
  destruct (getAccessTokenForPrivateKey (scripted handshake_script decode) 2
              "https://example.okta.com" "assertion" "okta-sdk-golang"
              ["okta.users.read"] 2 30 "client" (Some signer0) world0)
    as [res w'] eqn:Hrun.
  destruct (X2_exchange_only_calls_token_endpoint (scripted handshake_script decode)
              "https://example.okta.com" 2 "assertion" "okta-sdk-golang" "client"
              ["okta.users.read"] 2 30 (Some signer0) world0 res w' Hrun)
    as (new & Htrace & Hall).
  exists res, w', new. split; [reflexivity|]. split; [exact Htrace|exact Hall].
Defined.

(** ** The nonce rounds of the handshake have no bound *)

(** X3.  Against an endpoint that answers every request of the DPoP
    handshake with [use_dpop_nonce], [getAccessTokenForDpopPrivateKey] never
    returns: whatever the number [n] of rounds it is allowed, it performs
    all [n] of them, each with one request and a newly generated key; the
    retry budget [maxRetries] does not limit the rounds. *)
Theorem X3_nonce_rounds_unbounded (E : Env) (signer : option jose_Signer)
    (orgURL clientAssertion scope clientID : string) (maxRetries maxBackoff : Z)
    (r : Response) :
  LibrariesWork E signer ->
  (forall n q, http_Do E n q = inl r) ->
  300 <= StatusCode r ->
  Contains (resp_Body r) "use_dpop_nonce" = true ->
  Body_err r = None ->
  forall (n : nat) (tokenRequest : Request) (nonce' : string) (w : World),
  exists w',
    getAccessTokenForDpopPrivateKey E n tokenRequest orgURL nonce'
      maxRetries maxBackoff clientAssertion scope clientID signer w
    = (OutOfFuel, w') /\
    length (sent w') = (length (sent w) + n)%nat /\
    keys w' = (keys w + n)%nat.
Proof.
  intros Hlib Hdo Hstatus Hmark Hbody.
  apply Z.leb_le in Hstatus.
  induction n as [|n IH]; intros tokenRequest nonce' w.
  - exists w. split; [reflexivity|]. split; lia.
  - destruct (GenerateKey_works E signer Hlib (keys w) 2048) as (key & Hgen & Hval).
    destruct (dpop_round E n signer tokenRequest orgURL nonce' maxRetries maxBackoff
                clientAssertion scope clientID w key r Hlib Hgen Hval
                (fun q => Hdo _ q) Hbody)
      as (q & w1 & Hsent & Hkeys & _ & Hrun).
    rewrite Hstatus, Hmark in Hrun.
    destruct (IH q (Header_Get (resp_Header r) "Dpop-Nonce") w1)
      as (w' & Hrec & Hsent' & Hkeys').
    exists w'. split; [rewrite Hrun; exact Hrec|].
    split; [rewrite Hsent', Hsent, length_app; cbn; lia|lia].
Qed.

Lemma X3_nonce_rounds_unbounded_witness :
  exists w',
    getAccessTokenForDpopPrivateKey
      (scripted (fun _ => inl response_use_dpop_nonce) decode) 5 request0
      "https://example.okta.com" EmptyString 2 30 "assertion" "okta.users.read"
      "client" (Some signer0) world0
    = (OutOfFuel, w') /\
    length (sent w') = 5%nat /\ keys w' = 5%nat.
Proof.
  apply (X3_nonce_rounds_unbounded
           (scripted (fun _ => inl response_use_dpop_nonce) decode) (Some signer0)
           "https://example.okta.com" "assertion" "okta.users.read" "client" 2 30
           response_use_dpop_nonce (scripted_works _ _ _) (fun _ _ => eq_refl)).
  - vm_compute. discriminate.
  - vm_compute. reflexivity.
  - reflexivity.
Defined.

(** ** The exchange without a DPoP challenge *)

(** X4.  When the token endpoint answers the first request with a status
    below 300, [getAccessTokenForPrivateKey] returns after that one request
    without generating a key: with the decoded token, an empty nonce and a
    nil key when the decoder reports no error, and with the decoder's error
    and no token when it reports one. *)
Theorem X4_plain_exchange_result (E : Env) (fuel : nat) (signer : option jose_Signer)
    (orgURL clientAssertion userAgent clientID : string) (scopes : list string)
    (maxRetries maxBackoff : Z) (w : World) (resp : Response) :
  LibrariesWork E signer ->
  (forall q, http_Do E (length (sent w)) q = inl resp) ->
  StatusCode resp < 300 ->
  exists w',
    getAccessTokenForPrivateKey E (S fuel) orgURL clientAssertion userAgent scopes
      maxRetries maxBackoff clientID signer w
    = (Returns (match buildResponse E resp with
                | (_, Some e) => (None, EmptyString, None, Some e)
                | (accessToken, None) => (accessToken, EmptyString, None, None)
                end), w') /\
    length (sent w') = S (length (sent w)) /\
    keys w' = keys w /\ now w' = now w.
Proof.
  intros Hlib Hdo Hstatus.
  destruct (plain_round E fuel signer orgURL clientAssertion userAgent scopes
              maxRetries maxBackoff clientID w resp Hlib Hdo)
    as (q & compact & w' & Hsent & Hkeys & Hnow & _ & Hrun).
  exists w'. rewrite Hrun.
  destruct (Z.leb_spec 300 (StatusCode resp)) as [|_]; [lia|].
  split; [destruct (buildResponse E resp) as [tok [e|]]; reflexivity|].
  split; [rewrite Hsent, length_app; cbn; lia|]. split; assumption.
Qed.

Lemma X4_plain_exchange_result_witness :
  exists w',
    getAccessTokenForPrivateKey (scripted (fun _ => inl response200_garbage) decode) 1
      "https://example.okta.com" "assertion" "okta-sdk-golang" ["okta.users.read"]
      2 30 "client" (Some signer0) world0
    = (Returns (None, EmptyString, None,
                Some (library_error "encoding/json" "invalid character")), w') /\
    length (sent w') = 1%nat.
Proof.
  destruct (X4_plain_exchange_result
              (scripted (fun _ => inl response200_garbage) decode) 0 (Some signer0)
              "https://example.okta.com" "assertion" "okta-sdk-golang" "client"
              ["okta.users.read"] 2 30 world0 response200_garbage
              (scripted_works _ _ _) (fun _ => eq_refl))
    as (w' & Hrun & Hsent & _).
  - vm_compute. reflexivity.
  - exists w'. split; [exact Hrun|exact Hsent].
Defined.

(** X5.  [getAccessTokenForPrivateKey] signs a new client assertion as soon
    as the endpoint has answered, before it looks at the answer: when that
    signing fails, the exchange returns the signing error and no token,
    whatever the endpoint answered, a 200 with a valid token included. *)
Theorem X5_assertion_failure_discards_answer (E : Env) (fuel : nat)
    (signer : option jose_Signer)
    (orgURL clientAssertion userAgent clientID : string) (scopes : list string)
    (maxRetries maxBackoff : Z) (w : World) (resp : Response) (e : error) :
  (forall method target, http_NewRequest_err E method target = None) ->
  (forall q, http_Do E (length (sent w)) q = inl resp) ->
  (forall c, jwt_assertion E signer c = SignError e) ->
  exists w',
    getAccessTokenForPrivateKey E (S fuel) orgURL clientAssertion userAgent scopes
      maxRetries maxBackoff clientID signer w
    = (Returns (None, EmptyString, None, Some e), w') /\
    length (sent w') = S (length (sent w)).
Proof.
  intros Hnew Hdo Hsign.
  unfold getAccessTokenForPrivateKey. rewrite Hnew.
  match goal with
  | |- context [Retry E (S fuel) (operation E ?q0) fst ?s0] => set (q := q0)
  end.
  rewrite (bind_Returns _ _ _ _ _
             (Retry_first E fuel _ fst _ _ _ _
                (operation_run E q (new_bOff maxRetries maxBackoff) None w resp
                   (Hdo q)))).
  cbv beta iota. cbn [snd].
  unfold createClientAssertion, bind, time_Now, uuid_New, ret. rewrite Hsign.
  eexists. split; [reflexivity|].
  unfold sent. cbn [trace next_uuid log]. rewrite sent_of_app, length_app. cbn. lia.
Qed.

Lemma X5_assertion_failure_discards_answer_witness :
  let E :=
    {| http_Do n _ := inl response200_bearer;
       http_NewRequest_err _ _ := None;
       rsa_GenerateKey n _ := inl {| rsa_serial := n |};
       rsa_Validate _ := None;
       uuid_String n := pretty n;
       jwt_assertion _ _ := SignError (library_error "go-jose" "no signer");
       dpop_NewSigner_err _ := None;
       dpop_Serialize_err _ _ := None;
       buildResponse := decode;
       createKeySigner key kid := (None, None);
       convertJWKToPrivateKey jwks _ := (jwks, None);
       select_timer_first _ := true;
       time_Parse _ _ := inl 0;
       CreateCacheKey r := URL r;
       DumpRequestOut_err _ := None;
       DumpResponse_err _ := None |} in
  exists w',
    getAccessTokenForPrivateKey E 1 "https://example.okta.com" "assertion"
      "okta-sdk-golang" ["okta.users.read"] 2 30 EmptyString None world0
    = (Returns (None, EmptyString, None,
                Some (library_error "go-jose" "no signer")), w') /\
    length (sent w') = 1%nat.
Proof.
  intros E.
  apply (X5_assertion_failure_discards_answer E 0 None "https://example.okta.com"
           "assertion" "okta-sdk-golang" EmptyString ["okta.users.read"] 2 30 world0
           response200_bearer (library_error "go-jose" "no signer"));
    intros; reflexivity.
Defined.

(** ** Attempts of [doWithRetries] *)

(** A number of seconds is never the duration [backoff.Stop]. *)
Lemma Seconds_not_Stop (n : Z) : Seconds n <> backoff_Stop.
Proof.
  unfold Seconds, int64, backoff_Stop, time_Second.
  pose proof (Z.div_mod (1000000000 * n + 2 ^ 63) (2 ^ 64) ltac:(lia)) as Hdiv.
  lia.
Qed.

Lemma is_attempt_0 (req : Request) (id : string) : is_attempt req id 0 req.
Proof.
  unfold is_attempt. cbn [repeat seq map]. rewrite !app_nil_r. tauto.
Qed.

Lemma is_attempt_next (req : Request) (id : string) (k : nat) (q : Request) :
  is_attempt req id k q ->
  is_attempt req id (S k) (next_attempt q id (Z.of_nat (S k))).
Proof.
  intros (Hm & Hu & Hb & Hfor & Hcount & Hother).
  assert (Hne : CanonicalMIMEHeaderKey "X-Okta-Retry-For"
                <> CanonicalMIMEHeaderKey "X-Okta-Retry-Count")
    by (vm_compute; discriminate).
  unfold is_attempt, next_attempt, set_Header. cbn [Method URL Body Header].
  split; [exact Hm|]. split; [exact Hu|]. split; [exact Hb|].
  split; [|split].
  - unfold Header_Values at 1. rewrite Header_Add_other by exact Hne.
    fold (Header_Values (Header_Add (Header q) "X-Okta-Retry-For" (HStr id))
            "X-Okta-Retry-For").
    rewrite Header_Values_Add, Hfor, <- app_assoc. f_equal.
    clear. induction k as [|k IH]; [reflexivity|].
    cbn [repeat app]. f_equal. exact IH.
  - rewrite Header_Values_Add. unfold Header_Values at 1.
    rewrite Header_Add_other by (intros Heq; apply Hne; symmetry; exact Heq).
    fold (Header_Values (Header q) "X-Okta-Retry-Count").
    rewrite Hcount, <- app_assoc. f_equal.
    rewrite seq_S, map_app. reflexivity.
  - intros key Hk1 Hk2. unfold Header_Values.
    rewrite !Header_Add_other.
    + exact (Hother key Hk1 Hk2).
    + intros Heq. apply Hk1. rewrite Heq. vm_compute. reflexivity.
    + intros Heq. apply Hk2. rewrite Heq. vm_compute. reflexivity.
Qed.

Section ApiAttempts.
Context (E : Env) (config : Configuration).
Hypothesis Hdumps : dumps_work E config.

Lemma callAPI_run (q : Request) (w : World) :
  callAPI E config q w
  = (Returns (match http_Do E (length (sent w)) q with
              | inl r => (Some r, None)
              | inr e => (None, Some e)
              end), log (EvSend (now w) q) w).
Proof.
  unfold callAPI, dumps_work in *.
  destruct (Debug config).
  - destruct (Hdumps eq_refl) as [Hq Hr]. rewrite Hq.
    unfold bind, client_Do, ret.
    destruct (http_Do E (length (sent w)) q) as [r|e]; [|reflexivity].
    cbn. rewrite Hr. reflexivity.
  - unfold bind, client_Do, ret.
    destruct (http_Do E (length (sent w)) q) as [r|e]; reflexivity.
Qed.

(** An answer other than 429 ends the attempt without an error. *)
Lemma api_operation_answer bOff resp0 err0 (q : Request) (w : World) (r : Response) :
  http_Do E (length (sent w)) q = inl r ->
  StatusCode r <> 429 ->
  api_operation E config (bOff, resp0, err0, q) w
  = (Returns ((bOff, Some r, None, q), None), log (EvSend (now w) q) w).
Proof.
  intros Hdo Hstatus. unfold api_operation.
  rewrite (bind_Returns _ _ _ _ _ (callAPI_run q w)), Hdo. cbv beta iota.
  unfold tooManyRequests, StatusTooManyRequests.
  destruct (Z.eqb_spec (StatusCode r) 429) as [|_]; [contradiction|]. reflexivity.
Qed.

(** A transport error that is not [io.EOF] is made permanent. *)
Lemma api_operation_error bOff resp0 err0 (q : Request) (w : World) (e : error) :
  http_Do E (length (sent w)) q = inr e ->
  is_EOF e = false ->
  api_operation E config (bOff, resp0, err0, q) w
  = (Returns ((bOff, None, Some e, q), Some (backoff_Permanent e)),
     log (EvSend (now w) q) w).
Proof.
  intros Hdo Heof. unfold api_operation.
  rewrite (bind_Returns _ _ _ _ _ (callAPI_run q w)), Hdo. cbv beta iota.
  rewrite Heof. reflexivity.
Qed.

Lemma api_operation_eof bOff resp0 err0 (q : Request) (w : World) (e : error) :
  http_Do E (length (sent w)) q = inr e ->
  is_EOF e = true ->
  api_operation E config (bOff, resp0, err0, q) w
  = (Returns ((bOff, None, Some e, q), Some (fmt_Errorf_w "network error: " e)),
     log (EvSend (now w) q) w).
Proof.
  intros Hdo Heof. unfold api_operation.
  rewrite (bind_Returns _ _ _ _ _ (callAPI_run q w)), Hdo. cbv beta iota.
  rewrite Heof. reflexivity.
Qed.

(** A 429 answer whose body cannot be drained: the error of the body is
    returned before the retry count is touched. *)
Lemma api_operation_drain bOff resp0 err0 (q : Request) (w : World) (r : Response)
    (e : error) :
  http_Do E (length (sent w)) q = inl r ->
  StatusCode r = 429 ->
  tryDrainBody r = Some e ->
  api_operation E config (bOff, resp0, err0, q) w
  = (Returns ((bOff, Some r, Some e, q), Some e), log (EvSend (now w) q) w).
Proof.
  intros Hdo Hstatus Hdrain. unfold api_operation.
  rewrite (bind_Returns _ _ _ _ _ (callAPI_run q w)), Hdo. cbv beta iota.
  unfold tooManyRequests, StatusTooManyRequests. rewrite Hstatus. cbn [Z.eqb negb Pos.eqb].
  rewrite Hdrain. reflexivity.
Qed.

(** A 429 answer whose headers do not give the delay. *)
Lemma api_operation_no_delay bOff resp0 err0 (q : Request) (w : World) (r : Response)
    (d : Z) (e : error) :
  http_Do E (length (sent w)) q = inl r ->
  StatusCode r = 429 ->
  tryDrainBody r = None ->
  Get429BackoffTime E r = (d, Some e) ->
  api_operation E config (bOff, resp0, err0, q) w
  = (Returns ((bOff, Some r, None, q), Some e), log (EvSend (now w) q) w).
Proof.
  intros Hdo Hstatus Hdrain Hget. unfold api_operation.
  rewrite (bind_Returns _ _ _ _ _ (callAPI_run q w)), Hdo. cbv beta iota.
  unfold tooManyRequests, StatusTooManyRequests. rewrite Hstatus. cbn [Z.eqb negb Pos.eqb].
  rewrite Hdrain, Hget. reflexivity.
Qed.

(** A 429 answer that gives the delay. *)
Lemma api_operation_429 bOff resp0 err0 (q : Request) (w : World) (r : Response)
    (delay : Z) :
  http_Do E (length (sent w)) q = inl r ->
  StatusCode r = 429 ->
  tryDrainBody r = None ->
  Get429BackoffTime E r = (delay, None) ->
  api_operation E config (bOff, resp0, err0, q) w
  = (Returns
       ((incr_retryCount
           (set_backoffDuration bOff
              (Seconds (Z.min delay (RateLimit_MaxBackoff config)))),
         Some r, None,
         next_attempt q (Header_Get (resp_Header r) "X-Okta-Request-Id")
           (int32 (retryCount bOff + 1))),
        Some (errors_New "too many requests")),
     log (EvSend (now w) q) w).
Proof.
  intros Hdo Hstatus Hdrain Hget. unfold api_operation.
  rewrite (bind_Returns _ _ _ _ _ (callAPI_run q w)), Hdo. cbv beta iota.
  unfold tooManyRequests, StatusTooManyRequests. rewrite Hstatus. cbn [Z.eqb negb Pos.eqb].
  rewrite Hdrain, Hget. cbv beta iota zeta.
  replace (if RateLimit_MaxBackoff config <? delay
           then RateLimit_MaxBackoff config else delay)
    with (Z.min delay (RateLimit_MaxBackoff config))
    by (destruct (Z.ltb_spec (RateLimit_MaxBackoff config) delay); lia).
  reflexivity.
Qed.
End ApiAttempts.
Section ApiRetry.
Context (E : Env) (config : Configuration) (c : Context) (req : Request).
Hypothesis Hdumps : dumps_work E config.
Hypothesis Hctx : Done_at c = None.

(** [k] attempts answered by the 429 response [r], while the budget lasts. *)
Lemma api_Retry_429s (r : Response) (delay : Z) :
  StatusCode r = 429 ->
  tryDrainBody r = None ->
  Get429BackoffTime E r = (delay, None) ->
  RateLimit_MaxRetries config < 2 ^ 31 - 1 ->
  forall (k fuel j : nat) (bd : Z) resp0 err0 (q : Request) (w : World),
    is_attempt req (Header_Get (resp_Header r) "X-Okta-Request-Id") j q ->
    Z.of_nat j + Z.of_nat k <= RateLimit_MaxRetries config ->
    (forall i q', (i < k)%nat -> http_Do E (length (sent w) + i) q' = inl r) ->
    exists bd' resp' err' q' qs w',
      Retry E (k + fuel) (api_operation E config) captured_bOff
        ({| retryCount := Z.of_nat j; maxRetries := RateLimit_MaxRetries config;
            backoffDuration := bd; ctx := c |}, resp0, err0, q) w
      = Retry E fuel (api_operation E config) captured_bOff
          ({| retryCount := Z.of_nat (j + k); maxRetries := RateLimit_MaxRetries config;
              backoffDuration := bd'; ctx := c |}, resp', err', q') w' /\
      is_attempt req (Header_Get (resp_Header r) "X-Okta-Request-Id") (j + k) q' /\
      sent w' = sent w ++ qs /\ length qs = k /\
      (forall i x, qs !! i = Some x ->
         is_attempt req (Header_Get (resp_Header r) "X-Okta-Request-Id") (j + i) x) /\
      now w' = now w + Z.of_nat k * retry_wait config delay /\
      keys w' = keys w.
Proof.
  intros Hstatus Hdrain Hget Hmax.
  induction k as [|k IH]; intros fuel j bd resp0 err0 q w Hq Hbudget Hdo.
  - exists bd, resp0, err0, q, [], w. rewrite Nat.add_0_r, app_nil_r.
    split; [reflexivity|]. split; [exact Hq|]. split; [reflexivity|].
    split; [reflexivity|]. split; [intros i x Hx; discriminate Hx|].
    split; [lia|reflexivity].
  - pose proof (api_operation_429 E config Hdumps
                  {| retryCount := Z.of_nat j;
                     maxRetries := RateLimit_MaxRetries config;
                     backoffDuration := bd; ctx := c |} resp0 err0 q w r delay) as Hop.
    rewrite <- (Nat.add_0_r (length (sent w))) in Hop.
    specialize (Hop (Hdo 0%nat q ltac:(lia)) Hstatus Hdrain Hget).
    cbn [retryCount] in Hop. rewrite int32_id in Hop by lia.
    replace (Z.of_nat j + 1) with (Z.of_nat (S j)) in Hop by lia.
    assert (Hnext : NextBackOff
                      (captured_bOff
                         (incr_retryCount
                            (set_backoffDuration
                               {| retryCount := Z.of_nat j;
                                  maxRetries := RateLimit_MaxRetries config;
                                  backoffDuration := bd; ctx := c |}
                               (Seconds (Z.min delay (RateLimit_MaxBackoff config)))),
                          Some r, @None error,
                          next_attempt q (Header_Get (resp_Header r) "X-Okta-Request-Id")
                            (Z.of_nat (S j))))
                    = Seconds (Z.min delay (RateLimit_MaxBackoff config))).
    { unfold NextBackOff, captured_bOff, incr_retryCount, set_backoffDuration.
      cbn [retryCount maxRetries backoffDuration]. rewrite int32_id by lia.
      destruct (Z.ltb_spec (RateLimit_MaxRetries config) (Z.of_nat j + 1)) as [|_];
        [lia|reflexivity]. }
    cbn [Nat.add].
    rewrite (Retry_fail_wait E (k + fuel) _ captured_bOff _ _ _ _ _ Hop eq_refl);
      [|rewrite Hnext; apply Seconds_not_Stop|exact Hctx].
    rewrite Hnext.
    set (w1 := set_now (log (EvSend (now w) q) w) _).
    unfold incr_retryCount, set_backoffDuration.
    cbn [retryCount maxRetries backoffDuration ctx].
    rewrite int32_id by lia. replace (Z.of_nat j + 1) with (Z.of_nat (S j)) by lia.
    assert (Hs1 : sent w1 = sent w ++ [q]) by (unfold w1; apply sent_log_send).
    destruct (IH fuel (S j) (Seconds (Z.min delay (RateLimit_MaxBackoff config)))
                (Some r) None
                (next_attempt q (Header_Get (resp_Header r) "X-Okta-Request-Id")
                   (Z.of_nat (S j))) w1)
      as (bd' & resp' & err' & q' & qs & w' & Hrun & Hq' & Hsent & Hlen & Hqs & Hnow
          & Hkeys).
    { apply is_attempt_next. exact Hq. }
    { lia. }
    { intros i q2 Hi. rewrite Hs1, length_app. cbn [length].
      replace (length (sent w) + 1 + i)%nat with (length (sent w) + S i)%nat by lia.
      apply Hdo. lia. }
    exists bd', resp', err', q', (q :: qs), w'.
    replace (j + S k)%nat with (S j + k)%nat by lia.
    split; [exact Hrun|]. split; [exact Hq'|].
    split; [rewrite Hsent, Hs1, <- app_assoc; reflexivity|].
    split; [cbn [length]; lia|].
    split.
    { intros [|i] x Hx.
      - cbn in Hx. inversion Hx; subst x. rewrite Nat.add_0_r. exact Hq.
      - cbn in Hx. replace (j + S i)%nat with (S j + i)%nat by lia.
        exact (Hqs i x Hx). }
    split; [|rewrite Hkeys; reflexivity].
    rewrite Hnow. unfold w1, retry_wait. cbn [now set_now log]. lia.
Qed.
End ApiRetry.
(** X6.  [doWithRetries] makes a single attempt when the answer is not a
    429 and when the transport fails with an error other than [io.EOF]: the
    answer is returned as it is, the error is returned as the transport
    gave it (not wrapped), one request has been sent, no time has passed and
    the request is unchanged. *)
Theorem X6_single_attempt (E : Env) (fuel : nat) (config : Configuration)
    (c : Context) (req : Request) (w : World) :
  dumps_work E config ->
  (forall r, http_Do E (length (sent w)) req = inl r -> StatusCode r <> 429 ->
     doWithRetries E (S fuel) config c req w
     = (Returns (req, (Some r, None)), log (EvSend (now w) req) w)) /\
  (forall e, http_Do E (length (sent w)) req = inr e -> is_EOF e = false ->
     doWithRetries E (S fuel) config c req w
     = (Returns (req, (None, Some e)), log (EvSend (now w) req) w)).
Proof.
  intros Hdumps. split.
  - intros r Hdo Hstatus. unfold doWithRetries.
    rewrite (bind_Returns _ _ _ _ _
               (Retry_first E fuel _ captured_bOff _ _ _ _
                  (api_operation_answer E config Hdumps _ None None req w r
                     Hdo Hstatus))).
    reflexivity.
  - intros e Hdo Heof. unfold doWithRetries.
    rewrite (bind_Returns _ _ _ _ _
               (Retry_permanent E fuel _ captured_bOff _ _ _ _ _ e
                  (api_operation_error E config Hdumps _ None None req w e
                     Hdo Heof) eq_refl)).
    reflexivity.
Qed.

Lemma X6_single_attempt_witness :
  doWithRetries (scripted (fun _ => inl response404) no_decode) 1 config0
    context_TODO request0 world0
  = (Returns (request0, (Some response404, None)),
     log (EvSend 0 request0) world0) /\
  doWithRetries (scripted unreachable no_decode) 1 config0 context_TODO request0 world0
  = (Returns (request0,
              (None, Some (library_error "net/http" "connection refused"))),
     log (EvSend 0 request0) world0).
Proof.
  split.
  - apply (X6_single_attempt (scripted (fun _ => inl response404) no_decode) 0 config0
             context_TODO request0 world0).
    + intros Hdebug. discriminate Hdebug.
    + reflexivity.
    + vm_compute. discriminate.
  - apply (X6_single_attempt (scripted unreachable no_decode) 0 config0
             context_TODO request0 world0).
    + intros Hdebug. discriminate Hdebug.
    + reflexivity.
    + reflexivity.
Defined.

(** X7.  Against an endpoint that answers every attempt with the same 429
    response, from which the delay [delay] is read, [doWithRetries] with
    [MaxRetries = m >= 0] sends [m + 1] requests, waits
    [min delay MaxBackoff] seconds (nothing when that is negative) before
    each of the [m] retries, and returns that response with the error
    [too many requests].  The attempt number [k] carries [k] values of
    [X-Okta-Retry-For] and the retry counts 1 to [k] under
    [X-Okta-Retry-Count]: the headers of the earlier retries are kept. *)
Theorem X7_retry_budget_on_429 (E : Env) (fuel : nat) (config : Configuration)
    (c : Context) (req : Request) (w : World) (r : Response) (delay : Z) :
  dumps_work E config ->
  Done_at c = None ->
  (forall n q, http_Do E n q = inl r) ->
  StatusCode r = 429 ->
  tryDrainBody r = None ->
  Get429BackoffTime E r = (delay, None) ->
  0 <= RateLimit_MaxRetries config < 2 ^ 31 - 1 ->
  (Z.to_nat (RateLimit_MaxRetries config) < fuel)%nat ->
  exists req' qs w',
    doWithRetries E fuel config c req w
    = (Returns (req', (Some r, Some (errors_New "too many requests"))), w') /\
    sent w' = sent w ++ qs /\
    length qs = S (Z.to_nat (RateLimit_MaxRetries config)) /\
    (forall k q, qs !! k = Some q ->
       is_attempt req (Header_Get (resp_Header r) "X-Okta-Request-Id") k q) /\
    now w' = now w + RateLimit_MaxRetries config * retry_wait config delay.
Proof.
  intros Hdumps Hctx Hdo Hstatus Hdrain Hget Hmax Hfuel.
  set (m := Z.to_nat (RateLimit_MaxRetries config)) in *.
  destruct (api_Retry_429s E config c req Hdumps Hctx r delay Hstatus Hdrain Hget
              ltac:(lia) m (fuel - m) 0 0 None None req w (is_attempt_0 _ _)
              ltac:(lia) (fun i q _ => Hdo _ q))
    as (bd' & resp' & err' & q' & qs & w1 & Hrun & Hq' & Hsent & Hlen & Hqs & Hnow & _).
  replace (m + (fuel - m))%nat with fuel in Hrun by lia.
  destruct (fuel - m)%nat as [|fuel'] eqn:Hrest; [lia|].
  pose proof (api_operation_429 E config Hdumps
                {| retryCount := Z.of_nat (0 + m);
                   maxRetries := RateLimit_MaxRetries config;
                   backoffDuration := bd'; ctx := c |} resp' err' q' w1 r delay
                (Hdo _ _) Hstatus Hdrain Hget) as Hop.
  apply (Retry_fail_stop E fuel' _ captured_bOff) in Hop; [|reflexivity| |exact Hctx].
  2:{ unfold NextBackOff, captured_bOff, incr_retryCount, set_backoffDuration.
      cbn [retryCount maxRetries backoffDuration].
      rewrite int32_id by lia.
      destruct (Z.ltb_spec (RateLimit_MaxRetries config) (Z.of_nat (0 + m) + 1))
        as [_|]; [reflexivity|lia]. }
  unfold doWithRetries. cbn [Z.of_nat] in Hrun.
  rewrite (bind_Returns _ _ _ _ _ (eq_trans Hrun Hop)).
  eexists _, (qs ++ [q']), _. split; [reflexivity|].
  split; [rewrite sent_log_send, Hsent, <- app_assoc; reflexivity|].
  split; [rewrite length_app, Hlen; cbn [length]; lia|].
  split.
  - intros k q Hk. destruct (Nat.lt_ge_cases k (length qs)) as [Hlt|Hge].
    + rewrite lookup_app_l in Hk by exact Hlt. exact (Hqs k q Hk).
    + rewrite lookup_app_r in Hk by exact Hge.
      destruct (k - length qs)%nat as [|i] eqn:Hi; [|destruct i; discriminate Hk].
      cbn in Hk. inversion Hk; subst q.
      replace k with (0 + m)%nat by lia. exact Hq'.
  - cbn [now log]. rewrite Hnow. unfold m. rewrite Z2Nat.id by lia. reflexivity.
Qed.

Lemma X7_retry_budget_on_429_witness :
  exists req' qs w',
    doWithRetries (scripted (fun _ => inl response429) no_decode) 3 config0
      context_TODO request0 world0
    = (Returns (req', (Some response429, Some (errors_New "too many requests"))), w') /\
    sent w' = sent world0 ++ qs /\
    length qs = 3%nat /\
    (forall k q, qs !! k = Some q -> is_attempt request0 "req-1" k q) /\
    now w' = 2 * (30 * time_Second).
Proof.
  apply (X7_retry_budget_on_429 (scripted (fun _ => inl response429) no_decode) 3
           config0 context_TODO request0 world0 response429 61).
  - intros Hdebug. discriminate Hdebug.
  - reflexivity.
  - reflexivity.
  - reflexivity.
  - reflexivity.
  - vm_compute. reflexivity.
  - cbn. lia.
  - cbn. lia.
Defined.
(** X8.  When the first [k] attempts are answered by a 429 response, from
    which the delay [delay] is read, and the next one by another status,
    with [k] within [MaxRetries], [doWithRetries] returns that last answer
    and no error after [k + 1] requests and [k] waits of
    [min delay MaxBackoff] seconds; the request it returns is the last one
    sent, with the headers of its [k] retries. *)
Theorem X8_answer_after_429 (E : Env) (fuel : nat) (config : Configuration)
    (c : Context) (req : Request) (w : World) (r r' : Response) (delay : Z)
    (k : nat) :
  dumps_work E config ->
  Done_at c = None ->
  (forall i q, (i < k)%nat -> http_Do E (length (sent w) + i) q = inl r) ->
  (forall q, http_Do E (length (sent w) + k) q = inl r') ->
  StatusCode r = 429 ->
  tryDrainBody r = None ->
  Get429BackoffTime E r = (delay, None) ->
  StatusCode r' <> 429 ->
  Z.of_nat k <= RateLimit_MaxRetries config < 2 ^ 31 - 1 ->
  (k < fuel)%nat ->
  exists req' qs w',
    doWithRetries E fuel config c req w = (Returns (req', (Some r', None)), w') /\
    sent w' = sent w ++ qs ++ [req'] /\
    length qs = k /\
    (forall i q, (qs ++ [req']) !! i = Some q ->
       is_attempt req (Header_Get (resp_Header r) "X-Okta-Request-Id") i q) /\
    now w' = now w + Z.of_nat k * retry_wait config delay.
Proof.
  intros Hdumps Hctx Hdo Hdo' Hstatus Hdrain Hget Hstatus' Hmax Hfuel.
  destruct (api_Retry_429s E config c req Hdumps Hctx r delay Hstatus Hdrain Hget
              ltac:(lia) k (fuel - k) 0 0 None None req w (is_attempt_0 _ _)
              ltac:(lia) Hdo)
    as (bd' & resp' & err' & q' & qs & w1 & Hrun & Hq' & Hsent & Hlen & Hqs & Hnow & _).
  replace (k + (fuel - k))%nat with fuel in Hrun by lia.
  destruct (fuel - k)%nat as [|fuel'] eqn:Hrest; [lia|].
  assert (Hlast : http_Do E (length (sent w1)) q' = inl r').
  { rewrite Hsent, length_app, Hlen. apply Hdo'. }
  pose proof (Retry_first E fuel' _ captured_bOff _ _ _ _
                (api_operation_answer E config Hdumps
                   {| retryCount := Z.of_nat (0 + k);
                      maxRetries := RateLimit_MaxRetries config;
                      backoffDuration := bd'; ctx := c |} resp' err' q' w1 r'
                   Hlast Hstatus')) as Hop.
  unfold doWithRetries. cbn [Z.of_nat] in Hrun.
  rewrite (bind_Returns _ _ _ _ _ (eq_trans Hrun Hop)).
  exists q', qs, (log (EvSend (now w1) q') w1). split; [reflexivity|].
  split; [rewrite sent_log_send, Hsent, <- app_assoc; reflexivity|].
  split; [exact Hlen|].
  split; [|cbn [now log]; exact Hnow].
  intros i q Hi. destruct (Nat.lt_ge_cases i (length qs)) as [Hlt|Hge].
  - rewrite lookup_app_l in Hi by exact Hlt. exact (Hqs i q Hi).
  - rewrite lookup_app_r in Hi by exact Hge.
    destruct (i - length qs)%nat as [|i'] eqn:Hi'; [|destruct i'; discriminate Hi].
    cbn in Hi. inversion Hi; subst q.
    replace i with (0 + k)%nat by lia. exact Hq'.
Qed.

Lemma X8_answer_after_429_witness :
  exists req' qs w',
    doWithRetries
      (scripted (fun n => match n with
                          | 0%nat => inl response429
                          | _ => inl response200
                          end) no_decode) 2 config0 context_TODO request0 world0
    = (Returns (req', (Some response200, None)), w') /\
    sent w' = sent world0 ++ qs ++ [req'] /\
    length qs = 1%nat /\
    (forall i q, (qs ++ [req']) !! i = Some q -> is_attempt request0 "req-1" i q) /\
    now w' = 30 * time_Second.
Proof.
  apply (X8_answer_after_429
           (scripted (fun n => match n with
                               | 0%nat => inl response429
                               | _ => inl response200
                               end) no_decode) 2 config0 context_TODO request0 world0
           response429 response200 61 1).
  - intros Hdebug. discriminate Hdebug.
  - reflexivity.
  - intros [|i] q Hi; [reflexivity|lia].
  - reflexivity.
  - reflexivity.
  - reflexivity.
  - vm_compute. reflexivity.
  - vm_compute. discriminate.
  - cbn. lia.
  - lia.
Defined.

Section ApiSpin.
Context (E : Env) (config : Configuration) (c : Context) (q : Request).
Hypothesis Hctx : Done_at c = None.

(** Attempts that fail without touching the backoff, with an error that is
    not permanent, go on as long as the retry count is within the budget. *)
Lemma api_Retry_spin (bOff : oktaBackoff) :
  ctx bOff = c ->
  retryCount bOff <= maxRetries bOff ->
  backoffDuration bOff <> backoff_Stop ->
  (forall resp0 err0 w, exists resp1 err1 e,
     api_operation E config (bOff, resp0, err0, q) w
     = (Returns ((bOff, resp1, err1, q), Some e), log (EvSend (now w) q) w) /\
     as_Permanent e = None) ->
  forall (n : nat) resp0 err0 (w : World),
  exists w',
    Retry E n (api_operation E config) captured_bOff (bOff, resp0, err0, q) w
    = (OutOfFuel, w') /\
    sent w' = sent w ++ repeat q n /\
    now w' = now w + Z.of_nat n * Z.max 0 (backoffDuration bOff).
Proof.
  intros Hc Hcount Hd Hop.
  assert (Hnext : NextBackOff bOff = backoffDuration bOff).
  { unfold NextBackOff.
    destruct (Z.ltb_spec (maxRetries bOff) (retryCount bOff)); [lia|reflexivity]. }
  induction n as [|n IH]; intros resp0 err0 w.
  - exists w. split; [reflexivity|]. split; [cbn; rewrite app_nil_r; reflexivity|lia].
  - destruct (Hop resp0 err0 w) as (resp1 & err1 & e & Hrun & Hperm).
    rewrite (Retry_fail_wait E n _ captured_bOff _ _ _ _ _ Hrun Hperm);
      cbn [captured_bOff]; [|rewrite Hnext; exact Hd|rewrite Hc; exact Hctx].
    rewrite Hnext.
    destruct (IH resp1 err1
                (set_now (log (EvSend (now w) q) w)
                   (now (log (EvSend (now w) q) w) + Z.max 0 (backoffDuration bOff))))
      as (w' & Hrec & Hsent & Hnow).
    exists w'. split; [exact Hrec|].
    split.
    + rewrite Hsent.
      change (sent (set_now (log (EvSend (now w) q) w) _))
        with (sent (log (EvSend (now w) q) w)).
      rewrite sent_log_send, <- app_assoc. reflexivity.
    + rewrite Hnow. cbn [now set_now log]. lia.
Qed.
End ApiSpin.

(** X9.  [io.EOF] does not use up the retry budget: when the transport
    fails every attempt with an error that is [io.EOF], [doWithRetries]
    with [MaxRetries >= 0] never returns; however many attempts [n] it is
    allowed, it makes them all, one straight after the other. *)
Theorem X9_eof_retried_without_bound (E : Env) (config : Configuration)
    (c : Context) (req : Request) (e : error) :
  dumps_work E config ->
  Done_at c = None ->
  0 <= RateLimit_MaxRetries config ->
  (forall n q, http_Do E n q = inr e) ->
  is_EOF e = true ->
  as_Permanent e = None ->
  forall (n : nat) (w : World),
  exists w',
    doWithRetries E n config c req w = (OutOfFuel, w') /\
    sent w' = sent w ++ repeat req n /\
    now w' = now w.
Proof.
  intros Hdumps Hctx Hmax Hdo Heof Hperm n w.
  destruct (api_Retry_spin E config c req Hctx
              {| retryCount := 0; maxRetries := RateLimit_MaxRetries config;
                 backoffDuration := 0; ctx := c |} eq_refl Hmax
              ltac:(discriminate)) with (n := n) (resp0 := @None Response)
              (err0 := @None error) (w := w)
    as (w' & Hrun & Hsent & Hnow).
  { intros resp0 err0 w0. exists None, (Some e), (fmt_Errorf_w "network error: " e).
    split; [|exact Hperm].
    apply (api_operation_eof E config Hdumps _ resp0 err0 req w0 e (Hdo _ _) Heof). }
  exists w'. unfold doWithRetries, bind. rewrite Hrun.
  split; [reflexivity|]. split; [exact Hsent|].
  rewrite Hnow. cbn [backoffDuration]. lia.
Qed.

Lemma X9_eof_retried_without_bound_witness :
  exists w',
    doWithRetries (scripted (fun _ => inr (url_Error io_EOF)) no_decode) 7 config0
      context_TODO request0 world0
    = (OutOfFuel, w') /\
    sent w' = sent world0 ++ repeat request0 7 /\
    now w' = now world0.
Proof.
  apply (X9_eof_retried_without_bound
           (scripted (fun _ => inr (url_Error io_EOF)) no_decode) config0
           context_TODO request0 (url_Error io_EOF)).
  - intros Hdebug. discriminate Hdebug.
  - reflexivity.
  - cbn. lia.
  - reflexivity.
  - reflexivity.
  - reflexivity.
Defined.

(** Every error of [Get429BackoffTime] is permanent. *)
Lemma Get429BackoffTime_permanent (E : Env) (r : Response) (d : Z) (e : error) :
  Get429BackoffTime E r = (d, Some e) -> exists inner, e = backoff_Permanent inner.
Proof.
  unfold Get429BackoffTime.
  destruct (time_Parse E _ _) as [date|err].
  - destruct (Atoi _) as [reset [err|]]; intros Heq; inversion Heq; eauto.
  - intros Heq; inversion Heq; eauto.
Qed.

(** X10.  A 429 answer whose [Date] or [X-Rate-Limit-Reset] header cannot
    be used ends [doWithRetries] after that one attempt, whatever the retry
    budget: the answer is returned together with the error of
    [Get429BackoffTime], taken out of its permanent wrapper, and the request
    gets no retry header. *)
Theorem X10_unusable_429_headers (E : Env) (fuel : nat) (config : Configuration)
    (c : Context) (req : Request) (w : World) (r : Response) (d : Z) (e : error) :
  dumps_work E config ->
  http_Do E (length (sent w)) req = inl r ->
  StatusCode r = 429 ->
  tryDrainBody r = None ->
  Get429BackoffTime E r = (d, Some e) ->
  exists inner,
    e = backoff_Permanent inner /\
    doWithRetries E (S fuel) config c req w
    = (Returns (req, (Some r, Some inner)), log (EvSend (now w) req) w).
Proof.
  intros Hdumps Hdo Hstatus Hdrain Hget.
  destruct (Get429BackoffTime_permanent E r d e Hget) as [inner ->].
  exists inner. split; [reflexivity|]. unfold doWithRetries.
  rewrite (bind_Returns _ _ _ _ _
             (Retry_permanent E fuel _ captured_bOff _ _ _ _ _ inner
                (api_operation_no_delay E config Hdumps _ None None req w r d _
                   Hdo Hstatus Hdrain Hget) eq_refl)).
  reflexivity.
Qed.

Lemma X10_unusable_429_headers_witness :
  doWithRetries (scripted (fun _ => inl response429_no_reset) no_decode) 1 config0
    context_TODO request0 world0
  = (Returns (request0,
              (Some response429_no_reset,
               Some (fmt_Errorf_w "X-Rate-Limit-Reset header is missing or invalid: "
                       (library_error "strconv.Atoi" "invalid syntax")))),
     log (EvSend 0 request0) world0).
Proof.
  destruct (X10_unusable_429_headers
              (scripted (fun _ => inl response429_no_reset) no_decode) 0 config0
              context_TODO request0 world0 response429_no_reset 0
              (backoff_Permanent
                 (fmt_Errorf_w "X-Rate-Limit-Reset header is missing or invalid: "
                    (library_error "strconv.Atoi" "invalid syntax"))))
    as (inner & Heq & Hrun).
  - intros Hdebug. discriminate Hdebug.
  - reflexivity.
  - reflexivity.
  - reflexivity.
  - vm_compute. reflexivity.
  - injection Heq as <-. exact Hrun.
Defined.

(** X11.  A 429 answer whose body cannot be drained does not use up the
    retry budget either: the closure returns the error of the body before
    it counts the retry, so against an endpoint that keeps answering so,
    [doWithRetries] with [MaxRetries >= 0] never returns; however many
    attempts [n] it is allowed, it makes them all without a wait. *)
Theorem X11_undrained_429_retried_without_bound (E : Env) (config : Configuration)
    (c : Context) (req : Request) (r : Response) (e : error) :
  dumps_work E config ->
  Done_at c = None ->
  0 <= RateLimit_MaxRetries config ->
  (forall n q, http_Do E n q = inl r) ->
  StatusCode r = 429 ->
  tryDrainBody r = Some e ->
  as_Permanent e = None ->
  forall (n : nat) (w : World),
  exists w',
    doWithRetries E n config c req w = (OutOfFuel, w') /\
    sent w' = sent w ++ repeat req n /\
    now w' = now w.
Proof.
  intros Hdumps Hctx Hmax Hdo Hstatus Hdrain Hperm n w.
  destruct (api_Retry_spin E config c req Hctx
              {| retryCount := 0; maxRetries := RateLimit_MaxRetries config;
                 backoffDuration := 0; ctx := c |} eq_refl Hmax
              ltac:(discriminate)) with (n := n) (resp0 := @None Response)
              (err0 := @None error) (w := w)
    as (w' & Hrun & Hsent & Hnow).
  { intros resp0 err0 w0. exists (Some r), (Some e), e.
    split; [|exact Hperm].
    apply (api_operation_drain E config Hdumps _ resp0 err0 req w0 r e (Hdo _ _)
             Hstatus Hdrain). }
  exists w'. unfold doWithRetries, bind. rewrite Hrun.
  split; [reflexivity|]. split; [exact Hsent|].
  rewrite Hnow. cbn [backoffDuration]. lia.
Qed.

Lemma X11_undrained_429_retried_without_bound_witness :
  exists w',
    doWithRetries (scripted (fun _ => inl response429_broken_body) no_decode) 7 config0
      context_TODO request0 world0
    = (OutOfFuel, w') /\
    sent w' = sent world0 ++ repeat request0 7 /\
    now w' = now world0.
Proof.
  apply (X11_undrained_429_retried_without_bound
           (scripted (fun _ => inl response429_broken_body) no_decode) config0
           context_TODO request0 response429_broken_body
           (library_error "net/http" "unexpected EOF")).
  - intros Hdebug. discriminate Hdebug.
  - reflexivity.
  - cbn. lia.
  - reflexivity.
  - reflexivity.
  - reflexivity.
  - reflexivity.
Defined.

(** ** Calls of [do] *)

#[export] Instance MapCache_stores : CacheStores (gmap string Response).
Proof.
  split; intros c key r t t'; cbn.
  - rewrite lookup_insert_eq. apply bool_decide_eq_true. eauto.
  - apply lookup_insert_eq.
Qed.

Section DoAnswers.
Context (E : Env) {C : Type} `{Cache C}.

Lemma rateLimitGate_open (c : APIClient C) (c0 : Context) (w : World) :
  gate_open c ->
  rateLimitGate E c c0 w
  = (Returns None, if RateLimit_Enable (cfg c) then log EvRateLimit w else w).
Proof.
  intros Hopen. unfold rateLimitGate.
  destruct (RateLimit_Enable (cfg c)); [|reflexivity].
  unfold bind, emit, ret.
  destruct (rateLimit c) as [limit|] eqn:Hlimit; [|reflexivity].
  specialize (Hopen limit Hlimit).
  destruct (Z.leb_spec (Remaining limit) 0) as [|_]; [lia|reflexivity].
Qed.

Lemma doWithRetries_answer fuel config (c0 : Context) (req : Request) (w : World)
    (r : Response) :
  dumps_work E config ->
  http_Do E (length (sent w)) req = inl r ->
  StatusCode r <> 429 ->
  doWithRetries E (S fuel) config c0 req w
  = (Returns (req, (Some r, None)), log (EvSend (now w) req) w).
Proof.
  intros Hdumps Hdo Hstatus. unfold doWithRetries.
  rewrite (bind_Returns _ _ _ _ _
             (Retry_first E fuel _ captured_bOff _ _ _ _
                (api_operation_answer E config Hdumps _ None None req w r
                   Hdo Hstatus))).
  reflexivity.
Qed.

(** A call that is not served from the cache, the rate limit being open,
    on a GET whose first attempt the endpoint answers with a 2xx. *)
Lemma do_get_answer fuel (c : APIClient C) (c0 : Context) (req : Request)
    (w : World) (r : Response) :
  Method req = MethodGet ->
  gate_open c ->
  dumps_work E (cfg c) ->
  http_Do E (length (sent w)) req = inl r ->
  200 <= StatusCode r <= 299 ->
  freshcache c = true \/ Cache_Has (cache c) (CreateCacheKey E req) (now w) = false ->
  exists c1 w1,
    do E (S fuel) c c0 req w = (Returns (c1, req, (Some r, None)), w1) /\
    sent w1 = sent w ++ [req] /\
    now w1 = now w /\
    cfg c1 = cfg c /\
    freshcache c1 = false /\
    cache c1
    = Cache_Set (if freshcache c then Cache_Delete (cache c) (CreateCacheKey E req)
                 else cache c) (CreateCacheKey E req) r (now w) /\
    rateLimit c1 = tracked_limit E (cfg c) r (rateLimit c).
Proof.
  intros Hget Hopen Hdumps Hdo Hstatus Hmiss.
  unfold do. rewrite Hget. cbn [String.eqb negb].
  change (String.eqb MethodGet MethodGet) with true. cbn [negb].
  unfold bind at 1. unfold ret at 1.
  unfold bind at 1. unfold cache_Has at 1. unfold bind at 1, emit at 1.
  unfold bind at 1, time_Now at 1, ret at 1. cbn [now log].
  set (key := CreateCacheKey E req) in *.
  set (w0 := log (EvCacheHas key) w).
  assert (Hs0 : sent w0 = sent w) by (apply sent_log_other; reflexivity).
  assert (Hdispatch : forall (c2 : APIClient C) (w2 : World),
            cfg c2 = cfg c -> rateLimit c2 = rateLimit c ->
            sent w2 = sent w -> now w2 = now w ->
            exists c1 w1,
              dispatch E (S fuel) c2 c0 req key w2
              = (Returns (c1, req, (Some r, None)), w1) /\
              sent w1 = sent w ++ [req] /\ now w1 = now w /\
              cfg c1 = cfg c /\ freshcache c1 = freshcache c2 /\
              cache c1 = Cache_Set (cache c2) key r (now w) /\
              rateLimit c1 = tracked_limit E (cfg c) r (rateLimit c)).
  { intros c2 w2 Hcfg Hlimit Hs2 Hn2. unfold dispatch.
    assert (Hopen2 : gate_open c2).
    { intros limit Hl. apply Hopen. rewrite <- Hlimit. exact Hl. }
    rewrite (bind_Returns _ _ _ _ _ (rateLimitGate_open c2 c0 w2 Hopen2)).
    set (wg := if RateLimit_Enable (cfg c2) then log EvRateLimit w2 else w2).
    assert (Hsg : sent wg = sent w).
    { unfold wg. destruct (RateLimit_Enable (cfg c2)); [|exact Hs2].
      rewrite sent_log_other by reflexivity. exact Hs2. }
    assert (Hng : now wg = now w).
    { unfold wg. destruct (RateLimit_Enable (cfg c2)); exact Hn2. }
    assert (Hdo2 : http_Do E (length (sent wg)) req = inl r)
      by (rewrite Hsg; exact Hdo).
    rewrite Hcfg in *.
    rewrite (bind_Returns _ _ _ _ _
               (doWithRetries_answer fuel (cfg c) c0 req wg r Hdumps Hdo2
                  ltac:(lia))).
    cbv beta iota. rewrite Hget.
    change (String.eqb MethodGet MethodGet) with true.
    destruct (Z.leb_spec 200 (StatusCode r)) as [_|]; [|lia].
    destruct (Z.leb_spec (StatusCode r) 299) as [_|]; [|lia].
    cbn [andb]. unfold cache_Set, bind, emit, time_Now, ret. cbn [now log].
    eexists _, _. split; [reflexivity|].
    split; [rewrite sent_log_other by reflexivity;
            rewrite sent_log_send, Hsg; reflexivity|].
    split; [cbn [now log]; exact Hng|].
    unfold tracked_limit. rewrite Hng.
    destruct (RateLimit_Enable (cfg c)).
    - destruct (parseLimitHeaders E r) as [newLimit [e|]];
        cbn [cfg freshcache cache rateLimit set_cache set_rateLimit];
        rewrite ?Hcfg, ?Hlimit; repeat split; reflexivity.
    - cbn [cfg freshcache cache rateLimit set_cache set_rateLimit].
      rewrite ?Hcfg, ?Hlimit. repeat split; reflexivity. }
  destruct (freshcache c) eqn:Hfresh.
  - unfold bind at 1, cache_Delete at 1, bind at 1, emit at 1, ret at 1.
    unfold ret at 1. cbn [negb].
    destruct (Hdispatch
                (set_freshcache (set_cache c (Cache_Delete (cache c) key)) false)
                (log (EvCacheDelete key) w0))
      as (c1 & w1 & Hrun & Hsent & Hnow & Hcfg & Hf & Hcache & Hlimit);
      [reflexivity|reflexivity| |reflexivity|].
    { rewrite sent_log_other by reflexivity. exact Hs0. }
    exists c1, w1. split; [exact Hrun|]. split; [exact Hsent|].
    split; [exact Hnow|]. split; [exact Hcfg|]. split; [exact Hf|].
    split; [exact Hcache|exact Hlimit].
  - destruct Hmiss as [Hf|Hmiss]; [discriminate Hf|].
    unfold bind at 1, ret at 1. rewrite Hmiss. cbn [negb].
    destruct (Hdispatch c w0) as (c1 & w1 & Hrun & Hsent & Hnow & Hcfg & Hf & Hcache
                                  & Hlimit);
      [reflexivity|reflexivity|exact Hs0|reflexivity|].
    exists c1, w1. split; [exact Hrun|]. split; [exact Hsent|].
    split; [exact Hnow|]. split; [exact Hcfg|]. split; [congruence|].
    split; [exact Hcache|exact Hlimit].
Qed.

(** A call served from the cache. *)
Lemma do_get_hit fuel (c : APIClient C) (c0 : Context) (req : Request) (w : World) :
  Method req = MethodGet ->
  freshcache c = false ->
  Cache_Has (cache c) (CreateCacheKey E req) (now w) = true ->
  do E fuel c c0 req w
  = (Returns (c, req, (Cache_Get (cache c) (CreateCacheKey E req) (now w), None)),
     log (EvCacheGet (CreateCacheKey E req)) (log (EvCacheHas (CreateCacheKey E req)) w)).
Proof.
  intros Hget Hfresh Hhit. unfold do. rewrite Hget.
  change (String.eqb MethodGet MethodGet) with true. cbn [negb].
  unfold cache_Has, cache_Get, bind, emit, time_Now, ret. cbn [now log].
  rewrite Hfresh, Hhit. reflexivity.
Qed.
End DoAnswers.
(** X12.  A GET that misses the cache, whose first attempt the endpoint
    answers with a 2xx, returns that answer after one request and stores it
    under the key of the request: with a cache that keeps what it is given,
    every later call of [do] for a GET with the same key returns the same
    answer without sending anything and without a wait. *)
Theorem X12_answer_cached_then_served (E : Env) {C : Type} `{CacheStores C}
    (fuel : nat) (c : APIClient C) (c0 : Context) (req : Request) (w : World)
    (r : Response) :
  Method req = MethodGet ->
  freshcache c = false ->
  Cache_Has (cache c) (CreateCacheKey E req) (now w) = false ->
  gate_open c ->
  dumps_work E (cfg c) ->
  http_Do E (length (sent w)) req = inl r ->
  200 <= StatusCode r <= 299 ->
  exists c1 w1,
    do E (S fuel) c c0 req w = (Returns (c1, req, (Some r, None)), w1) /\
    sent w1 = sent w ++ [req] /\
    forall fuel2 c2 req2 w2,
      Method req2 = MethodGet ->
      CreateCacheKey E req2 = CreateCacheKey E req ->
      exists w2',
        do E fuel2 c1 c2 req2 w2 = (Returns (c1, req2, (Some r, None)), w2') /\
        sent w2' = sent w2 /\ now w2' = now w2.
Proof.
  intros Hget Hfresh Hmiss Hopen Hdumps Hdo Hstatus.
  destruct (do_get_answer E fuel c c0 req w r Hget Hopen Hdumps Hdo Hstatus
              (or_intror Hmiss))
    as (c1 & w1 & Hrun & Hsent & _ & _ & Hfresh1 & Hcache & _).
  exists c1, w1. split; [exact Hrun|]. split; [exact Hsent|].
  intros fuel2 c2 req2 w2 Hget2 Hkey.
  eexists. split.
  - rewrite (do_get_hit E fuel2 c1 c2 req2 w2 Hget2 Hfresh1).
    + rewrite Hkey, Hcache, Get_Set. reflexivity.
    + rewrite Hkey, Hcache. apply Has_Set.
  - split; [|reflexivity].
    rewrite !sent_log_other by reflexivity. reflexivity.
Qed.

Lemma X12_answer_cached_then_served_witness :
  exists c1 w1,
    do (scripted (fun _ => inl response200_limited) no_decode) 1 (client_fresh ∅)
      context_TODO request0 world0
    = (Returns (c1, request0, (Some response200_limited, None)), w1) /\
    sent w1 = sent world0 ++ [request0] /\
    forall fuel2 c2 req2 w2,
      Method req2 = MethodGet ->
      CreateCacheKey (scripted (fun _ => inl response200_limited) no_decode) req2
      = CreateCacheKey (scripted (fun _ => inl response200_limited) no_decode) request0 ->
      exists w2',
        do (scripted (fun _ => inl response200_limited) no_decode) fuel2 c1 c2 req2 w2
        = (Returns (c1, req2, (Some response200_limited, None)), w2') /\
        sent w2' = sent w2 /\ now w2' = now w2.
Proof.
  apply (X12_answer_cached_then_served
           (scripted (fun _ => inl response200_limited) no_decode) 0 (client_fresh ∅)
           context_TODO request0 world0 response200_limited).
  - reflexivity.
  - reflexivity.
  - reflexivity.
  - intros limit Hlimit. discriminate Hlimit.
  - intros Hdebug. discriminate Hdebug.
  - reflexivity.
  - cbn. lia.
Defined.

(** X13.  After [RefreshNext], the next GET is not served from the cache,
    whatever the cache holds: the request is sent, the 2xx answer replaces
    the entry of its key and the flag is cleared, so that the calls after
    it are served from the cache again, with the new answer. *)
Theorem X13_refresh_next_bypasses_once (E : Env) {C : Type} `{CacheStores C}
    (fuel : nat) (c : APIClient C) (c0 : Context) (req : Request) (w : World)
    (r : Response) :
  Method req = MethodGet ->
  gate_open c ->
  dumps_work E (cfg c) ->
  http_Do E (length (sent w)) req = inl r ->
  200 <= StatusCode r <= 299 ->
  exists c1 w1,
    do E (S fuel) (RefreshNext c) c0 req w
    = (Returns (c1, req, (Some r, None)), w1) /\
    sent w1 = sent w ++ [req] /\
    freshcache c1 = false /\
    forall fuel2 c2 req2 w2,
      Method req2 = MethodGet ->
      CreateCacheKey E req2 = CreateCacheKey E req ->
      exists w2',
        do E fuel2 c1 c2 req2 w2 = (Returns (c1, req2, (Some r, None)), w2') /\
        sent w2' = sent w2 /\ now w2' = now w2.
Proof.
  intros Hget Hopen Hdumps Hdo Hstatus.
  destruct (do_get_answer E fuel (RefreshNext c) c0 req w r Hget Hopen Hdumps Hdo
              Hstatus (or_introl eq_refl))
    as (c1 & w1 & Hrun & Hsent & _ & _ & Hfresh1 & Hcache & _).
  exists c1, w1. split; [exact Hrun|]. split; [exact Hsent|].
  split; [exact Hfresh1|].
  intros fuel2 c2 req2 w2 Hget2 Hkey.
  eexists. split.
  - rewrite (do_get_hit E fuel2 c1 c2 req2 w2 Hget2 Hfresh1).
    + rewrite Hkey, Hcache, Get_Set. reflexivity.
    + rewrite Hkey, Hcache. apply Has_Set.
  - split; [|reflexivity].
    rewrite !sent_log_other by reflexivity. reflexivity.
Qed.

Lemma X13_refresh_next_bypasses_once_witness :
  exists c1 w1,
    do (scripted (fun _ => inl response200_limited) no_decode) 1
      (RefreshNext
         (client_fresh {[ "GET https://example.okta.com/api/v1/users" := response200 ]}))
      context_TODO request0 world0
    = (Returns (c1, request0, (Some response200_limited, None)), w1) /\
    sent w1 = sent world0 ++ [request0] /\
    freshcache c1 = false /\
    forall fuel2 c2 req2 w2,
      Method req2 = MethodGet ->
      CreateCacheKey (scripted (fun _ => inl response200_limited) no_decode) req2
      = CreateCacheKey (scripted (fun _ => inl response200_limited) no_decode) request0 ->
      exists w2',
        do (scripted (fun _ => inl response200_limited) no_decode) fuel2 c1 c2 req2 w2
        = (Returns (c1, req2, (Some response200_limited, None)), w2') /\
        sent w2' = sent w2 /\ now w2' = now w2.
Proof.
  apply (X13_refresh_next_bypasses_once
           (scripted (fun _ => inl response200_limited) no_decode) 0
           (client_fresh {[ "GET https://example.okta.com/api/v1/users" := response200 ]})
           context_TODO request0 world0 response200_limited).
  - reflexivity.
  - intros limit Hlimit. discriminate Hlimit.
  - intros Hdebug. discriminate Hdebug.
  - reflexivity.
  - cbn. lia.
Defined.

(** X14.  With rate limiting enabled, a 2xx answer to a GET that is not
    served from the cache sets the tracked limit from its headers when the
    four of them parse, [Reset] being the reset epoch minus the date of the
    answer plus one; when one of them does not parse, the limit tracked
    before is kept as it was. *)
Theorem X14_limit_tracked (E : Env) {C : Type} `{Cache C}
    (fuel : nat) (c : APIClient C) (c0 : Context) (req : Request) (w : World)
    (r : Response) :
  Method req = MethodGet ->
  freshcache c = true \/ Cache_Has (cache c) (CreateCacheKey E req) (now w) = false ->
  gate_open c ->
  dumps_work E (cfg c) ->
  http_Do E (length (sent w)) req = inl r ->
  200 <= StatusCode r <= 299 ->
  RateLimit_Enable (cfg c) = true ->
  exists c1 w1,
    do E (S fuel) c c0 req w = (Returns (c1, req, (Some r, None)), w1) /\
    (forall limit remaining date reset,
       Atoi (Header_Get (resp_Header r) "X-Rate-Limit-Limit") = (limit, None) ->
       Atoi (Header_Get (resp_Header r) "X-Rate-Limit-Remaining") = (remaining, None) ->
       time_Parse E http_TimeFormat (Header_Get (resp_Header r) "Date") = inl date ->
       Atoi (Header_Get (resp_Header r) "X-Rate-Limit-Reset") = (reset, None) ->
       rateLimit c1 = Some {| Limit := limit; Remaining := remaining;
                              Reset := int64 (reset - date + 1) |}) /\
    (snd (Atoi (Header_Get (resp_Header r) "X-Rate-Limit-Limit")) <> None \/
     snd (Atoi (Header_Get (resp_Header r) "X-Rate-Limit-Remaining")) <> None \/
     snd (Atoi (Header_Get (resp_Header r) "X-Rate-Limit-Reset")) <> None \/
     (exists e, time_Parse E http_TimeFormat (Header_Get (resp_Header r) "Date") = inr e) ->
     rateLimit c1 = rateLimit c).
Proof.
  intros Hget Hmiss Hopen Hdumps Hdo Hstatus Henable.
  destruct (do_get_answer E fuel c c0 req w r Hget Hopen Hdumps Hdo Hstatus Hmiss)
    as (c1 & w1 & Hrun & _ & _ & _ & _ & _ & Hlimit).
  exists c1, w1. split; [exact Hrun|].
  unfold tracked_limit in Hlimit. rewrite Henable in Hlimit.
  unfold parseLimitHeaders, Get429BackoffTime, http_TimeFormat in *.
  split.
  - intros limit remaining date reset Hl Hr Hd Hx.
    rewrite Hl, Hr, Hd, Hx in Hlimit. rewrite int64_add_l in Hlimit. exact Hlimit.
  - intros Hbad.
    destruct (Atoi (Header_Get (resp_Header r) "X-Rate-Limit-Limit")) as [l [e|]];
      [exact Hlimit|].
    destruct (Atoi (Header_Get (resp_Header r) "X-Rate-Limit-Remaining")) as [m [e|]];
      [exact Hlimit|].
    destruct (time_Parse E _ (Header_Get (resp_Header r) "Date")) as [d|e];
      [|exact Hlimit].
    destruct (Atoi (Header_Get (resp_Header r) "X-Rate-Limit-Reset")) as [x [e|]];
      [exact Hlimit|].
    cbn in Hbad. destruct Hbad as [Hb|[Hb|[Hb|[e Hb]]]]; try contradiction.
    discriminate Hb.
Qed.

Lemma X14_limit_tracked_witness :
  exists c1 w1,
    do (scripted (fun _ => inl response200_limited) no_decode) 1 (client_fresh ∅)
      context_TODO request0 world0
    = (Returns (c1, request0, (Some response200_limited, None)), w1) /\
    rateLimit c1 = Some {| Limit := 600; Remaining := 0; Reset := 61 |}.
Proof.
  destruct (X14_limit_tracked
              (scripted (fun _ => inl response200_limited) no_decode) 0 (client_fresh ∅)
              context_TODO request0 world0 response200_limited)
    as (c1 & w1 & Hrun & Hok & _).
  - reflexivity.
  - right. reflexivity.
  - intros limit Hlimit. discriminate Hlimit.
  - intros Hdebug. discriminate Hdebug.
  - reflexivity.
  - cbn. lia.
  - reflexivity.
  - exists c1, w1. split; [exact Hrun|].
    apply (Hok 600 0 100 160); vm_compute; reflexivity.
Defined.
Section DoFrame.
Context (E : Env) {C : Type} `{Cache C}.

Lemma dispatch_frame fuel (c : APIClient C) (c0 : Context) (req : Request)
    (key : string) (w : World) c1 req1 resp err w1 :
  dispatch E fuel c c0 req key w = (Returns (c1, req1, (resp, err)), w1) ->
  cfg c1 = cfg c /\ freshcache c1 = freshcache c /\
  (err <> None -> resp = None) /\
  (rateLimit c1 <> rateLimit c ->
   Method req = MethodGet /\ RateLimit_Enable (cfg c) = true /\
   exists r, resp = Some r /\ err = None /\ 200 <= StatusCode r <= 299 /\
             parseLimitHeaders E r = (rateLimit c1, None)) /\
  (cache c1 <> cache c ->
   Method req = MethodGet /\
   exists r t, resp = Some r /\ err = None /\ 200 <= StatusCode r <= 299 /\
               cache c1 = Cache_Set (cache c) key r t).
Proof.
  unfold dispatch. intros Hrun.
  apply bind_inv in Hrun as (cancelled & wg & _ & Hrun).
  destruct cancelled as [e|].
  { unfold ret in Hrun. inversion Hrun; subst.
    split; [reflexivity|]. split; [reflexivity|]. split; [intros _; reflexivity|].
    split; intros Hne; contradiction. }
  apply bind_inv in Hrun as ([req' [resp' err']] & wd & Hdo & Hrun).
  destruct (doWithRetries_step E fuel (cfg c) c0 req wg _ wd Hdo) as [_ Hmethod].
  specialize (Hmethod req' (resp', err') eq_refl).
  destruct err' as [e|].
  { unfold ret in Hrun. inversion Hrun; subst.
    split; [reflexivity|]. split; [reflexivity|]. split; [intros _; reflexivity|].
    split; intros Hne; contradiction. }
  destruct resp' as [r|]; [|discriminate Hrun].
  destruct ((200 <=? StatusCode r) && (StatusCode r <=? 299)
            && String.eqb (Method req') MethodGet) eqn:Hok.
  2:{ unfold ret in Hrun. inversion Hrun; subst.
      split; [reflexivity|]. split; [reflexivity|].
      split; [intros Hne; contradiction|].
      split; intros Hne; contradiction. }
  apply andb_prop in Hok as [Hok Hget]. apply andb_prop in Hok as [Hlo Hhi].
  apply Z.leb_le in Hlo, Hhi. apply String.eqb_eq in Hget.
  unfold cache_Set, bind, emit, time_Now, ret in Hrun.
  assert (Hm : Method req = MethodGet) by congruence.
  destruct (RateLimit_Enable (cfg c)) eqn:Henable.
  - destruct (parseLimitHeaders E r) as [newLimit [e|]] eqn:Hparse;
      inversion Hrun; subst; cbn [cfg freshcache rateLimit cache set_cache set_rateLimit].
    + split; [reflexivity|]. split; [reflexivity|].
      split; [intros Hne; contradiction|].
      split; [intros Hne; contradiction|].
      intros _. split; [exact Hm|]. eexists _, _.
      split; [reflexivity|]. split; [reflexivity|]. split; [lia|reflexivity].
    + split; [reflexivity|]. split; [reflexivity|].
      split; [intros Hne; contradiction|].
      split.
      * intros _. split; [exact Hm|]. split; [reflexivity|]. exists r.
        split; [reflexivity|]. split; [reflexivity|]. split; [lia|exact Hparse].
      * intros _. split; [exact Hm|]. eexists _, _.
        split; [reflexivity|]. split; [reflexivity|]. split; [lia|reflexivity].
  - inversion Hrun; subst; cbn [cfg freshcache rateLimit cache set_cache].
    split; [reflexivity|]. split; [reflexivity|].
    split; [intros Hne; contradiction|].
    split; [intros Hne; contradiction|].
    intros _. split; [exact Hm|]. eexists _, _.
    split; [reflexivity|]. split; [reflexivity|]. split; [lia|reflexivity].
Qed.
End DoFrame.

(** X15.  What a call of [do] that returns leaves of the client: the
    configuration is the same and the refresh flag is cleared; an error
    comes without a response; and the tracked rate limit is changed by
    nothing but a 2xx answer to a GET, with rate limiting enabled, whose
    headers [parseLimitHeaders] accepts.  A call for another method, an
    answer with another status or a call served from the cache leaves the
    limit as it was. *)
Theorem X15_do_frame (E : Env) {C : Type} `{Cache C}
    (fuel : nat) (c : APIClient C) (c0 : Context) (req : Request) (w : World)
    (c1 : APIClient C) (req1 : Request) (resp : option Response)
    (err : option error) (w1 : World) :
  do E fuel c c0 req w = (Returns (c1, req1, (resp, err)), w1) ->
  cfg c1 = cfg c /\
  freshcache c1 = false /\
  (err <> None -> resp = None) /\
  (rateLimit c1 <> rateLimit c ->
   Method req = MethodGet /\ RateLimit_Enable (cfg c) = true /\
   exists r, resp = Some r /\ err = None /\ 200 <= StatusCode r <= 299 /\
             parseLimitHeaders E r = (rateLimit c1, None)).
Proof.
  unfold do. intros Hrun.
  apply bind_inv in Hrun as (ca & wa & Ha & Hrun).
  assert (Hca : cfg ca = cfg c /\ freshcache ca = freshcache c /\
                rateLimit ca = rateLimit c).
  { destruct (negb (String.eqb (Method req) MethodGet)).
    - unfold cache_Delete, bind, emit, ret in Ha. inversion Ha; subst.
      repeat split; reflexivity.
    - unfold ret in Ha. inversion Ha; subst. repeat split; reflexivity. }
  destruct Hca as (Hcfg & Hfresh & Hlimit). clear Ha.
  apply bind_inv in Hrun as (inCache & wb & _ & Hrun).
  apply bind_inv in Hrun as ([cb inCache'] & wc & Hb & Hrun).
  assert (Hcb : cfg cb = cfg c /\ freshcache cb = false /\ rateLimit cb = rateLimit c).
  { destruct (freshcache ca) eqn:Hf.
    - unfold cache_Delete, bind, emit, ret in Hb. inversion Hb; subst.
      repeat split; assumption.
    - unfold ret in Hb. inversion Hb; subst. repeat split; assumption. }
  destruct Hcb as (Hcfgb & Hfreshb & Hlimitb). clear Hb.
  destruct inCache'; cbn [negb] in Hrun.
  - apply bind_inv in Hrun as (cached & wd & _ & Hrun).
    unfold ret in Hrun. inversion Hrun; subst.
    split; [exact Hcfgb|]. split; [exact Hfreshb|].
    split; [intros Hne; contradiction|].
    intros Hne. contradiction.
  - apply dispatch_frame in Hrun as (Hc1 & Hf1 & Herr & Hl1 & _).
    split; [congruence|]. split; [congruence|]. split; [exact Herr|].
    intros Hne. rewrite <- Hcfgb. apply Hl1. congruence.
Qed.

Lemma X15_do_frame_witness :
  let E := scripted (fun _ => inl response401) decode in
  let w1 :=
    {| now := 61000000000; uuids := 0; keys := 0;
       trace := [ EvCacheDelete "POST https://example.okta.com/api/v1/users";
                  EvCacheHas "POST https://example.okta.com/api/v1/users";
                  EvRateLimit;
                  EvTimer 0 61000000000;
                  EvSend 61000000000 request_post ] |} in
  do E 1 client_post context_TODO request_post world0
  = (Returns (client_of ∅, request_post, (Some response401, None)), w1) /\
  cfg (client_of ∅) = cfg client_post /\
  freshcache (client_of ∅) = false /\
  (@None error <> None -> Some response401 = None) /\
  (rateLimit (client_of ∅) <> rateLimit client_post ->
   Method request_post = MethodGet /\ RateLimit_Enable (cfg client_post) = true /\
   exists r, Some response401 = Some r /\ @None error = None /\
             200 <= StatusCode r <= 299 /\
             parseLimitHeaders E r = (rateLimit (client_of ∅), None)).
Proof.
  intros E w1.
  assert (Hrun : do E 1 client_post context_TODO request_post world0
                 = (Returns (client_of ∅, request_post, (Some response401, None)), w1))
    by (vm_compute; reflexivity).
  split; [exact Hrun|].
  exact (X15_do_frame E 1 client_post context_TODO request_post world0 _ _ _ _ _ Hrun).
Defined.

(** ** The cached branch of [Authorize] with a DPoP credential *)

Section CachedBranch.
Context (E : Env).

(** The cached branch with a nonce, a key and a token of two words. *)
Lemma authorizeFromCache_dpop tokenCache req method target w s typ tok n key :
  Split s " " = [typ; tok] ->
  goCache_Get tokenCache DpopAccessTokenNonce (now w) = (AnyString n, true) ->
  n <> EmptyString ->
  goCache_Get tokenCache DpopAccessTokenPrivateKey (now w)
  = (AnyRsaKey (Some key), true) ->
  dpop_NewSigner_err E key = None ->
  (forall c, dpop_Serialize_err E key c = None) ->
  exists req',
    authorizeFromCache E tokenCache req method target (AnyString s) w
    = (Returns (req', None), next_uuid w) /\
    Header_Values (Header req') "Authorization"
    = Header_Values (Header req) "Authorization" ++ [HStr s] /\
    Header_Values (Header req') "Dpop"
    = [HJwt (dpop_proof E key method target n tok w)] /\
    Header_Values (Header req') "x-okta-user-agent-extended" = [HStr "isDPoP:true"].
Proof.
  intros Hsplit Hnonce Hn Hkey Hsigner Hser.
  unfold authorizeFromCache, tokenCache_Get. cbn [assert_string].
  unfold bind at 1. unfold ret at 1. unfold bind at 1 2.
  unfold time_Now at 1. unfold ret at 1. rewrite Hnonce.
  apply String.eqb_neq in Hn. cbn [any_ne_empty_string andb]. rewrite Hn. cbn [negb].
  unfold bind at 1 2. unfold time_Now at 1. unfold ret at 1. rewrite Hkey.
  cbn [any_ne_nil andb]. rewrite Hsplit. cbn [length Nat.eqb negb nth].
  cbn [assert_rsa assert_string]. unfold bind at 1. unfold ret at 1.
  unfold bind at 1. unfold ret at 1.
  rewrite (bind_Returns _ _ _ _ _
             (generateDpopJWT_run E key method target n tok w Hsigner Hser)).
  cbv beta iota. unfold ret.
  eexists. split; [reflexivity|].
  cbn [set_Header Header hval_of_jwt].
  split; [|split].
  - rewrite (Header_Values_Set_other _ "x-okta-user-agent-extended")
      by exact Authorization_not_extended.
    rewrite (Header_Values_Set_other _ "Dpop") by exact Authorization_not_Dpop.
    apply Header_Values_Add.
  - rewrite (Header_Values_Set_other _ "x-okta-user-agent-extended")
      by (vm_compute; discriminate).
    apply Header_Values_Set.
  - apply Header_Values_Set.
Qed.

(** The cached branch without a key, or with a token that is not of two
    words. *)
Lemma authorizeFromCache_rejects tokenCache req method target w s n k ok :
  goCache_Get tokenCache DpopAccessTokenNonce (now w) = (AnyString n, true) ->
  n <> EmptyString ->
  goCache_Get tokenCache DpopAccessTokenPrivateKey (now w) = (k, ok) ->
  ok && any_ne_nil k = false \/ length (Split s " ") <> 2%nat ->
  authorizeFromCache E tokenCache req method target (AnyString s) w
  = (Returns (set_Header req (Header_Add (Header req) "Authorization" (HStr s)),
              Some (errors_New
                      (if ok && any_ne_nil k then "Unidentified access token"
                       else "Using Dpop but signing key not found"))), w).
Proof.
  intros Hnonce Hn Hkey Hbad.
  unfold authorizeFromCache, tokenCache_Get. cbn [assert_string].
  unfold bind at 1. unfold ret at 1. unfold bind at 1 2.
  unfold time_Now at 1. unfold ret at 1. rewrite Hnonce.
  apply String.eqb_neq in Hn. cbn [any_ne_empty_string andb]. rewrite Hn. cbn [negb].
  unfold bind at 1 2. unfold time_Now at 1. unfold ret at 1. rewrite Hkey.
  destruct (ok && any_ne_nil k); [|reflexivity].
  destruct Hbad as [Hf|Hlen]; [discriminate Hf|].
  apply Nat.eqb_neq in Hlen. rewrite Hlen. reflexivity.
Qed.

Lemma hit_attaches {A : Type} (cache_of : A -> goCache) (req_of : A -> Request)
    (with_req : A -> Request -> A)
    (authorize : nat -> A -> string -> string -> M (A * option error)) :
  (forall a r, cache_of (with_req a r) = cache_of a) ->
  (forall a r, req_of (with_req a r) = r) ->
  (forall fuel a method target w s,
     goCache_Get (cache_of a) AccessTokenCacheKey (now w) = (AnyString s, true) ->
     s <> EmptyString ->
     authorize fuel a method target w
     = (let* (req', err) :=
          authorizeFromCache E (cache_of a) (req_of a) method target (AnyString s) in
        ret (with_req a req', err)) w) ->
  attaches_cached_dpop_proof E cache_of req_of authorize /\
  rejects_cached_credential cache_of req_of authorize.
Proof.
  intros Hcache Hreq Hhit. split.
  - intros fuel a method target w s typ tok n key Hget Hsplit Hnonce Hn Hkey Hsigner
      Hser.
    assert (Hs : s <> EmptyString) by (intros ->; discriminate Hsplit).
    destruct (authorizeFromCache_dpop (cache_of a) (req_of a) method target w s typ tok
                n key Hsplit Hnonce Hn Hkey Hsigner Hser)
      as (req' & Hrun & Hauth & Hdpop & Hext).
    exists (with_req a req').
    rewrite (Hhit fuel a method target w s Hget Hs), (bind_Returns _ _ _ _ _ Hrun).
    rewrite Hcache, Hreq. auto.
  - intros fuel a method target w s n k ok Hget Hs Hnonce Hn Hkey Hbad.
    eexists.
    rewrite (Hhit fuel a method target w s Hget Hs),
      (bind_Returns _ _ _ _ _
         (authorizeFromCache_rejects (cache_of a) (req_of a) method target w s n k ok
            Hnonce Hn Hkey Hbad)).
    split; [reflexivity|]. rewrite Hcache, Hreq. split; [reflexivity|].
    cbn [set_Header Header]. apply Header_Values_Add.
Qed.
End CachedBranch.

(** X16.  In each of the three token-based [Authorize] methods, a call made
    while the cache holds a live token of two words, a non-empty nonce and
    a key sends nothing and generates no key: it appends the token to
    [Authorization] and sets as [Dpop] header a proof for the method and the
    URL of the call, signed with the cached key, whose nonce is the cached
    one and whose [ath] is that of the second word of the token. *)
Theorem X16_cached_dpop_proof (E : Env) :
  attaches_cached_dpop_proof E PrivateKeyAuth.tokenCache PrivateKeyAuth.req
    (PrivateKeyAuth.Authorize E) /\
  attaches_cached_dpop_proof E JWTAuth.tokenCache JWTAuth.req (JWTAuth.Authorize E) /\
  attaches_cached_dpop_proof E JWKAuth.tokenCache JWKAuth.req (JWKAuth.Authorize E).
Proof.
  split; [|split].
  - apply (hit_attaches E _ _
             (fun a r => PrivateKeyAuth.update a (PrivateKeyAuth.tokenCache a)
                           (PrivateKeyAuth.privateKeySigner a) r));
      [reflexivity|reflexivity|]. apply PrivateKeyAuth_hit.
  - apply (hit_attaches E _ _ (fun a r => JWTAuth.update a (JWTAuth.tokenCache a) r));
      [reflexivity|reflexivity|]. apply JWTAuth_hit.
  - apply (hit_attaches E _ _
             (fun a r => JWKAuth.update a (JWKAuth.tokenCache a)
                           (JWKAuth.privateKeySigner a) r));
      [reflexivity|reflexivity|]. apply JWKAuth_hit.
Qed.

Lemma X16_cached_dpop_proof_witness :
  let E := scripted unreachable no_decode in
  let w := set_now world0 (Seconds 3000) in
  exists a',
    PrivateKeyAuth.Authorize E 0 privateKeyAuth_dpop "GET"
      "https://example.okta.com/api/v1/users" w
    = (Returns (a', None), next_uuid w) /\
    Header_Values (Header (PrivateKeyAuth.req a')) "Authorization" = [HStr "DPoP abc"] /\
    Header_Values (Header (PrivateKeyAuth.req a')) "Dpop"
    = [HJwt (dpop_proof E key0 "GET" "https://example.okta.com/api/v1/users" "abc"
               "abc" w)].
Proof.
  intros E w.
  destruct (X16_cached_dpop_proof E) as [Hattach _].
  destruct (Hattach 0%nat privateKeyAuth_dpop "GET"
              "https://example.okta.com/api/v1/users" w "DPoP abc" "DPoP" "abc" "abc"
              key0)
    as (a' & Hrun & _ & Hauth & Hdpop & _).
  - vm_compute. reflexivity.
  - reflexivity.
  - vm_compute. reflexivity.
  - discriminate.
  - vm_compute. reflexivity.
  - reflexivity.
  - reflexivity.
  - exists a'. split; [exact Hrun|]. split; [exact Hauth|exact Hdpop].
Defined.

(** X17.  In each of the three methods, a call made while the cache holds a
    live token and a non-empty nonce fails with
    [Using Dpop but signing key not found] when the cache gives no key, and
    with [Unidentified access token] when it gives one and the token is not
    made of two words; nothing is sent, the cache is as it was, and the
    token has been appended to [Authorization] before the error. *)
Theorem X17_cached_credential_rejected (E : Env) :
  rejects_cached_credential PrivateKeyAuth.tokenCache PrivateKeyAuth.req
    (PrivateKeyAuth.Authorize E) /\
  rejects_cached_credential JWTAuth.tokenCache JWTAuth.req (JWTAuth.Authorize E) /\
  rejects_cached_credential JWKAuth.tokenCache JWKAuth.req (JWKAuth.Authorize E).
Proof.
  split; [|split].
  - apply (hit_attaches E _ _
             (fun a r => PrivateKeyAuth.update a (PrivateKeyAuth.tokenCache a)
                           (PrivateKeyAuth.privateKeySigner a) r));
      [reflexivity|reflexivity|]. apply PrivateKeyAuth_hit.
  - apply (hit_attaches E _ _ (fun a r => JWTAuth.update a (JWTAuth.tokenCache a) r));
      [reflexivity|reflexivity|]. apply JWTAuth_hit.
  - apply (hit_attaches E _ _
             (fun a r => JWKAuth.update a (JWKAuth.tokenCache a)
                           (JWKAuth.privateKeySigner a) r));
      [reflexivity|reflexivity|]. apply JWKAuth_hit.
Qed.

Lemma X17_cached_credential_rejected_witness :
  let E := scripted unreachable no_decode in
  let w := set_now world0 (Seconds 3000) in
  (exists a',
     PrivateKeyAuth.Authorize E 0
       (PrivateKeyAuth.update privateKeyAuth0 cache_three_words (Some signer0) request0)
       "GET" "https://example.okta.com/api/v1/users" w
     = (Returns (a', Some (errors_New "Unidentified access token")), w) /\
     Header_Values (Header (PrivateKeyAuth.req a')) "Authorization"
     = [HStr "DPoP a b"]) /\
  (exists a',
     PrivateKeyAuth.Authorize E 0
       (PrivateKeyAuth.update privateKeyAuth0 cache_no_key (Some signer0) request0)
       "GET" "https://example.okta.com/api/v1/users" w
     = (Returns (a', Some (errors_New "Using Dpop but signing key not found")), w) /\
     Header_Values (Header (PrivateKeyAuth.req a')) "Authorization"
     = [HStr "DPoP abc"]).
Proof.
  intros E w.
  destruct (X17_cached_credential_rejected E) as [Hreject _].
  split.
  - destruct (Hreject 0%nat
                (PrivateKeyAuth.update privateKeyAuth0 cache_three_words (Some signer0)
                   request0)
                "GET" "https://example.okta.com/api/v1/users" w "DPoP a b" "abc"
                (AnyRsaKey (Some key0)) true)
      as (a' & Hrun & _ & Hauth).
    + vm_compute. reflexivity.
    + discriminate.
    + vm_compute. reflexivity.
    + discriminate.
    + vm_compute. reflexivity.
    + right. vm_compute. discriminate.
    + exists a'. split; [exact Hrun|exact Hauth].
  - destruct (Hreject 0%nat
                (PrivateKeyAuth.update privateKeyAuth0 cache_no_key (Some signer0)
                   request0)
                "GET" "https://example.okta.com/api/v1/users" w "DPoP abc" "abc"
                AnyNil false)
      as (a' & Hrun & _ & Hauth).
    + vm_compute. reflexivity.
    + discriminate.
    + vm_compute. reflexivity.
    + discriminate.
    + vm_compute. reflexivity.
    + left. reflexivity.
    + exists a'. split; [exact Hrun|exact Hauth].
Defined.
Section FailedAuthorize.
Context (E : Env).

Lemma authorizeFromExchange_failure tokenCache req method target result w c r e w' :
  authorizeFromExchange E tokenCache req method target result w
  = (Returns (c, r, Some e), w') ->
  c = tokenCache.
Proof.
  unfold authorizeFromExchange.
  destruct result as [[[accessToken nonce'] privateKey] err].
  destruct err as [e0|]; [unfold ret; intros Heq; inversion Heq; reflexivity|].
  destruct accessToken as [tok|];
    [|unfold ret; intros Heq; inversion Heq; reflexivity].
  intros Hrun. apply bind_inv in Hrun as ([req' err] & w1 & _ & Hrun).
  destruct err as [e1|]; [unfold ret in Hrun; inversion Hrun; reflexivity|].
  unfold tokenCache_Set, bind, time_Now, ret in Hrun. inversion Hrun.
Qed.

Lemma PrivateKeyAuth_failure :
  failure_keeps_cache PrivateKeyAuth.tokenCache (PrivateKeyAuth.Authorize E).
Proof.
  intros fuel a method target w a' e w'. unfold PrivateKeyAuth.Authorize.
  intros Hrun. apply bind_inv in Hrun as ([accessToken hasToken] & w1 & _ & Hrun).
  destruct (hasToken && any_ne_empty_string accessToken).
  - apply bind_inv in Hrun as ([req' err] & w2 & _ & Hrun).
    unfold ret in Hrun. inversion Hrun; reflexivity.
  - destruct (match PrivateKeyAuth.privateKeySigner a with
              | Some s => (Some s, None)
              | None => createKeySigner E (PrivateKeyAuth.privateKey a)
                          (PrivateKeyAuth.privateKeyId a)
              end) as [signer [e0|]].
    { unfold ret in Hrun. inversion Hrun; reflexivity. }
    apply bind_inv in Hrun as ([clientAssertion err] & w2 & _ & Hrun).
    destruct err as [e1|]; [unfold ret in Hrun; inversion Hrun; reflexivity|].
    apply bind_inv in Hrun as (result & w3 & _ & Hrun).
    apply bind_inv in Hrun as ([[c r] err] & w4 & Hex & Hrun).
    unfold ret in Hrun. inversion Hrun; subst.
    apply authorizeFromExchange_failure in Hex. subst c. reflexivity.
Qed.

Lemma JWTAuth_failure : failure_keeps_cache JWTAuth.tokenCache (JWTAuth.Authorize E).
Proof.
  intros fuel a method target w a' e w'. unfold JWTAuth.Authorize.
  intros Hrun. apply bind_inv in Hrun as ([accessToken hasToken] & w1 & _ & Hrun).
  destruct (hasToken && any_ne_empty_string accessToken).
  - apply bind_inv in Hrun as ([req' err] & w2 & _ & Hrun).
    unfold ret in Hrun. inversion Hrun; reflexivity.
  - apply bind_inv in Hrun as (result & w3 & _ & Hrun).
    apply bind_inv in Hrun as ([[c r] err] & w4 & Hex & Hrun).
    unfold ret in Hrun. inversion Hrun; subst.
    apply authorizeFromExchange_failure in Hex. subst c. reflexivity.
Qed.

Lemma JWKAuth_failure : failure_keeps_cache JWKAuth.tokenCache (JWKAuth.Authorize E).
Proof.
  intros fuel a method target w a' e w'. unfold JWKAuth.Authorize.
  intros Hrun. apply bind_inv in Hrun as ([accessToken hasToken] & w1 & _ & Hrun).
  destruct (hasToken && any_ne_empty_string accessToken).
  - apply bind_inv in Hrun as ([req' err] & w2 & _ & Hrun).
    unfold ret in Hrun. inversion Hrun; reflexivity.
  - destruct (convertJWKToPrivateKey E (JWKAuth.jwk a) (JWKAuth.encryptionType a))
      as [privateKey [e0|]].
    { unfold ret in Hrun. inversion Hrun; reflexivity. }
    destruct (match JWKAuth.privateKeySigner a with
              | Some s => (Some s, None)
              | None => createKeySigner E privateKey (JWKAuth.privateKeyId a)
              end) as [signer [e0|]].
    { unfold ret in Hrun. inversion Hrun; reflexivity. }
    apply bind_inv in Hrun as ([clientAssertion err] & w2 & _ & Hrun).
    destruct err as [e1|]; [unfold ret in Hrun; inversion Hrun; reflexivity|].
    apply bind_inv in Hrun as (result & w3 & _ & Hrun).
    apply bind_inv in Hrun as ([[c r] err] & w4 & Hex & Hrun).
    unfold ret in Hrun. inversion Hrun; subst.
    apply authorizeFromExchange_failure in Hex. subst c. reflexivity.
Qed.
End FailedAuthorize.

(** X18.  Whatever the libraries and the endpoint do, a call of one of the
    three token-based [Authorize] methods that returns an error returns the
    token cache as it was: the cache is written only by a call that
    succeeds. *)
Theorem X18_failed_authorize_keeps_cache (E : Env) :
  failure_keeps_cache PrivateKeyAuth.tokenCache (PrivateKeyAuth.Authorize E) /\
  failure_keeps_cache JWTAuth.tokenCache (JWTAuth.Authorize E) /\
  failure_keeps_cache JWKAuth.tokenCache (JWKAuth.Authorize E).
Proof.
  split; [apply PrivateKeyAuth_failure|].
  split; [apply JWTAuth_failure|apply JWKAuth_failure].
Qed.

Lemma X18_failed_authorize_keeps_cache_witness :
  let E := scripted (fun _ => inl response401) decode in
  let run :=
    PrivateKeyAuth.Authorize E 1 privateKeyAuth0 "GET"
      "https://example.okta.com/api/v1/users" world0 in
  run = (Returns (privateKeyAuth0, Some (errors_New "Empty access token")), snd run) /\
  PrivateKeyAuth.tokenCache privateKeyAuth0 = PrivateKeyAuth.tokenCache privateKeyAuth0.
Proof.
  intros E run.
  assert (Hrun : run = (Returns (privateKeyAuth0,
                                 Some (errors_New "Empty access token")), snd run))
    by (vm_compute; reflexivity).
  split; [exact Hrun|].
  destruct (X18_failed_authorize_keeps_cache E) as [Hkeep _].
  exact (Hkeep 1%nat privateKeyAuth0 "GET" "https://example.okta.com/api/v1/users"
           world0 _ _ _ Hrun).
Defined.
Section KeylessDpop.
Context (E : Env).

(** A token of type [DPoP] that comes without a key: the proof cannot be
    built. *)
Lemma authorizeFromExchange_keyless tokenCache req method target tok nonce' w :
  TokenType tok = "DPoP" ->
  authorizeFromExchange E tokenCache req method target (Some tok, nonce', None, None) w
  = (Panics "invalid memory address or nil pointer dereference", w).
Proof.
  intros Htype. unfold authorizeFromExchange. rewrite Htype.
  change (String.eqb "DPoP" "DPoP") with true. reflexivity.
Qed.
End KeylessDpop.

(** X19.  When the exchange returns a token of type [DPoP] without a key,
    as [getAccessTokenForPrivateKey] does when the endpoint grants such a
    token to the first request, which carries no proof, each of the three
    [Authorize] methods panics on the nil key in [generateDpopJWT]: it
    returns no error and stores nothing. *)
Theorem X19_dpop_token_without_key_panics (E : Env) (fuel : nat)
    (method target nonce' : string) (tok : RequestAccessToken) (w w1 : World) :
  TokenType tok = "DPoP" ->
  (forall a signer,
     token_miss (PrivateKeyAuth.tokenCache a) (now w) ->
     PrivateKeyAuth_exchanged E fuel a w signer (Some tok, nonce', None, None) w1 ->
     PrivateKeyAuth.Authorize E fuel a method target w
     = (Panics "invalid memory address or nil pointer dereference", w1)) /\
  (forall a,
     token_miss (JWTAuth.tokenCache a) (now w) ->
     JWTAuth_exchanged E fuel a w (Some tok, nonce', None, None) w1 ->
     JWTAuth.Authorize E fuel a method target w
     = (Panics "invalid memory address or nil pointer dereference", w1)) /\
  (forall a signer,
     token_miss (JWKAuth.tokenCache a) (now w) ->
     JWKAuth_exchanged E fuel a w signer (Some tok, nonce', None, None) w1 ->
     JWKAuth.Authorize E fuel a method target w
     = (Panics "invalid memory address or nil pointer dereference", w1)).
Proof.
  intros Htype. split; [|split].
  - intros a signer Hmiss Hex.
    rewrite (PrivateKeyAuth_exchange E fuel a method target w signer _ w1 Hmiss Hex).
    unfold bind. rewrite authorizeFromExchange_keyless by exact Htype. reflexivity.
  - intros a Hmiss Hex.
    rewrite (JWTAuth_exchange E fuel a method target w _ w1 Hmiss Hex).
    unfold bind. rewrite authorizeFromExchange_keyless by exact Htype. reflexivity.
  - intros a signer Hmiss Hex.
    rewrite (JWKAuth_exchange E fuel a method target w signer _ w1 Hmiss Hex).
    unfold bind. rewrite authorizeFromExchange_keyless by exact Htype. reflexivity.
Qed.

Lemma X19_dpop_token_without_key_panics_witness :
  let E := scripted (fun _ => inl response200) decode in
  let run :=
    PrivateKeyAuth.Authorize E 1 privateKeyAuth0 "GET"
      "https://example.okta.com/api/v1/users" world0 in
  run = (Panics "invalid memory address or nil pointer dereference", snd run) /\
  length (sent (snd run)) = 1%nat.
Proof.
  intros E run. split; [|vm_compute; reflexivity].
  destruct (X19_dpop_token_without_key_panics E 1 "GET"
              "https://example.okta.com/api/v1/users" EmptyString dpop_token world0
              (snd run) eq_refl) as [Hpanic _].
  apply (Hpanic privateKeyAuth0 (Some signer0)).
  - vm_compute. reflexivity.
  - exists "assertion-uuid-0", (next_uuid world0).
    split; [reflexivity|]. split; vm_compute; reflexivity.
Defined.

Section DoGated.
Context (E : Env) {C : Type} `{CacheEvicts C}.

(** The wait of the gate on an exhausted limit, under a context that is
    never done. *)
Lemma rateLimitGate_wait (c : APIClient C) (c0 : Context) (w : World)
    (limit : RateLimit) :
  RateLimit_Enable (cfg c) = true ->
  rateLimit c = Some limit ->
  Remaining limit <= 0 ->
  Done_at c0 = None ->
  exists wg,
    rateLimitGate E c c0 w = (Returns None, wg) /\
    sent wg = sent w /\
    now wg = now w + Z.max 0 (Seconds (Reset limit)).
Proof.
  intros Henable Hlimit Hrem Hctx. unfold rateLimitGate.
  rewrite Henable, Hlimit.
  destruct (Z.leb_spec (Remaining limit) 0) as [_|]; [|lia].
  unfold bind, emit, time_Now, ret, select_timer. rewrite Hctx.
  eexists. split; [reflexivity|].
  split; [|reflexivity].
  unfold sent, set_now, log. cbn [trace].
  rewrite !sent_of_app. cbn [sent_of]. rewrite !app_nil_r. reflexivity.
Qed.

(** A call for a method other than GET, whose first attempt is answered by
    a status other than 429, while the tracked limit is exhausted. *)
Lemma do_gated_answer fuel (c : APIClient C) (c0 : Context) (req : Request)
    (w : World) (r : Response) (limit : RateLimit) :
  Method req <> MethodGet ->
  RateLimit_Enable (cfg c) = true ->
  rateLimit c = Some limit ->
  Remaining limit <= 0 ->
  Done_at c0 = None ->
  dumps_work E (cfg c) ->
  http_Do E (length (sent w)) req = inl r ->
  StatusCode r <> 429 ->
  exists c1 w1,
    do E (S fuel) c c0 req w = (Returns (c1, req, (Some r, None)), w1) /\
    sent w1 = sent w ++ [req] /\
    now w1 = now w + Z.max 0 (Seconds (Reset limit)) /\
    cfg c1 = cfg c /\ rateLimit c1 = Some limit.
Proof.
  intros Hmethod Henable Hlimit Hrem Hctx Hdumps Hdo Hstatus.
  apply String.eqb_neq in Hmethod.
  unfold do. rewrite Hmethod. cbn [negb].
  set (key := CreateCacheKey E req).
  unfold bind at 1, cache_Delete at 1, bind at 1, emit at 1, ret at 1.
  unfold bind at 1, cache_Has at 1, bind at 1, emit at 1.
  unfold bind at 1, time_Now at 1, ret at 1.
  cbn [cache set_cache freshcache now log].
  rewrite Has_Delete.
  assert (Hdispatch : forall (c2 : APIClient C) (w2 : World),
            cfg c2 = cfg c -> rateLimit c2 = rateLimit c ->
            sent w2 = sent w -> now w2 = now w ->
            exists w1,
              dispatch E (S fuel) c2 c0 req key w2
              = (Returns (c2, req, (Some r, None)), w1) /\
              sent w1 = sent w ++ [req] /\
              now w1 = now w + Z.max 0 (Seconds (Reset limit))).
  { intros c2 w2 Hcfg Hl2 Hs2 Hn2. unfold dispatch.
    destruct (rateLimitGate_wait c2 c0 w2 limit) as (wg & Hgate & Hsg & Hng);
      [congruence|congruence|exact Hrem|exact Hctx|].
    rewrite (bind_Returns _ _ _ _ _ Hgate).
    assert (Hdo2 : http_Do E (length (sent wg)) req = inl r) by congruence.
    rewrite Hcfg.
    rewrite (bind_Returns _ _ _ _ _
               (doWithRetries_answer E fuel (cfg c) c0 req wg r Hdumps Hdo2 Hstatus)).
    cbv beta iota. rewrite Hmethod, andb_false_r. unfold ret.
    eexists. split; [reflexivity|].
    split; [rewrite sent_log_send; congruence|].
    cbn [now log]. lia. }
  destruct (freshcache c) eqn:Hfresh.
  - unfold bind at 1, bind at 1, cache_Delete at 1, bind at 1, emit at 1, ret at 1.
    unfold ret at 1. cbn [negb].
    match goal with
    | |- context [dispatch E (S fuel) ?c2 c0 req key ?w2] =>
        destruct (Hdispatch c2 w2) as (w1 & Hrun & Hsent & Hnow)
    end; [reflexivity|reflexivity| |reflexivity|].
    { rewrite !sent_log_other by reflexivity. reflexivity. }
    eexists _, w1. split; [exact Hrun|]. split; [exact Hsent|].
    split; [exact Hnow|]. split; [reflexivity|exact Hlimit].
  - unfold bind at 1, ret at 1. cbn [negb].
    match goal with
    | |- context [dispatch E (S fuel) ?c2 c0 req key ?w2] =>
        destruct (Hdispatch c2 w2) as (w1 & Hrun & Hsent & Hnow)
    end; [reflexivity|reflexivity| |reflexivity|].
    { rewrite !sent_log_other by reflexivity. reflexivity. }
    eexists _, w1. split; [exact Hrun|]. split; [exact Hsent|].
    split; [exact Hnow|]. split; [reflexivity|exact Hlimit].
Qed.
End DoGated.

(** X20.  An exhausted rate limit holds back every call until a GET
    refreshes it: while the tracked limit has nothing remaining, a call of
    [do] for another method, answered with a status other than 429, waits
    the [Reset] seconds of the limit, counted from the call, before it
    sends its request, and leaves the limit as it was; so the call after
    it, made with the client it returns, waits the same time again. *)
Theorem X20_exhausted_limit_delays_every_call (E : Env) {C : Type} `{CacheEvicts C}
    (fuel fuel' : nat) (c : APIClient C) (c0 : Context) (req req' : Request)
    (w : World) (r r' : Response) (limit : RateLimit) :
  Method req <> MethodGet ->
  Method req' <> MethodGet ->
  RateLimit_Enable (cfg c) = true ->
  rateLimit c = Some limit ->
  Remaining limit <= 0 ->
  Done_at c0 = None ->
  dumps_work E (cfg c) ->
  http_Do E (length (sent w)) req = inl r ->
  http_Do E (S (length (sent w))) req' = inl r' ->
  StatusCode r <> 429 ->
  StatusCode r' <> 429 ->
  exists c1 w1 c2 w2,
    do E (S fuel) c c0 req w = (Returns (c1, req, (Some r, None)), w1) /\
    do E (S fuel') c1 c0 req' w1 = (Returns (c2, req', (Some r', None)), w2) /\
    sent w2 = sent w ++ [req; req'] /\
    now w1 = now w + Z.max 0 (Seconds (Reset limit)) /\
    now w2 = now w + 2 * Z.max 0 (Seconds (Reset limit)) /\
    rateLimit c2 = Some limit.
Proof.
  intros Hmethod Hmethod' Henable Hlimit Hrem Hctx Hdumps Hdo Hdo' Hstatus Hstatus'.
  destruct (do_gated_answer E fuel c c0 req w r limit Hmethod Henable Hlimit Hrem Hctx
              Hdumps Hdo Hstatus)
    as (c1 & w1 & Hrun1 & Hsent1 & Hnow1 & Hcfg1 & Hlimit1).
  destruct (do_gated_answer E fuel' c1 c0 req' w1 r' limit Hmethod')
    as (c2 & w2 & Hrun2 & Hsent2 & Hnow2 & _ & Hlimit2);
    [congruence|exact Hlimit1|exact Hrem|exact Hctx|rewrite Hcfg1; exact Hdumps| |
     exact Hstatus'|].
  { rewrite Hsent1, length_app, Nat.add_comm. exact Hdo'. }
  exists c1, w1, c2, w2. split; [exact Hrun1|]. split; [exact Hrun2|].
  split; [rewrite Hsent2, Hsent1, <- app_assoc; reflexivity|].
  split; [exact Hnow1|]. split; [lia|exact Hlimit2].
Qed.

Lemma X20_exhausted_limit_delays_every_call_witness :
  exists c1 w1 c2 w2,
    do (scripted (fun _ => inl response401) decode) 1 client_post context_TODO
      request_post world0
    = (Returns (c1, request_post, (Some response401, None)), w1) /\
    do (scripted (fun _ => inl response401) decode) 1 c1 context_TODO
      request_post w1
    = (Returns (c2, request_post, (Some response401, None)), w2) /\
    sent w2 = sent world0 ++ [request_post; request_post] /\
    now w1 = 61 * time_Second /\
    now w2 = 122 * time_Second /\
    rateLimit c2 = Some limit0.
Proof.
  apply (X20_exhausted_limit_delays_every_call
           (scripted (fun _ => inl response401) decode) 0 0 client_post context_TODO
           request_post request_post world0 response401 response401 limit0).
  - discriminate.
  - discriminate.
  - reflexivity.
  - reflexivity.
  - cbn. lia.
  - reflexivity.
  - intros Hdebug. discriminate Hdebug.
  - reflexivity.
  - reflexivity.
  - vm_compute. discriminate.
  - vm_compute. discriminate.
Defined.
(** ** Debug dumps *)

(** X21.  With [Debug] set, [callAPI] dumps the request before it sends it
    and the answer after: a request whose dump fails is not sent, and an
    answer whose dump fails, a 200 included, is returned by [doWithRetries]
    with the error of the dump, after that one attempt. *)
Theorem X21_debug_dump_failures (E : Env) (fuel : nat) (config : Configuration)
    (c : Context) (req : Request) (w : World) (e : error) :
  Debug config = true ->
  is_EOF e = false ->
  (DumpRequestOut_err E req = Some e ->
   doWithRetries E (S fuel) config c req w = (Returns (req, (None, Some e)), w)) /\
  (forall r,
     DumpRequestOut_err E req = None ->
     http_Do E (length (sent w)) req = inl r ->
     DumpResponse_err E r = Some e ->
     doWithRetries E (S fuel) config c req w
     = (Returns (req, (Some r, Some e)), log (EvSend (now w) req) w)).
Proof.
  intros Hdebug Heof. split.
  - intros Hdump.
    assert (Hop : api_operation E config
                    ({| retryCount := 0; maxRetries := RateLimit_MaxRetries config;
                        backoffDuration := 0; ctx := c |}, None, None, req) w
                  = (Returns
                       (({| retryCount := 0; maxRetries := RateLimit_MaxRetries config;
                            backoffDuration := 0; ctx := c |}, None, Some e, req),
                        Some (backoff_Permanent e)), w)).
    { unfold api_operation, callAPI. rewrite Hdebug, Hdump.
      unfold bind, ret. rewrite Heof. reflexivity. }
    unfold doWithRetries.
    rewrite (bind_Returns _ _ _ _ _
               (Retry_permanent E fuel _ captured_bOff _ _ _ _ _ e Hop eq_refl)).
    reflexivity.
  - intros r Hdump Hdo Hdumpr.
    assert (Hop : api_operation E config
                    ({| retryCount := 0; maxRetries := RateLimit_MaxRetries config;
                        backoffDuration := 0; ctx := c |}, None, None, req) w
                  = (Returns
                       (({| retryCount := 0; maxRetries := RateLimit_MaxRetries config;
                            backoffDuration := 0; ctx := c |}, Some r, Some e, req),
                        Some (backoff_Permanent e)), log (EvSend (now w) req) w)).
    { unfold api_operation, callAPI. rewrite Hdebug, Hdump.
      unfold bind, client_Do, ret. rewrite Hdo. cbn [from_option]. rewrite Hdumpr.
      rewrite Heof. reflexivity. }
    unfold doWithRetries.
    rewrite (bind_Returns _ _ _ _ _
               (Retry_permanent E fuel _ captured_bOff _ _ _ _ _ e Hop eq_refl)).
    reflexivity.
Qed.

Lemma X21_debug_dump_failures_witness :
  doWithRetries (undumpable (fun _ => inl response200_bearer)) 1 config_debug
    context_TODO request0 world0
  = (Returns (request0,
              (Some response200_bearer,
               Some (library_error "httputil" "unexpected EOF"))),
     log (EvSend 0 request0) world0).
Proof.
  destruct (X21_debug_dump_failures (undumpable (fun _ => inl response200_bearer)) 0
              config_debug context_TODO request0 world0
              (library_error "httputil" "unexpected EOF") eq_refl eq_refl)
    as [_ Hresp].
  apply (Hresp response200_bearer); reflexivity.
Defined.

(** ** Cancellation during a backoff *)

Lemma Retry_fail_cancelled (E : Env) {St : Type} (fuel : nat)
    (op : St -> M (St * option error)) (bOff : St -> oktaBackoff)
    (s s1 : St) (w w1 : World) (e : error) (cdone : Z) :
  op s w = (Returns (s1, Some e), w1) ->
  as_Permanent e = None ->
  NextBackOff (bOff s1) <> backoff_Stop ->
  Done_at (ctx (bOff s1)) = Some cdone ->
  cdone < now w1 + Z.max 0 (NextBackOff (bOff s1)) ->
  (Z.max 0 (NextBackOff (bOff s1)) = 0 -> select_timer_first E (now w1) = false) ->
  Retry E (S fuel) op bOff s w
  = (Returns (s1, Some (Err_when_done (ctx (bOff s1)))),
     set_now w1 (Z.max (now w1) cdone)).
Proof.
  intros Hop Hperm Hnext Hdone Hlt Hfirst. cbn [Retry].
  rewrite (bind_Returns _ _ _ _ _ Hop). cbv beta iota. rewrite Hperm.
  destruct (Z.eqb_spec (NextBackOff (bOff s1)) backoff_Stop) as [|_]; [contradiction|].
  unfold bind at 1. unfold select_timer. rewrite Hdone.
  destruct (Z.ltb_spec (now w1 + Z.max 0 (NextBackOff (bOff s1))) cdone) as [|_]; [lia|].
  destruct (Z.eqb_spec cdone (now w1 + Z.max 0 (NextBackOff (bOff s1)))) as [|_]; [lia|].
  cbn [orb].
  destruct (Z.eqb_spec (now w1 + Z.max 0 (NextBackOff (bOff s1))) (now w1))
    as [Hzero|_]; [|reflexivity].
  rewrite Hzero, Hfirst by lia. unfold ret.
  replace (Z.max (now w1) cdone) with (now w1) by lia. reflexivity.
Qed.

(** X22.  When the context is done during the wait that follows a 429
    answer, [doWithRetries] returns the error of the context, with that
    answer, without a second attempt: one request has been sent, and the
    clock stands at the instant the context was done (or at that of the
    answer, if the context was done before it).  When there is no wait at
    all, the context being done already, [select] has both cases ready and
    the same holds if it takes the one of the context. *)
Theorem X22_cancelled_during_backoff (E : Env) (fuel : nat) (config : Configuration)
    (c : Context) (req : Request) (w : World) (r : Response) (delay cdone : Z) :
  dumps_work E config ->
  http_Do E (length (sent w)) req = inl r ->
  StatusCode r = 429 ->
  tryDrainBody r = None ->
  Get429BackoffTime E r = (delay, None) ->
  1 <= RateLimit_MaxRetries config ->
  Done_at c = Some cdone ->
  cdone < now w + retry_wait config delay ->
  (retry_wait config delay = 0 -> select_timer_first E (now w) = false) ->
  exists req' w',
    doWithRetries E (S fuel) config c req w
    = (Returns (req', (Some r, Some (Err_when_done c))), w') /\
    sent w' = sent w ++ [req] /\
    now w' = Z.max (now w) cdone /\
    is_attempt req (Header_Get (resp_Header r) "X-Okta-Request-Id") 1 req'.
Proof.
  intros Hdumps Hdo Hstatus Hdrain Hget Hmax Hdone Hlt Hfirst.
  pose proof (api_operation_429 E config Hdumps
                {| retryCount := 0; maxRetries := RateLimit_MaxRetries config;
                   backoffDuration := 0; ctx := c |} None None req w r delay
                Hdo Hstatus Hdrain Hget) as Hop.
  cbn [retryCount] in Hop. change (int32 (0 + 1)) with 1 in Hop.
  assert (Hnext : NextBackOff
                    (captured_bOff
                       (incr_retryCount
                          (set_backoffDuration
                             {| retryCount := 0;
                                maxRetries := RateLimit_MaxRetries config;
                                backoffDuration := 0; ctx := c |}
                             (Seconds (Z.min delay (RateLimit_MaxBackoff config)))),
                        Some r, @None error,
                        next_attempt req
                          (Header_Get (resp_Header r) "X-Okta-Request-Id") 1))
                  = Seconds (Z.min delay (RateLimit_MaxBackoff config))).
  { unfold NextBackOff, captured_bOff, incr_retryCount, set_backoffDuration.
    cbn [retryCount maxRetries backoffDuration]. change (int32 (0 + 1)) with 1.
    destruct (Z.ltb_spec (RateLimit_MaxRetries config) 1) as [|_]; [lia|reflexivity]. }
  apply (Retry_fail_cancelled E fuel _ captured_bOff _ _ _ _ _ cdone) in Hop;
    [|reflexivity|rewrite Hnext; apply Seconds_not_Stop|exact Hdone
     |rewrite Hnext; exact Hlt|rewrite Hnext; exact Hfirst].
  unfold doWithRetries. rewrite (bind_Returns _ _ _ _ _ Hop).
  eexists _, _. split; [reflexivity|].
  split; [apply sent_log_send|]. split; [reflexivity|].
  apply (is_attempt_next req _ 0 req), is_attempt_0.
Qed.

Lemma X22_cancelled_during_backoff_witness :
  exists req' w',
    doWithRetries (scripted (fun _ => inl response429) no_decode) 1 config0
      (ctx_cancelled_at (5 * time_Second)) request0 world0
    = (Returns (req', (Some response429, Some context_Canceled)), w') /\
    sent w' = sent world0 ++ [request0] /\
    now w' = 5 * time_Second /\
    is_attempt request0 "req-1" 1 req'.
Proof.
  apply (X22_cancelled_during_backoff (scripted (fun _ => inl response429) no_decode) 0
           config0 (ctx_cancelled_at (5 * time_Second)) request0 world0 response429 61
           (5 * time_Second)).
  - intros Hdebug. discriminate Hdebug.
  - reflexivity.
  - reflexivity.
  - reflexivity.
  - vm_compute. reflexivity.
  - cbn. lia.
  - reflexivity.
  - vm_compute. reflexivity.
  - intros Hzero. vm_compute in Hzero. discriminate Hzero.
Defined.

(** ** The signer of the private-key strategies *)

Section Signer.
Context (E : Env).

Lemma PrivateKeyAuth_keeps_signer :
  keeps_signer PrivateKeyAuth.privateKeySigner (PrivateKeyAuth.Authorize E).
Proof.
  intros fuel a method target w a' err w' s. unfold PrivateKeyAuth.Authorize.
  intros Hrun Hs. apply bind_inv in Hrun as ([accessToken hasToken] & w1 & _ & Hrun).
  destruct (hasToken && any_ne_empty_string accessToken).
  - apply bind_inv in Hrun as ([req' err1] & w2 & _ & Hrun).
    unfold ret in Hrun. inversion Hrun; subst. exact Hs.
  - rewrite Hs in Hrun.
    apply bind_inv in Hrun as ([clientAssertion err1] & w2 & _ & Hrun).
    destruct err1 as [e1|]; [unfold ret in Hrun; inversion Hrun; reflexivity|].
    apply bind_inv in Hrun as (result & w3 & _ & Hrun).
    apply bind_inv in Hrun as ([[c0 r] err2] & w4 & _ & Hrun).
    unfold ret in Hrun. inversion Hrun; reflexivity.
Qed.

Lemma JWKAuth_keeps_signer :
  keeps_signer JWKAuth.privateKeySigner (JWKAuth.Authorize E).
Proof.
  intros fuel a method target w a' err w' s. unfold JWKAuth.Authorize.
  intros Hrun Hs. apply bind_inv in Hrun as ([accessToken hasToken] & w1 & _ & Hrun).
  destruct (hasToken && any_ne_empty_string accessToken).
  - apply bind_inv in Hrun as ([req' err1] & w2 & _ & Hrun).
    unfold ret in Hrun. inversion Hrun; subst. exact Hs.
  - destruct (convertJWKToPrivateKey E (JWKAuth.jwk a) (JWKAuth.encryptionType a))
      as [privateKey [e0|]].
    { unfold ret in Hrun. inversion Hrun; subst. exact Hs. }
    rewrite Hs in Hrun.
    apply bind_inv in Hrun as ([clientAssertion err1] & w2 & _ & Hrun).
    destruct err1 as [e1|]; [unfold ret in Hrun; inversion Hrun; reflexivity|].
    apply bind_inv in Hrun as (result & w3 & _ & Hrun).
    apply bind_inv in Hrun as ([[c0 r] err2] & w4 & _ & Hrun).
    unfold ret in Hrun. inversion Hrun; reflexivity.
Qed.

(** A signer made on a miss is kept, whatever comes of the exchange. *)
Lemma PrivateKeyAuth_makes_signer fuel a method target w a' err w' signer :
  PrivateKeyAuth.Authorize E fuel a method target w = (Returns (a', err), w') ->
  token_miss (PrivateKeyAuth.tokenCache a) (now w) ->
  PrivateKeyAuth.privateKeySigner a = None ->
  createKeySigner E (PrivateKeyAuth.privateKey a) (PrivateKeyAuth.privateKeyId a)
  = (signer, None) ->
  PrivateKeyAuth.privateKeySigner a' = signer.
Proof.
  unfold PrivateKeyAuth.Authorize, tokenCache_Get.
  unfold bind at 1 2. unfold time_Now at 1. unfold ret at 1.
  intros Hrun Hmiss Hnone Hmake.
  destruct (goCache_Get (PrivateKeyAuth.tokenCache a) AccessTokenCacheKey (now w))
    as [accessToken hasToken] eqn:Hget.
  rewrite (miss_test _ _ Hmiss _ _ Hget), Hnone, Hmake in Hrun.
  apply bind_inv in Hrun as ([clientAssertion err1] & w2 & _ & Hrun).
  destruct err1 as [e1|]; [unfold ret in Hrun; inversion Hrun; reflexivity|].
  apply bind_inv in Hrun as (result & w3 & _ & Hrun).
  apply bind_inv in Hrun as ([[c0 r] err2] & w4 & _ & Hrun).
  unfold ret in Hrun. inversion Hrun; reflexivity.
Qed.
End Signer.

(** X23.  The signer of [PrivateKeyAuth] and of [JWKAuth] is made once: a
    call of [Authorize] that returns, with or without an error, keeps the
    signer the strategy has; and a call of [PrivateKeyAuth.Authorize] that
    misses the cache without a signer returns the strategy with the signer
    [createKeySigner] made, even when the exchange after it fails. *)
Theorem X23_signer_made_once (E : Env) :
  keeps_signer PrivateKeyAuth.privateKeySigner (PrivateKeyAuth.Authorize E) /\
  keeps_signer JWKAuth.privateKeySigner (JWKAuth.Authorize E) /\
  (forall fuel a method target w a' err w' signer,
     PrivateKeyAuth.Authorize E fuel a method target w = (Returns (a', err), w') ->
     token_miss (PrivateKeyAuth.tokenCache a) (now w) ->
     PrivateKeyAuth.privateKeySigner a = None ->
     createKeySigner E (PrivateKeyAuth.privateKey a) (PrivateKeyAuth.privateKeyId a)
     = (signer, None) ->
     PrivateKeyAuth.privateKeySigner a' = signer).
Proof.
  split; [apply PrivateKeyAuth_keeps_signer|].
  split; [apply JWKAuth_keeps_signer|].
  apply PrivateKeyAuth_makes_signer.
Qed.

Lemma X23_signer_made_once_witness :
  let E := scripted (fun _ => inl response401) decode in
  let a := PrivateKeyAuth.update privateKeyAuth0 (goCache_New (5 * time_Minute)) None
             request0 in
  let run :=
    PrivateKeyAuth.Authorize E 1 a "GET" "https://example.okta.com/api/v1/users"
      world0 in
  exists a',
    run = (Returns (a', Some (errors_New "Empty access token")), snd run) /\
    PrivateKeyAuth.privateKeySigner a' = Some signer0.
Proof.
  intros E a run.
  exists (PrivateKeyAuth.update privateKeyAuth0 (goCache_New (5 * time_Minute))
            (Some signer0) request0).
  assert (Hrun : run = (Returns (PrivateKeyAuth.update privateKeyAuth0
                                   (goCache_New (5 * time_Minute)) (Some signer0)
                                   request0,
                                 Some (errors_New "Empty access token")), snd run))
    by (vm_compute; reflexivity).
  split; [exact Hrun|].
  destruct (X23_signer_made_once E) as (_ & _ & Hmake).
  apply (Hmake 1%nat a "GET" "https://example.okta.com/api/v1/users" world0 _ _ _
           (Some signer0) Hrun); reflexivity.
Defined.

(** ** [StringToAsciiBytes] on text outside ASCII *)

Lemma decodes_back_all :
  forallb decodes_back (map Z.of_nat (seq 128 1920)) = true.
Proof. vm_compute. reflexivity. Qed.

Lemma decodes_back_range (r : Z) : 128 <= r < 2048 -> decodes_back r = true.
Proof.
  intros Hr. pose proof decodes_back_all as Hall.
  rewrite forallb_forall in Hall. apply Hall.
  apply in_map_iff. exists (Z.to_nat r). split; [lia|].
  apply in_seq. lia.
Qed.

Lemma DecodeRune_short (r : Z) (rest : list Z) :
  0 <= r < 2048 ->
  DecodeRune (EncodeRune_short r ++ rest) = (r, length (EncodeRune_short r)).
Proof.
  intros Hr. unfold EncodeRune_short.
  destruct (Z.ltb_spec r 128) as [Hlow|Hhigh].
  - cbn [app DecodeRune length].
    destruct (Z.ltb_spec r 128) as [_|]; [reflexivity|lia].
  - pose proof (decodes_back_range r ltac:(lia)) as Hback.
    unfold decodes_back in Hback. cbv zeta in Hback.
    apply andb_prop in Hback as [Hback Hval]. apply andb_prop in Hback as [H0 H1].
    apply Z.eqb_eq in Hval.
    cbn [app DecodeRune length].
    assert (Hge : (Z.lor 192 (Z.shiftr r 6) <? 128) = false).
    { unfold in_range in H0. apply andb_prop in H0 as [Hlo _].
      apply Z.leb_le in Hlo. apply Z.ltb_ge. lia. }
    rewrite Hge. unfold utf8_first. rewrite H0, H1. cbn [negb Nat.leb].
    rewrite Hval. reflexivity.
Qed.

Lemma runes_fuel_short (rs : list Z) :
  Forall (fun r => 0 <= r < 2048) rs ->
  forall fuel, (length (encode_short rs) <= fuel)%nat ->
  runes_fuel fuel (encode_short rs) = rs.
Proof.
  induction 1 as [|r rs Hr Hrs IH]; intros fuel Hfuel.
  - destruct fuel; reflexivity.
  - unfold encode_short in *. cbn [map concat] in *.
    rewrite length_app in Hfuel.
    assert (Hlen : (1 <= length (EncodeRune_short r))%nat).
    { unfold EncodeRune_short. destruct (r <? 128); cbn; lia. }
    destruct fuel as [|fuel]; [lia|]. cbn [runes_fuel].
    destruct (EncodeRune_short r ++ concat (map EncodeRune_short rs)) as [|b l] eqn:Henc.
    { apply (f_equal (@length Z)) in Henc. rewrite length_app in Henc. cbn in Henc. lia. }
    rewrite <- Henc, DecodeRune_short by exact Hr.
    rewrite skipn_app, skipn_all, Nat.sub_diag. cbn [app skipn].
    f_equal. apply IH. lia.
Qed.

(** X24.  On a string that is the UTF-8 encoding of code points below
    U+0800, [StringToAsciiBytes] returns one byte for each code point, its
    low eight bits: the code points below U+0100 themselves (the bytes of
    the text in Latin-1, not those of the string), and the same byte for
    two code points that differ by a multiple of 256. *)
Theorem X24_low_byte_of_each_code_point (s : string) (rs : list Z) :
  bytes_of_string s = encode_short rs ->
  Forall (fun r => 0 <= r < 2048) rs ->
  StringToAsciiBytes s = map (fun r => r mod 256) rs /\
  (Forall (fun r => r < 256) rs -> StringToAsciiBytes s = rs).
Proof.
  intros Hs Hrs.
  assert (Hrunes : runes s = rs).
  { unfold runes. rewrite Hs. apply runes_fuel_short; [exact Hrs|lia]. }
  unfold StringToAsciiBytes. rewrite Hrunes. split; [reflexivity|].
  intros Hlow. clear Hs Hrunes.
  induction Hrs as [|r rs Hr Hrs IH]; [reflexivity|].
  inversion Hlow; subst. cbn [map].
  rewrite Z.mod_small by lia. f_equal. apply IH. assumption.
Qed.

Lemma X24_low_byte_of_each_code_point_witness :
  StringToAsciiBytes token_e_acute = [233] /\
  StringToAsciiBytes (String (ascii_of_N 197) (String (ascii_of_N 129) EmptyString))
  = [65].
Proof.
  split.
  - apply (X24_low_byte_of_each_code_point token_e_acute [233]).
    + vm_compute. reflexivity.
    + repeat constructor; lia.
    + repeat constructor; lia.
  - apply (X24_low_byte_of_each_code_point
             (String (ascii_of_N 197) (String (ascii_of_N 129) EmptyString)) [321]).
    + vm_compute. reflexivity.
    + repeat constructor; lia.
Defined.
